(** * LinkedIn Comments Scanner v0.6.0: a shallow embedding and its properties

    The development follows [linkedin-comments-scanner_v0.6.0.js]:
    [CONFIG], [ScannerState], [Utils] and the methods of [LinkedInScanner]
    that drive scrolling, extraction, deduplication and export.  The live
    document, the timers of the browser and [localStorage] are explicit
    values that the embedded methods read and update; the rendering of the
    overlay panel is left out, it never writes to the scanner state. *)

From Stdlib Require Import ZArith NArith List Bool Ascii String Lia.
From Stdlib Require Import DecimalN DecimalPos.
From stdpp Require Import base decidable gmap sets.
Import ListNotations.

Local Open Scope Z_scope.

(** ** JavaScript strings

    A string is its sequence of UTF-16 code units.  [lit] embeds an ASCII
    literal of the source. *)

Abbreviation jsstring := (list N).

Definition lit (s : string) : jsstring :=
  List.map N_of_ascii (list_ascii_of_string s).

Module JS.

(** The class [\d] of a regular expression without the unicode flag. *)
Definition isDigit (c : N) : bool := (48 <=? c)%N && (c <=? 57)%N.

(** The class [\s], which is also what [String.prototype.trim] strips:
    WhiteSpace and LineTerminator of ECMAScript. *)
Definition isWhiteSpace (c : N) : bool :=
  ((9 <=? c)%N && (c <=? 13)%N)
  || (c =? 32)%N || (c =? 160)%N || (c =? 5760)%N
  || ((8192 <=? c)%N && (c <=? 8202)%N)
  || (c =? 8232)%N || (c =? 8233)%N || (c =? 8239)%N
  || (c =? 8287)%N || (c =? 12288)%N || (c =? 65279)%N.

Fixpoint startsWith (needle s : jsstring) : bool :=
  match needle, s with
  | [], _ => true
  | _ :: _, [] => false
  | a :: needle', b :: s' => (a =? b)%N && startsWith needle' s'
  end.

(** [s.indexOf(needle) !== -1] *)
Fixpoint includes (needle s : jsstring) : bool :=
  startsWith needle s
  || match s with
     | [] => false
     | _ :: s' => includes needle s'
     end.

Fixpoint trimStart (s : jsstring) : jsstring :=
  match s with
  | [] => []
  | c :: s' => if isWhiteSpace c then trimStart s' else s
  end.

Definition trimEnd (s : jsstring) : jsstring := rev (trimStart (rev s)).

Definition trim (s : jsstring) : jsstring := trimEnd (trimStart s).

(** [s.replace(/c/g, '')] for a character class [c]. *)
Definition removeAll (c : N -> bool) (s : jsstring) : jsstring :=
  List.filter (fun x => negb (c x)) s.

(** The longest prefix of digits and what follows it. *)
Fixpoint spanDigits (s : jsstring) : jsstring * jsstring :=
  match s with
  | [] => ([], [])
  | c :: s' =>
      if isDigit c
      then let (run, rest) := spanDigits s' in (c :: run, rest)
      else ([], s)
  end.

(** [s.match(/\d+/)]: the leftmost match, taken greedily; [None] is
    JavaScript's [null]. *)
Fixpoint matchDigits (s : jsstring) : option jsstring :=
  match s with
  | [] => None
  | c :: s' => if isDigit c then Some (fst (spanDigits s)) else matchDigits s'
  end.

(** The value of a run of decimal digits read from the left, as
    [parseInt(run, 10)] computes it on a run whose value is a safe integer
    ([isSafeInteger] below).  JavaScript numbers are doubles: beyond that
    range [parseInt] gives the nearest double, which the embedding does not
    follow; it keeps the exact integer. *)
Definition digitsValue (run : jsstring) : N :=
  fold_left (fun acc c => 10 * acc + (c - 48))%N run 0%N.

(** [parseInt(s, 10)]; [None] is [NaN]. *)
Definition parseInt10 (s : jsstring) : option Z :=
  let s := trimStart s in
  let '(negative, s) :=
    match s with
    | 45%N :: s' => (true, s')
    | 43%N :: s' => (false, s')
    | _ => (false, s)
    end in
  match fst (spanDigits s) with
  | [] => None
  | run =>
      let v := Z.of_N (digitsValue run) in
      Some (if negative : bool then - v else v)
  end.

Fixpoint uintChars (u : Decimal.uint) : jsstring :=
  match u with
  | Decimal.Nil => []
  | Decimal.D0 u => 48%N :: uintChars u
  | Decimal.D1 u => 49%N :: uintChars u
  | Decimal.D2 u => 50%N :: uintChars u
  | Decimal.D3 u => 51%N :: uintChars u
  | Decimal.D4 u => 52%N :: uintChars u
  | Decimal.D5 u => 53%N :: uintChars u
  | Decimal.D6 u => 54%N :: uintChars u
  | Decimal.D7 u => 55%N :: uintChars u
  | Decimal.D8 u => 56%N :: uintChars u
  | Decimal.D9 u => 57%N :: uintChars u
  end.

(** [String(n)] for a safe integer [n] ([isSafeInteger] below), of which
    JavaScript prints all the digits.  Beyond that range [String] prints
    the shortest digits that identify the double, filled up with zeros, and
    an exponent from 10^21 on, which the embedding does not follow. *)
Definition numberToString (n : Z) : jsstring :=
  if n <? 0
  then 45%N :: uintChars (N.to_uint (Z.abs_N n))
  else uintChars (N.to_uint (Z.to_N n)).

(** [Number.MAX_SAFE_INTEGER]. *)
Definition MAX_SAFE_INTEGER : Z := 2 ^ 53 - 1.

(** [Number.isSafeInteger(n)] on integers: the range in which a number
    holds every integer exactly, [parseInt] reads a run of digits digit by
    digit and [String] writes all the digits.  What is stated below on the
    value that is read from a text, or on the text that is written for a
    value, is stated for safe integers. *)
Definition isSafeInteger (n : Z) : bool := Z.abs n <=? MAX_SAFE_INTEGER.

(** [a || b] on numbers: [0] is the falsy one. *)
Definition orNum (a b : Z) : Z := if a =? 0 then b else a.

(** [a || b] on strings: the empty string is the falsy one. *)
Definition orStr (a b : jsstring) : jsstring :=
  match a with
  | [] => b
  | _ => a
  end.

(** The values a caller can pass where the source expects a number. *)
Inductive value :=
| VNumber (n : Z)
| VString (s : jsstring)
| VUndefined.

End JS.

(** ** Configuration constants *)

Module CONFIG.

Definition COMMENT_THRESHOLDS : list Z := [20; 50; 100; 200; 500].
Definition DEFAULT_THRESHOLD : Z := 100.
Definition SCROLL_INTERVAL_MS : Z := 4000.
Definition MAX_SCROLLS : Z := 200.
Definition SCROLL_END_MARGIN : Z := 150.
Definition SCROLL_DETECTION_DELAY : Z := 2500.
Definition MAX_SCROLL_RETRIES : Z := 3.
Definition CONTENT_LOAD_TIMEOUT : Z := 5000.

(** The substrings of [SELECTORS.COMMENT_BUTTON]: a button of class
    [social-details-social-counts__btn] is selected when its [aria-label]
    contains one of them. *)
Definition COMMENT_LABELS : list jsstring :=
  [ lit "Kommentar"; lit "comment"; lit "Comment"; lit "commentaire";
    lit "comentario"; lit "commento"; lit "reactie";
    lit "coment" ++ [225%N] ++ lit "rio" ].

Definition LOAD_MORE_TEXTS : list jsstring :=
  [ lit "Neue Beitr" ++ [228%N] ++ lit "ge anzeigen";
    lit "Show new posts";
    lit "Afficher les nouveaux posts";
    lit "Mostrar nuevas publicaciones";
    lit "Mostra nuovi post";
    lit "Nieuwe berichten weergeven";
    lit "Mostrar novas publica" ++ [231%N; 245%N] ++ lit "es";
    lit "Ver novas publica" ++ [231%N; 245%N] ++ lit "es" ].

(** The prefix that [scanPosts] puts in front of a post's [data-id]. *)
Definition UPDATE_URL : jsstring := lit "https://www.linkedin.com/feed/update/".

Definition THRESHOLD_KEY : jsstring := lit "scannerCommentThreshold".

End CONFIG.

(** ** The document as the scanner reads it *)

(** A [span] below a counts button. *)
Record Span := {
  ariaHidden : option jsstring;
  innerText : jsstring
}.

(** A descendant [button.social-details-social-counts__btn] of a post, with
    its descendant spans in document order. *)
Record CountsButton := {
  ariaLabel : option jsstring;
  spans : list Span
}.

(** An element matched by [SELECTORS.POSTS]: its own [data-id] attribute,
    the [data-id] attributes of its ancestors from the nearest one up, and
    its counts buttons in document order. *)
Record Post := {
  post_dataId : option jsstring;
  post_ancestors : list (option jsstring);
  post_buttons : list CountsButton
}.

(** An element matched by [SELECTORS.LOAD_MORE_BUTTON]. *)
Record LoadMoreButton := {
  lm_textContent : jsstring;
  lm_innerText : jsstring;
  lm_clickThrows : bool
}.

Record Window := {
  docScrollHeight : Z;
  bodyScrollHeight : Z;
  scrollY : Z;
  pageYOffset : Z;
  innerHeight : Z;
  clientHeight : Z
}.

Record Doc := {
  posts : list Post;
  loadMoreButtons : list LoadMoreButton;
  window : Window;
  href : jsstring;
  hasMutationObserver : bool
}.

(** A node of [mutation.addedNodes], as the observer callback tests it. *)
Record AddedNode := {
  nodeType : Z;
  matchesPosts : bool;
  containsPosts : bool
}.

(** ** Application state *)

Record Result := {
  link : jsstring;
  comments : Z;
  postNode : Post
}.

Record ScannerState := {
  scrollCount : Z;
  scrollInterval : option Z;
  results : list Result;
  seenPostIds : gset (list N);
  paused : bool;
  scrollFailureDetected : bool;
  scrollRetryCount : Z;
  lastScrollHeight : Z;
  mutationObserver : bool;
  contentLoaded : bool;
  commentThreshold : Z
}.

(** The fields [postsVisible], [isMinimized] and [overlayPosition] belong to
    the overlay panel and are not part of the embedding.  [scrollInterval]
    is the handle of the periodic timer, [mutationObserver] tells whether an
    observer is installed. *)

Definition set_scrollCount (v : Z) (st : ScannerState) : ScannerState :=
  {| scrollCount := v; scrollInterval := scrollInterval st;
     results := results st; seenPostIds := seenPostIds st;
     paused := paused st; scrollFailureDetected := scrollFailureDetected st;
     scrollRetryCount := scrollRetryCount st;
     lastScrollHeight := lastScrollHeight st;
     mutationObserver := mutationObserver st;
     contentLoaded := contentLoaded st;
     commentThreshold := commentThreshold st |}.

Definition set_scrollInterval (v : option Z) (st : ScannerState) : ScannerState :=
  {| scrollCount := scrollCount st; scrollInterval := v;
     results := results st; seenPostIds := seenPostIds st;
     paused := paused st; scrollFailureDetected := scrollFailureDetected st;
     scrollRetryCount := scrollRetryCount st;
     lastScrollHeight := lastScrollHeight st;
     mutationObserver := mutationObserver st;
     contentLoaded := contentLoaded st;
     commentThreshold := commentThreshold st |}.

Definition set_results (v : list Result) (st : ScannerState) : ScannerState :=
  {| scrollCount := scrollCount st; scrollInterval := scrollInterval st;
     results := v; seenPostIds := seenPostIds st;
     paused := paused st; scrollFailureDetected := scrollFailureDetected st;
     scrollRetryCount := scrollRetryCount st;
     lastScrollHeight := lastScrollHeight st;
     mutationObserver := mutationObserver st;
     contentLoaded := contentLoaded st;
     commentThreshold := commentThreshold st |}.

Definition set_seenPostIds (v : gset (list N)) (st : ScannerState) : ScannerState :=
  {| scrollCount := scrollCount st; scrollInterval := scrollInterval st;
     results := results st; seenPostIds := v;
     paused := paused st; scrollFailureDetected := scrollFailureDetected st;
     scrollRetryCount := scrollRetryCount st;
     lastScrollHeight := lastScrollHeight st;
     mutationObserver := mutationObserver st;
     contentLoaded := contentLoaded st;
     commentThreshold := commentThreshold st |}.

Definition set_paused (v : bool) (st : ScannerState) : ScannerState :=
  {| scrollCount := scrollCount st; scrollInterval := scrollInterval st;
     results := results st; seenPostIds := seenPostIds st;
     paused := v; scrollFailureDetected := scrollFailureDetected st;
     scrollRetryCount := scrollRetryCount st;
     lastScrollHeight := lastScrollHeight st;
     mutationObserver := mutationObserver st;
     contentLoaded := contentLoaded st;
     commentThreshold := commentThreshold st |}.

Definition set_scrollFailureDetected (v : bool) (st : ScannerState) : ScannerState :=
  {| scrollCount := scrollCount st; scrollInterval := scrollInterval st;
     results := results st; seenPostIds := seenPostIds st;
     paused := paused st; scrollFailureDetected := v;
     scrollRetryCount := scrollRetryCount st;
     lastScrollHeight := lastScrollHeight st;
     mutationObserver := mutationObserver st;
     contentLoaded := contentLoaded st;
     commentThreshold := commentThreshold st |}.

Definition set_scrollRetryCount (v : Z) (st : ScannerState) : ScannerState :=
  {| scrollCount := scrollCount st; scrollInterval := scrollInterval st;
     results := results st; seenPostIds := seenPostIds st;
     paused := paused st; scrollFailureDetected := scrollFailureDetected st;
     scrollRetryCount := v;
     lastScrollHeight := lastScrollHeight st;
     mutationObserver := mutationObserver st;
     contentLoaded := contentLoaded st;
     commentThreshold := commentThreshold st |}.

Definition set_lastScrollHeight (v : Z) (st : ScannerState) : ScannerState :=
  {| scrollCount := scrollCount st; scrollInterval := scrollInterval st;
     results := results st; seenPostIds := seenPostIds st;
     paused := paused st; scrollFailureDetected := scrollFailureDetected st;
     scrollRetryCount := scrollRetryCount st;
     lastScrollHeight := v;
     mutationObserver := mutationObserver st;
     contentLoaded := contentLoaded st;
     commentThreshold := commentThreshold st |}.

Definition set_mutationObserver (v : bool) (st : ScannerState) : ScannerState :=
  {| scrollCount := scrollCount st; scrollInterval := scrollInterval st;
     results := results st; seenPostIds := seenPostIds st;
     paused := paused st; scrollFailureDetected := scrollFailureDetected st;
     scrollRetryCount := scrollRetryCount st;
     lastScrollHeight := lastScrollHeight st;
     mutationObserver := v;
     contentLoaded := contentLoaded st;
     commentThreshold := commentThreshold st |}.

Definition set_contentLoaded (v : bool) (st : ScannerState) : ScannerState :=
  {| scrollCount := scrollCount st; scrollInterval := scrollInterval st;
     results := results st; seenPostIds := seenPostIds st;
     paused := paused st; scrollFailureDetected := scrollFailureDetected st;
     scrollRetryCount := scrollRetryCount st;
     lastScrollHeight := lastScrollHeight st;
     mutationObserver := mutationObserver st;
     contentLoaded := v;
     commentThreshold := commentThreshold st |}.

Definition set_commentThreshold (v : Z) (st : ScannerState) : ScannerState :=
  {| scrollCount := scrollCount st; scrollInterval := scrollInterval st;
     results := results st; seenPostIds := seenPostIds st;
     paused := paused st; scrollFailureDetected := scrollFailureDetected st;
     scrollRetryCount := scrollRetryCount st;
     lastScrollHeight := lastScrollHeight st;
     mutationObserver := mutationObserver st;
     contentLoaded := contentLoaded st;
     commentThreshold := v |}.

(** ** The browser around the scanner: timers, storage, visible effects *)

(** The three functions the source hands to [setTimeout] and
    [setInterval]. *)
Inductive Callback :=
| CbScanPosts
| CbValidateScroll (prevScroll prevHeight : Z)
| CbScrollAndScan.

(** A pending timer: [period] is [Some] for [setInterval]. *)
Record Timer := {
  timerId : Z;
  due : Z;
  period : option Z;
  callback : Callback
}.

Inductive FailureReason := EndOfFeed | ScrollBlocked.

Inductive Effect :=
| ScrollTo (top : Z)
| Click (button : LoadMoreButton)
| AlertMaxScrolls (found : nat)
| AlertFailure (reason : FailureReason) (found : nat)
| AlertWrongPage.

(** [localStorage]: [None] when every access throws. *)
Abbreviation Storage := (option (list (jsstring * jsstring))).

(** A [LinkedInScanner] instance with the browser facilities it uses:
    [clock] in milliseconds, the pending [timers], the storage and the log
    of what the scanner did to the page, latest first. *)
Record Scanner := {
  state : ScannerState;
  clock : Z;
  timers : list Timer;
  nextTimerId : Z;
  localStorage : Storage;
  effects : list Effect
}.

Definition withState (f : ScannerState -> ScannerState) (s : Scanner) : Scanner :=
  {| state := f (state s); clock := clock s; timers := timers s;
     nextTimerId := nextTimerId s; localStorage := localStorage s;
     effects := effects s |}.

Definition withStorage (v : Storage) (s : Scanner) : Scanner :=
  {| state := state s; clock := clock s; timers := timers s;
     nextTimerId := nextTimerId s; localStorage := v;
     effects := effects s |}.

Definition withTimers (v : list Timer) (s : Scanner) : Scanner :=
  {| state := state s; clock := clock s; timers := v;
     nextTimerId := nextTimerId s; localStorage := localStorage s;
     effects := effects s |}.

Definition withClock (v : Z) (s : Scanner) : Scanner :=
  {| state := state s; clock := v; timers := timers s;
     nextTimerId := nextTimerId s; localStorage := localStorage s;
     effects := effects s |}.

Definition emit (e : Effect) (s : Scanner) : Scanner :=
  {| state := state s; clock := clock s; timers := timers s;
     nextTimerId := nextTimerId s; localStorage := localStorage s;
     effects := e :: effects s |}.

Module Browser.

Definition addTimer (cb : Callback) (delay : Z) (every : option Z)
    (s : Scanner) : Z * Scanner :=
  let t := {| timerId := nextTimerId s; due := clock s + delay;
              period := every; callback := cb |} in
  (nextTimerId s,
   {| state := state s; clock := clock s; timers := timers s ++ [t];
      nextTimerId := nextTimerId s + 1; localStorage := localStorage s;
      effects := effects s |}).

Definition setTimeout (cb : Callback) (delay : Z) (s : Scanner) : Scanner :=
  snd (addTimer cb delay None s).

Definition setInterval (cb : Callback) (every : Z) (s : Scanner) : Z * Scanner :=
  addTimer cb every (Some every) s.

Definition clearInterval (id : Z) (s : Scanner) : Scanner :=
  withTimers (List.filter (fun t => negb (timerId t =? id)) (timers s)) s.

Fixpoint getItem (key : jsstring) (kv : list (jsstring * jsstring))
    : option jsstring :=
  match kv with
  | [] => None
  | (k, v) :: kv' => if bool_decide (k = key) then Some v else getItem key kv'
  end.

Fixpoint setItem (key v : jsstring) (kv : list (jsstring * jsstring))
    : list (jsstring * jsstring) :=
  match kv with
  | [] => [(key, v)]
  | (k, v') :: kv' =>
      if bool_decide (k = key) then (key, v) :: kv'
      else (k, v') :: setItem key v kv'
  end.

End Browser.

(** ** [ScannerState] *)

Module State.

(** [CONFIG.COMMENT_THRESHOLDS.indexOf(value)] *)
Fixpoint indexOfFrom (value : Z) (l : list Z) (i : Z) : Z :=
  match l with
  | [] => -1
  | x :: l' => if x =? value then i else indexOfFrom value l' (i + 1)
  end.

Definition indexOf (value : Z) (l : list Z) : Z := indexOfFrom value l 0.

Definition getSavedThreshold (storage : Storage) : Z :=
  match storage with
  | None => CONFIG.DEFAULT_THRESHOLD
  | Some kv =>
      let saved :=
        match Browser.getItem CONFIG.THRESHOLD_KEY kv with
        | Some text => JS.parseInt10 text
        | None => None
        end in
      match saved with
      | Some n =>
          if negb (indexOf n CONFIG.COMMENT_THRESHOLDS =? -1) then n
          else CONFIG.DEFAULT_THRESHOLD
      | None => CONFIG.DEFAULT_THRESHOLD
      end
  end.

Definition new (storage : Storage) : ScannerState :=
  {| scrollCount := 0; scrollInterval := None;
     results := []; seenPostIds := ∅;
     paused := false; scrollFailureDetected := false;
     scrollRetryCount := 0; lastScrollHeight := 0;
     mutationObserver := false; contentLoaded := false;
     commentThreshold := getSavedThreshold storage |}.

(** [indexOf] compares with [===]: only a number can be found in the
    table.  A failing [localStorage.setItem] is swallowed. *)
Definition setThreshold (value : JS.value) (s : Scanner) : Scanner :=
  match value with
  | JS.VNumber n =>
      if negb (indexOf n CONFIG.COMMENT_THRESHOLDS =? -1)
      then
        let s := withState (set_commentThreshold n) s in
        match localStorage s with
        | Some kv =>
            withStorage
              (Some (Browser.setItem CONFIG.THRESHOLD_KEY (JS.numberToString n) kv)) s
        | None => s
        end
      else s
  | _ => s
  end.

Definition reset (st : ScannerState) : ScannerState :=
  set_paused false
    (set_scrollRetryCount 0
      (set_scrollFailureDetected false
        (set_scrollCount 0 st))).

Definition addResult (result : Result) (st : ScannerState)
    : bool * ScannerState :=
  if negb (existsb (fun r => bool_decide (link r = link result)) (results st))
  then (true, set_results (result :: results st) st)
  else (false, st).

End State.

(** ** [Utils] *)

Record ScrollInfo := {
  maxScroll : Z;
  currentScroll : Z;
  nearBottom : bool;
  windowHeight : Z
}.

Module Utils.

Definition isDot (c : N) : bool := (c =? 46)%N.
Definition isComma (c : N) : bool := (c =? 44)%N.

Definition cleaned (text : jsstring) : jsstring :=
  JS.removeAll JS.isWhiteSpace (JS.removeAll isComma (JS.removeAll isDot text)).

Definition extractNumber (text : jsstring) : Z :=
  match JS.matchDigits (cleaned text) with
  | Some run => Z.of_N (JS.digitsValue run)
  | None => 0
  end.

Definition getScrollInfo (w : Window) : ScrollInfo :=
  let maxScroll :=
    Z.max (JS.orNum (docScrollHeight w) 0) (JS.orNum (bodyScrollHeight w) 0) in
  let currentScroll := JS.orNum (JS.orNum (scrollY w) (pageYOffset w)) 0 in
  let windowHeight := JS.orNum (JS.orNum (innerHeight w) (clientHeight w)) 0 in
  {| maxScroll := maxScroll;
     currentScroll := currentScroll;
     nearBottom :=
       currentScroll + windowHeight >=? maxScroll - CONFIG.SCROLL_END_MARGIN;
     windowHeight := windowHeight |}.

(** [element.closest('[data-id]')], given as the [data-id] attribute of
    the element found: the element itself or its nearest ancestor that
    carries the attribute. *)
Fixpoint firstDataId (chain : list (option jsstring)) : option jsstring :=
  match chain with
  | [] => None
  | Some a :: _ => Some a
  | None :: chain' => firstDataId chain'
  end.

Definition getParentWithDataId (element : Post) : option jsstring :=
  firstDataId (post_dataId element :: post_ancestors element).

End Utils.

(** ** [LinkedInScanner] *)

Module LinkedInScanner.

(** *** Extraction *)

Definition getPostDataId (post : Post) : option jsstring :=
  match post_dataId post with
  | Some (c :: id) => Some (c :: id)
  | _ => Utils.getParentWithDataId post
  end.

Definition isValidPost (dataId : option jsstring) (st : ScannerState) : bool :=
  match dataId with
  | Some (c :: id) =>
      negb (bool_decide (c :: id ∈ seenPostIds st))
      && JS.includes (lit "activity:") (c :: id)
  | _ => false
  end.

Definition isCommentButton (b : CountsButton) : bool :=
  match ariaLabel b with
  | Some label => existsb (fun text => JS.includes text label) CONFIG.COMMENT_LABELS
  | None => false
  end.

Definition isCommentSpan (sp : Span) : bool :=
  bool_decide (ariaHidden sp = Some (lit "true")).

Definition getCommentCount (post : Post) : Z :=
  match List.find isCommentButton (post_buttons post) with
  | None => 0
  | Some commentButton =>
      let commentText :=
        match List.find isCommentSpan (spans commentButton) with
        | Some span => JS.trim (innerText span)
        | None => []
        end in
      Utils.extractNumber commentText
  end.

(** The loop of [scanPosts] over [posts] from index [i] on. *)
Fixpoint scanLoop (posts : list Post) (foundNew : Z) (st : ScannerState)
    : Z * ScannerState :=
  match posts with
  | [] => (foundNew, st)
  | post :: posts' =>
      let dataId := getPostDataId post in
      match dataId with
      | Some id =>
          if negb (isValidPost dataId st) then scanLoop posts' foundNew st
          else
            let st := set_seenPostIds ({[ id ]} ∪ seenPostIds st) st in
            let commentCount := getCommentCount post in
            if commentCount >=? commentThreshold st then
              let result :=
                {| link := CONFIG.UPDATE_URL ++ id;
                   comments := commentCount;
                   postNode := post |} in
              let (added, st) := State.addResult result st in
              scanLoop posts' (if added then foundNew + 1 else foundNew) st
            else scanLoop posts' foundNew st
      | None => scanLoop posts' foundNew st
      end
  end.

Definition scanPosts (doc : Doc) (st : ScannerState) : Z * ScannerState :=
  scanLoop (posts doc) 0 st.

(** *** The load-more button *)

Definition buttonText (b : LoadMoreButton) : jsstring :=
  JS.trim (JS.orStr (JS.orStr (lm_textContent b) (lm_innerText b)) []).

(** The inner loop over [LOAD_MORE_TEXTS] for one button: [true] when a
    text matched and the click went through. *)
Fixpoint tryTexts (b : LoadMoreButton) (texts : list jsstring) : bool :=
  match texts with
  | [] => false
  | text :: texts' =>
      if JS.includes text (buttonText b)
      then if lm_clickThrows b then tryTexts b texts' else true
      else tryTexts b texts'
  end.

Fixpoint findLoadMore (buttons : list LoadMoreButton) : option LoadMoreButton :=
  match buttons with
  | [] => None
  | b :: buttons' =>
      if tryTexts b CONFIG.LOAD_MORE_TEXTS then Some b else findLoadMore buttons'
  end.

Definition clickLoadMoreButton (doc : Doc) (s : Scanner) : bool * Scanner :=
  match findLoadMore (loadMoreButtons doc) with
  | Some b => (true, emit (Click b) s)
  | None => (false, s)
  end.

(** *** The scroll driver *)

Definition stopScrolling (s : Scanner) : Scanner :=
  match scrollInterval (state s) with
  | Some id =>
      withState (set_scrollInterval None) (Browser.clearInterval id s)
  | None => s
  end.

Definition handleMaxScrollsReached (s : Scanner) : Scanner :=
  let s := withState (set_paused true) s in
  let s := stopScrolling s in
  emit (AlertMaxScrolls (length (results (state s)))) s.

Definition handleScrollFailure (reason : FailureReason) (s : Scanner) : Scanner :=
  let s := withState (set_paused true) s in
  let s := withState (set_scrollFailureDetected true) s in
  let s := stopScrolling s in
  emit (AlertFailure reason (length (results (state s)))) s.

Definition scrollAndScan (doc : Doc) (s : Scanner) : Scanner :=
  if paused (state s) || scrollFailureDetected (state s) then s
  else
    let (clicked, s) := clickLoadMoreButton doc s in
    if clicked then Browser.setTimeout CbScanPosts 2000 s
    else
      let scrollInfo := Utils.getScrollInfo (window doc) in
      let prevScroll := currentScroll scrollInfo in
      let prevHeight := maxScroll scrollInfo in
      let s := withState (fun st => set_scrollCount (scrollCount st + 1) st) s in
      let s := withState (set_contentLoaded false) s in
      if scrollCount (state s) >=? CONFIG.MAX_SCROLLS
      then handleMaxScrollsReached s
      else
        let s := emit (ScrollTo (maxScroll scrollInfo)) s in
        Browser.setTimeout (CbValidateScroll prevScroll prevHeight)
          CONFIG.SCROLL_DETECTION_DELAY s.

Definition runScan (doc : Doc) (s : Scanner) : Scanner :=
  withState (fun st => snd (scanPosts doc st)) s.

Definition validateScroll (doc : Doc) (prevScroll prevHeight : Z) (s : Scanner)
    : Scanner :=
  let scrollInfo := Utils.getScrollInfo (window doc) in
  let currentScroll := currentScroll scrollInfo in
  let currentHeight := maxScroll scrollInfo in
  let pageGrew := currentHeight >? prevHeight + 100 in
  let didScroll := Z.abs (currentScroll - prevScroll) >? 50 in
  let contentDetected := contentLoaded (state s) in
  if pageGrew || didScroll || contentDetected then
    let s := withState (set_scrollRetryCount 0) s in
    runScan doc s
  else if nearBottom scrollInfo then
    let (clicked, s) := clickLoadMoreButton doc s in
    if clicked then
      let s := withState (set_scrollRetryCount 0) s in
      Browser.setTimeout CbScanPosts 2000 s
    else
      let s := withState (fun st => set_scrollRetryCount (scrollRetryCount st + 1) st) s in
      if scrollRetryCount (state s) >=? CONFIG.MAX_SCROLL_RETRIES
      then handleScrollFailure EndOfFeed s
      else Browser.setTimeout CbScrollAndScan CONFIG.CONTENT_LOAD_TIMEOUT s
  else
    let s := withState (fun st => set_scrollRetryCount (scrollRetryCount st + 1) st) s in
    if scrollRetryCount (state s) >=? CONFIG.MAX_SCROLL_RETRIES
    then handleScrollFailure ScrollBlocked s
    else runScan doc s.

Definition startScanning (doc : Doc) (s : Scanner) : Scanner :=
  match scrollInterval (state s) with
  | Some _ => s
  | None =>
      let s :=
        withState
          (set_lastScrollHeight (maxScroll (Utils.getScrollInfo (window doc)))) s in
      let s := scrollAndScan doc s in
      let (id, s) :=
        Browser.setInterval CbScrollAndScan CONFIG.SCROLL_INTERVAL_MS s in
      withState (set_scrollInterval (Some id)) s
  end.

Definition togglePause (doc : Doc) (s : Scanner) : Scanner :=
  if paused (state s)
  then startScanning doc (withState State.reset s)
  else stopScrolling (withState (set_paused true) s).

Definition setThreshold (value : JS.value) (s : Scanner) : Scanner :=
  State.setThreshold value s.

(** *** The mutation observer *)

Definition addsPost (added : list AddedNode) : bool :=
  existsb (fun node => (nodeType node =? 1)
                       && (matchesPosts node || containsPosts node)) added.

(** The callback handed to [MutationObserver]: one list of added nodes per
    mutation record. *)
Definition observerCallback (mutations : list (list AddedNode))
    (st : ScannerState) : ScannerState :=
  if existsb addsPost mutations then set_contentLoaded true st else st.

Definition setupMutationObserver (doc : Doc) (s : Scanner) : Scanner :=
  if hasMutationObserver doc
  then withState (set_mutationObserver true) s
  else s.

(** *** Teardown *)

Definition close (s : Scanner) : Scanner :=
  let s := stopScrolling s in
  let s :=
    if mutationObserver (state s)
    then withState (set_mutationObserver false) s
    else s in
  let s := withState (set_seenPostIds ∅) s in
  withState (set_results []) s.

(** *** Construction *)

Definition validateEnvironment (doc : Doc) : bool :=
  JS.includes (lit "linkedin.com/feed") (href doc).

Definition init (doc : Doc) (s : Scanner) : Scanner :=
  if negb (validateEnvironment doc) then emit AlertWrongPage s
  else startScanning doc (setupMutationObserver doc s).

(** [new LinkedInScanner()] in a page [doc] with the given storage; timer
    handles start at 1, so that a handle is never falsy. *)
Definition new (doc : Doc) (storage : Storage) : Scanner :=
  init doc
    {| state := State.new storage; clock := 0; timers := [];
       nextTimerId := 1; localStorage := storage; effects := [] |}.

(** *** Export *)

(** [link.match(/activity:(\d+)/)], the captured group. *)
Fixpoint matchActivity (s : jsstring) : option jsstring :=
  match s with
  | [] => None
  | _ :: s' =>
      if JS.startsWith (lit "activity:") s
      then match fst (JS.spanDigits (skipn 9 s)) with
           | [] => matchActivity s'
           | run => Some run
           end
      else matchActivity s'
  end.

Definition postIdOf (r : Result) : jsstring :=
  match matchActivity (link r) with
  | Some digits => digits
  | None => link r
  end.









End LinkedInScanner.

(** ** Runs of the scanner

    JavaScript runs one callback at a time.  A run is a sequence of events,
    each with the document as it is when the event is handled: a pending
    timer fires, the observer reports mutations, or the user acts on the
    panel. *)

Module Run.

Import LinkedInScanner.

Definition runCallback (doc : Doc) (cb : Callback) (s : Scanner) : Scanner :=
  match cb with
  | CbScanPosts => runScan doc s
  | CbValidateScroll prevScroll prevHeight =>
      validateScroll doc prevScroll prevHeight s
  | CbScrollAndScan => scrollAndScan doc s
  end.

(** A timeout is dropped once it has fired, an interval is put off by its
    period. *)
Definition afterFiring (t : Timer) (ts : list Timer) : list Timer :=
  match period t with
  | Some every =>
      List.map
        (fun t' =>
           if timerId t' =? timerId t
           then {| timerId := timerId t'; due := due t' + every;
                   period := period t'; callback := callback t' |}
           else t') ts
  | None => List.filter (fun t' => negb (timerId t' =? timerId t)) ts
  end.

Definition fire (doc : Doc) (id : Z) (s : Scanner) : Scanner :=
  match List.find (fun t => timerId t =? id) (timers s) with
  | None => s
  | Some t =>
      let s := withClock (Z.max (clock s) (due t)) s in
      let s := withTimers (afterFiring t (timers s)) s in
      runCallback doc (callback t) s
  end.

Inductive Event :=
| Fire (id : Z)
| Mutations (mutations : list (list AddedNode))
| TogglePause
| SetThreshold (value : JS.value)
| Close.

Definition step (doc : Doc) (e : Event) (s : Scanner) : Scanner :=
  match e with
  | Fire id => fire doc id s
  | Mutations mutations =>
      if mutationObserver (state s)
      then withState (observerCallback mutations) s
      else s
  | TogglePause => togglePause doc s
  | SetThreshold value => setThreshold value s
  | Close => close s
  end.

Fixpoint run (events : list (Doc * Event)) (s : Scanner) : Scanner :=
  match events with
  | [] => s
  | (doc, e) :: events' => run events' (step doc e s)
  end.

(** The timer that is due first; the earlier registration wins a tie. *)
Fixpoint nextDue (ts : list Timer) : option Timer :=
  match ts with
  | [] => None
  | t :: ts' =>
      match nextDue ts' with
      | Some t' => if due t' <? due t then Some t' else Some t
      | None => Some t
      end
  end.

(** Timers firing on time: each document of [docs] is what the next due
    timer finds. *)
Fixpoint runPunctual (docs : list Doc) (s : Scanner) : Scanner :=
  match docs with
  | [] => s
  | doc :: docs' =>
      match nextDue (timers s) with
      | Some t => runPunctual docs' (fire doc (timerId t) s)
      | None => s
      end
  end.

(** A cycle is in flight while its validation or its deferred scan is
    still pending. *)
Definition isCycleStep (t : Timer) : bool :=
  match callback t with
  | CbValidateScroll _ _ => true
  | CbScanPosts => true
  | CbScrollAndScan => false
  end.

Definition cycleInFlight (s : Scanner) : bool := existsb isCycleStep (timers s).

Definition pendingValidations (s : Scanner) : nat :=
  length (List.filter
            (fun t => match callback t with
                      | CbValidateScroll _ _ => true
                      | _ => false
                      end) (timers s)).

End Run.

(** ** Sample documents *)

Module Sample.

Definition counts (text : string) : CountsButton :=
  {| ariaLabel := Some (lit "3 comments on this post");
     spans := [ {| ariaHidden := Some (lit "true"); innerText := lit text |} ] |}.

Definition post (id text : string) : Post :=
  {| post_dataId := Some (lit id); post_ancestors := [];
     post_buttons := [counts text] |}.

(** A page scrolled to the end of a feed that loads nothing more. *)
Definition endOfFeed : Window :=
  {| docScrollHeight := 5000; bodyScrollHeight := 5000;
     scrollY := 4200; pageYOffset := 4200;
     innerHeight := 800; clientHeight := 800 |}.

(** A page whose scroll position is stuck above the end. *)
Definition stuck : Window :=
  {| docScrollHeight := 5000; bodyScrollHeight := 5000;
     scrollY := 1000; pageYOffset := 1000;
     innerHeight := 800; clientHeight := 800 |}.

Definition page (ps : list Post) (bs : list LoadMoreButton) (w : Window) : Doc :=
  {| posts := ps; loadMoreButtons := bs; window := w;
     href := lit "https://www.linkedin.com/feed/";
     hasMutationObserver := true |}.

Definition showNewPosts : LoadMoreButton :=
  {| lm_textContent := lit "  Show new posts "; lm_innerText := [];
     lm_clickThrows := false |}.

(** Scenario A of the specification. *)
Definition scenarioA : Doc :=
  page [ post "urn:li:activity:7001" "250";
         post "urn:li:activity:7002" "50";
         post "urn:li:activity:7003" "10" ] [] endOfFeed.

Definition fresh : ScannerState := State.new (Some []).

(** The end of a feed: no posts, nothing more to load. *)
Definition bottom : Doc := page [] [] endOfFeed.

(** The same page once a load-more button has appeared. *)
Definition bottomWithButton : Doc := page [] [showNewPosts] endOfFeed.


End Sample.

(** ** What a validation finds *)

Module Driver.

Import LinkedInScanner.

(** The three tests of [validateScroll] all fail: the page did not grow,
    the position did not move, the observer flagged nothing. *)
Definition noProgress (doc : Doc) (prevScroll prevHeight : Z) (s : Scanner)
    : bool :=
  let scrollInfo := Utils.getScrollInfo (window doc) in
  negb ((maxScroll scrollInfo >? prevHeight + 100)
        || (Z.abs (currentScroll scrollInfo - prevScroll) >? 50)
        || contentLoaded (state s)).

(** Near the bottom with a load-more button that takes the click. *)
Definition loadMoreAtBottom (doc : Doc) : bool :=
  nearBottom (Utils.getScrollInfo (window doc))
  && match findLoadMore (loadMoreButtons doc) with
     | Some _ => true
     | None => false
     end.

(** A stall: no progress, and no load-more button was activated. *)
Definition stall (doc : Doc) (prevScroll prevHeight : Z) (s : Scanner) : bool :=
  noProgress doc prevScroll prevHeight s && negb (loadMoreAtBottom doc).

(** A validation as the run hands it to [validateScroll]. *)
Record Validation := {
  v_doc : Doc;
  v_prevScroll : Z;
  v_prevHeight : Z
}.

Definition validate (v : Validation) (s : Scanner) : Scanner :=
  validateScroll (v_doc v) (v_prevScroll v) (v_prevHeight v) s.

Fixpoint validateAll (vs : list Validation) (s : Scanner) : Scanner :=
  match vs with
  | [] => s
  | v :: vs' => validateAll vs' (validate v s)
  end.

(** Every validation of the list is a stall in the state it finds. *)
Fixpoint allStall (vs : list Validation) (s : Scanner) : bool :=
  match vs with
  | [] => true
  | v :: vs' =>
      stall (v_doc v) (v_prevScroll v) (v_prevHeight v) s
      && allStall vs' (validate v s)
  end.

(** Every validation of the list finds no progress. *)
Fixpoint allNoProgress (vs : list Validation) (s : Scanner) : bool :=
  match vs with
  | [] => true
  | v :: vs' =>
      noProgress (v_doc v) (v_prevScroll v) (v_prevHeight v) s
      && allNoProgress vs' (validate v s)
  end.

(** The callback that an event of a run fires, if any. *)
Definition firedCallback (e : Run.Event) (s : Scanner) : option Callback :=
  match e with
  | Run.Fire id =>
      match List.find (fun t => timerId t =? id) (timers s) with
      | Some t => Some (callback t)
      | None => None
      end
  | _ => None
  end.

(** The event is harmless for a streak of stalls: every validation it
    fires is a stall, and it is not the user resuming or pausing. *)
Definition keepsStreak (doc : Doc) (e : Run.Event) (s : Scanner) : bool :=
  match e with
  | Run.TogglePause => false
  | _ =>
      match firedCallback e s with
      | Some (CbValidateScroll prevScroll prevHeight) =>
          stall doc prevScroll prevHeight s
      | _ => true
      end
  end.

Fixpoint stallsOnly (events : list (Doc * Run.Event)) (s : Scanner) : bool :=
  match events with
  | [] => true
  | (doc, e) :: events' =>
      keepsStreak doc e s && stallsOnly events' (Run.step doc e s)
  end.

(** The number of validations that a run performs. *)
Fixpoint validations (events : list (Doc * Run.Event)) (s : Scanner) : Z :=
  match events with
  | [] => 0
  | (doc, e) :: events' =>
      (match firedCallback e s with
       | Some (CbValidateScroll _ _) => 1
       | _ => 0
       end) + validations events' (Run.step doc e s)
  end.

End Driver.

(** ** Reading the tabular export back *)

Module Csv.

Import LinkedInScanner.









End Csv.

(** ** The result store of the specification *)

Module IdStore.

(** Modelled from the spec: the record of section 3, with the raw
    identifier of the item as its [id]. *)
Record Record_ := {
  id : jsstring;
  metricValue : Z;
  sourceRef : Post
}.

(** Modelled from the spec: [addIfNew] of section 4.5, which rejects a
    record whose [id] is present and otherwise inserts it at the head. *)
Definition addIfNew (record : Record_) (store : list Record_)
    : bool * list Record_ :=
  if existsb (fun r => bool_decide (id r = id record)) store
  then (false, store)
  else (true, record :: store).

Fixpoint addAll (records : list Record_) (store : list Record_) : list Record_ :=
  match records with
  | [] => store
  | record :: records' => addAll records' (snd (addIfNew record store))
  end.

(** The object that [scanPosts] builds for the record: its link is the
    fixed prefix followed by the identifier. *)
Definition toResult (record : Record_) : Result :=
  {| link := CONFIG.UPDATE_URL ++ id record;
     comments := metricValue record;
     postNode := sourceRef record |}.

End IdStore.

(** The same insertions through [addResult], which compares links. *)
Fixpoint addResults (rs : list Result) (st : ScannerState) : ScannerState :=
  match rs with
  | [] => st
  | r :: rs' => addResults rs' (snd (State.addResult r st))
  end.

(** The raw identifier behind a link built by [scanPosts]. *)
Fixpoint stripPrefix (prefix s : jsstring) : option jsstring :=
  match prefix, s with
  | [], _ => Some s
  | _ :: _, [] => None
  | a :: prefix', b :: s' => if (a =? b)%N then stripPrefix prefix' s' else None
  end.

Definition rawId (r : Result) : option jsstring :=
  stripPrefix CONFIG.UPDATE_URL (link r).

(** The characters that [extractNumber] keeps. *)
Definition kept (c : N) : bool :=
  negb (Utils.isDot c || Utils.isComma c || JS.isWhiteSpace c).

(** The result that [scanPosts] builds for a post whose identifier is
    [id]. *)
Definition scanned (post : Post) (id : jsstring) : Result :=
  {| link := CONFIG.UPDATE_URL ++ id;
     comments := LinkedInScanner.getCommentCount post;
     postNode := post |}.

(** The results of a state are those of distinct items: every link is the
    prefix followed by an identifier, and no two links are equal. *)
Definition uniqueLinks (st : ScannerState) : Prop :=
  List.NoDup (List.map link (results st))
  /\ Forall (fun r => exists id, link r = CONFIG.UPDATE_URL ++ id) (results st).

(** ** Further observations on the scanner *)

(** What [scanPosts] reads and writes of the state: the results, the seen
    identifiers and the threshold. *)
Definition storeOf (st : ScannerState) : list Result * gset (list N) * Z :=
  (results st, seenPostIds st, commentThreshold st).

(** The targets of the scroll commands issued so far, latest first. *)
Definition scrollCommands (s : Scanner) : list Z :=
  flat_map (fun e => match e with
                     | ScrollTo top => [top]
                     | _ => []
                     end) (effects s).

Definition isPeriodic (t : Timer) : bool :=
  match period t with
  | Some _ => true
  | None => false
  end.

(** The handles of the pending timers are distinct and below the next
    handle, and a periodic timer is the one that [scrollInterval] holds. *)
Definition timersOk (s : Scanner) : Prop :=
  List.NoDup (List.map timerId (timers s))
  /\ Forall (fun t => timerId t < nextTimerId s) (timers s)
  /\ Forall (fun t => isPeriodic t = true ->
                       scrollInterval (state s) = Some (timerId t)) (timers s).

(** A load-more button whose text holds one of [LOAD_MORE_TEXTS] and whose
    click goes through. *)
Definition clickable (b : LoadMoreButton) : bool :=
  existsb (fun text => JS.includes text (LinkedInScanner.buttonText b))
    CONFIG.LOAD_MORE_TEXTS
  && negb (lm_clickThrows b).

(** Every stored result is that of an identifier recorded as seen. *)
Definition storedSeen (st : ScannerState) : Prop :=
  Forall (fun r => exists id,
            link r = CONFIG.UPDATE_URL ++ id /\ id ∈ seenPostIds st)
         (results st).

(** The scroll counter stays within [MAX_SCROLLS], and the scanner is
    paused once the counter is there. *)
Definition withinCeiling (st : ScannerState) : Prop :=
  0 <= scrollCount st <= CONFIG.MAX_SCROLLS
  /\ (CONFIG.MAX_SCROLLS <= scrollCount st -> paused st = true).

(** The user does not touch the pause button during the run. *)
Definition noToggle (events : list (Doc * Run.Event)) : bool :=
  forallb (fun de => match snd de with
                     | Run.TogglePause => false
                     | _ => true
                     end) events.

(** Only the browser acts during the run: timers fire and mutations are
    reported, the user does nothing. *)
Definition onlyBrowser (events : list (Doc * Run.Event)) : bool :=
  forallb (fun de => match snd de with
                     | Run.Fire _ | Run.Mutations _ => true
                     | _ => false
                     end) events.

Definition isValidation (t : Timer) : bool :=
  match callback t with
  | CbValidateScroll _ _ => true
  | _ => false
  end.

(** The timers are in step at time [now]: the timers that run
    [scrollAndScan] are the periodic ones, with the period of the source,
    at most one validation is pending, a pending validation is due before
    the periodic tick, and the tick is not overdue. *)
Definition cadenceOf (ts : list Timer) (now : Z) : Prop :=
  Forall (fun t => match callback t with
                   | CbScrollAndScan => period t = Some CONFIG.SCROLL_INTERVAL_MS
                   | _ => period t = None
                   end) ts
  /\ (length (List.filter isValidation ts) <= 1)%nat
  /\ Forall (fun v => isValidation v = true ->
                       Forall (fun p => isPeriodic p = true -> due v < due p) ts) ts
  /\ Forall (fun p => isPeriodic p = true -> now <= due p) ts.

Definition cadence (s : Scanner) : Prop := cadenceOf (timers s) (clock s).

(** Firing [t] on [doc] runs a validation that stalls near the bottom with
    retries left, the one case in which [validateScroll] schedules a
    further [scrollAndScan]. *)
Definition schedulesRetry (doc : Doc) (t : Timer) (s : Scanner) : bool :=
  match callback t with
  | CbValidateScroll prevScroll prevHeight =>
      Driver.stall doc prevScroll prevHeight s
      && nearBottom (Utils.getScrollInfo (window doc))
      && (scrollRetryCount (state s) + 1 <? CONFIG.MAX_SCROLL_RETRIES)
  | _ => false
  end.

(** No timer of the punctual run over [docs] schedules a retry. *)
Fixpoint avoidsRetry (docs : list Doc) (s : Scanner) : bool :=
  match docs with
  | [] => true
  | doc :: docs' =>
      match Run.nextDue (timers s) with
      | Some t =>
          negb (schedulesRetry doc t s)
          && avoidsRetry docs' (Run.fire doc (timerId t) s)
      | None => true
      end
  end.

(** What a scan at [threshold] takes from a post: the result built for it
    when the post has an identifier and its count reaches the threshold. *)
Definition hitOf (threshold : Z) (post : Post) : list Result :=
  match LinkedInScanner.getPostDataId post with
  | Some id =>
      if LinkedInScanner.getCommentCount post >=? threshold
      then [scanned post id]
      else []
  | None => []
  end.

(** The characters that [extractNumber] removes. *)
Definition isSeparator (c : N) : bool :=
  Utils.isDot c || Utils.isComma c || JS.isWhiteSpace c.

(** * Properties *)

Arguments lit : simpl never.
Arguments JS.includes : simpl never.
Arguments JS.startsWith : simpl never.
Arguments LinkedInScanner.isValidPost : simpl never.
Arguments LinkedInScanner.getCommentCount : simpl never.
Arguments LinkedInScanner.getPostDataId : simpl never.
Arguments CONFIG.UPDATE_URL : simpl never.

(** ** Strings and numbers *)

Section Digits.

Import JS.




Lemma spanDigits_all (s : jsstring) :
  forallb isDigit s = true -> spanDigits s = (s, []).
Proof.
  induction s as [|c s IH]; simpl; [reflexivity|].
  intros H. apply andb_prop in H as [Hc Hs].
  rewrite Hc, (IH Hs). reflexivity.
Qed.



Lemma digitsValue_acc (u : Decimal.uint) (acc : positive) :
  fold_left (fun a c => 10 * a + (c - 48))%N (uintChars u) (N.pos acc)
  = N.pos (Pos.of_uint_acc u acc).
Proof.
  revert acc. induction u; intros acc; simpl; try reflexivity;
    rewrite <- IHu; f_equal; lia.
Qed.

(** Reading the digits of a decimal numeral gives the number that the
    numeral denotes. *)
Lemma digitsValue_uintChars (u : Decimal.uint) :
  digitsValue (uintChars u) = N.of_uint u.
Proof.
  unfold digitsValue, N.of_uint.
  induction u; simpl; try reflexivity; try exact IHu;
    rewrite <- digitsValue_acc; f_equal.
Qed.

Lemma uintChars_digits (u : Decimal.uint) :
  forallb isDigit (uintChars u) = true.
Proof. induction u; simpl; auto. Qed.

Lemma uintChars_digit_head (u : Decimal.uint) :
  match uintChars u with
  | [] => u = Decimal.Nil
  | c :: _ => isDigit c = true
  end.
Proof. destruct u; simpl; reflexivity. Qed.


Lemma to_uint_chars_nonempty (n : N) : uintChars (N.to_uint n) <> [].
Proof.
  intros H. pose proof (uintChars_digit_head (N.to_uint n)) as Hh.
  rewrite H in Hh.
  pose proof (DecimalN.Unsigned.of_to n) as Hof. rewrite Hh in Hof.
  destruct n as [|p]; [discriminate Hh|].
  simpl in Hof. discriminate Hof.
Qed.

Lemma trimStart_digit_head (c : N) (s : jsstring) :
  isDigit c = true -> trimStart (c :: s) = c :: s.
Proof.
  intros Hc. simpl.
  assert (Hw : isWhiteSpace c = false).
  { unfold isDigit in Hc. apply andb_prop in Hc as [Hlo Hhi].
    apply N.leb_le in Hlo, Hhi. unfold isWhiteSpace.
    repeat match goal with
           | |- context [(?a <=? ?b)%N] =>
               let H := fresh in destruct (N.leb_spec a b) as [H|H]
           | |- context [(?a =? ?b)%N] =>
               let H := fresh in destruct (N.eqb_spec a b) as [H|H]
           end; simpl; try reflexivity; lia. }
  now rewrite Hw.
Qed.

Lemma parseInt10_digits (run : jsstring) :
  run <> [] -> forallb isDigit run = true ->
  parseInt10 run = Some (Z.of_N (digitsValue run)).
Proof.
  intros Hne Hd. destruct run as [|c run]; [congruence|].
  pose proof Hd as Hd'. simpl in Hd'. apply andb_prop in Hd' as [Hc _].
  unfold parseInt10. rewrite (trimStart_digit_head c run Hc).
  assert (Hsign : c <> 45%N /\ c <> 43%N).
  { unfold isDigit in Hc. apply andb_prop in Hc as [Hlo Hhi].
    apply N.leb_le in Hlo, Hhi. lia. }
  destruct Hsign as [H45 H43].
  assert (Hmatch :
    match c :: run with
    | 45%N :: s' => (true, s')
    | 43%N :: s' => (false, s')
    | _ => (false, c :: run)
    end = (false, c :: run)).
  { destruct c as [|p]; [reflexivity|].
    do 6 (destruct p as [p|p|]; try reflexivity); congruence. }
  rewrite Hmatch. rewrite (spanDigits_all _ Hd). reflexivity.
Qed.

(** [parseInt(String(n), 10)] is [n], for a safe integer [n]. *)
Lemma parseInt10_numberToString (n : Z) :
  isSafeInteger n = true ->
  parseInt10 (numberToString n) = Some n.
Proof.
  intros _. unfold numberToString. destruct (Z.ltb_spec n 0) as [Hneg|Hpos].
  - unfold parseInt10. simpl trimStart. cbv iota beta.
    set (digits := uintChars (N.to_uint (Z.abs_N n))).
    change (isWhiteSpace 45) with false. cbv iota.
    rewrite (spanDigits_all digits) by apply uintChars_digits.
    simpl fst. destruct digits as [|c digits'] eqn:Hdigits.
    + exfalso. exact (to_uint_chars_nonempty _ Hdigits).
    + rewrite <- Hdigits. unfold digits.
      rewrite digitsValue_uintChars, DecimalN.Unsigned.of_to.
      f_equal. lia.
  - rewrite parseInt10_digits.
    + rewrite digitsValue_uintChars, DecimalN.Unsigned.of_to. f_equal. lia.
    + apply to_uint_chars_nonempty.
    + apply uintChars_digits.
Qed.

End Digits.

(** ** The threshold *)

Section Threshold.

Lemma indexOfFrom_found (value : Z) (l : list Z) (i : Z) :
  0 <= i -> (State.indexOfFrom value l i =? -1) = false <-> In value l.
Proof.
  revert i. induction l as [|x l IH]; intros i Hi; simpl.
  - split; [discriminate|tauto].
  - destruct (Z.eqb_spec x value) as [->|Hne].
    + split; [auto|]. intros _. apply Z.eqb_neq. lia.
    + rewrite IH by lia. split; [auto|]. intros [H|H]; [congruence|exact H].
Qed.

Lemma indexOf_found (value : Z) (l : list Z) :
  negb (State.indexOf value l =? -1) = true <-> In value l.
Proof.
  unfold State.indexOf. rewrite negb_true_iff.
  apply indexOfFrom_found. lia.
Qed.

End Threshold.

(** C9: a value that is one of [CONFIG.COMMENT_THRESHOLDS]
    (20, 50, 100, 200, 500) becomes the threshold; every other value, a
    number outside the table or a value that is no number, is rejected and
    the scanner, its threshold and the stored preference included, stays as
    it was. *)
Theorem setThreshold_allowed_or_unchanged (value : JS.value) (s : Scanner) :
  (forall n, value = JS.VNumber n -> In n CONFIG.COMMENT_THRESHOLDS ->
     commentThreshold (state (State.setThreshold value s)) = n)
  /\ ((forall n, value = JS.VNumber n -> ~ In n CONFIG.COMMENT_THRESHOLDS) ->
      State.setThreshold value s = s).
Proof.
  split.
  - intros n -> Hin. unfold State.setThreshold.
    apply indexOf_found in Hin. rewrite Hin.
    destruct (localStorage (withState (set_commentThreshold n) s)); reflexivity.
  - intros Hout. destruct value as [n| |]; try reflexivity.
    unfold State.setThreshold.
    destruct (negb (State.indexOf n CONFIG.COMMENT_THRESHOLDS =? -1)) eqn:Hidx;
      [|reflexivity].
    apply indexOf_found in Hidx. exfalso. exact (Hout n eq_refl Hidx).
Qed.

Lemma setThreshold_allowed_or_unchanged_witness :
  let s := LinkedInScanner.new Sample.scenarioA (Some []) in
  commentThreshold (state (State.setThreshold (JS.VNumber 200) s)) = 200
  /\ State.setThreshold (JS.VNumber 150) s = s
  /\ State.setThreshold (JS.VString (lit "200")) s = s.
Proof.
  intros s. split; [|split].
  - apply (proj1 (setThreshold_allowed_or_unchanged (JS.VNumber 200) s) 200 eq_refl).
    simpl. tauto.
  - apply (proj2 (setThreshold_allowed_or_unchanged (JS.VNumber 150) s)).
    intros n [= <-]. simpl. lia.
  - apply (proj2 (setThreshold_allowed_or_unchanged (JS.VString (lit "200")) s)).
    intros n H. discriminate H.
Defined.

(** ** Teardown *)

Lemma stopScrolling_interval (s : Scanner) :
  scrollInterval (state (LinkedInScanner.stopScrolling s)) = None.
Proof.
  unfold LinkedInScanner.stopScrolling.
  destruct (scrollInterval (state s)) eqn:H; [reflexivity|exact H].
Qed.

Lemma stopScrolling_timers (s : Scanner) :
  timers (LinkedInScanner.stopScrolling s)
  = match scrollInterval (state s) with
    | Some id => List.filter (fun t => negb (timerId t =? id)) (timers s)
    | None => timers s
    end.
Proof.
  unfold LinkedInScanner.stopScrolling.
  destruct (scrollInterval (state s)); reflexivity.
Qed.

Lemma stopScrolling_results (s : Scanner) :
  results (state (LinkedInScanner.stopScrolling s)) = results (state s)
  /\ seenPostIds (state (LinkedInScanner.stopScrolling s)) = seenPostIds (state s).
Proof.
  unfold LinkedInScanner.stopScrolling.
  destruct (scrollInterval (state s)); split; reflexivity.
Qed.

(** C8, as the code has it: [close] cancels the periodic timer and
    disconnects the observer, and it also empties the collected results and
    the set of seen identifiers.  The stop that keeps the results is
    [stopScrolling], which [close] calls first. *)
Theorem close_clears_results (s : Scanner) :
  scrollInterval (state (LinkedInScanner.close s)) = None
  /\ timers (LinkedInScanner.close s)
     = match scrollInterval (state s) with
       | Some id => List.filter (fun t => negb (timerId t =? id)) (timers s)
       | None => timers s
       end
  /\ mutationObserver (state (LinkedInScanner.close s)) = false
  /\ results (state (LinkedInScanner.close s)) = []
  /\ seenPostIds (state (LinkedInScanner.close s)) = ∅
  /\ results (state (LinkedInScanner.stopScrolling s)) = results (state s).
Proof.
  unfold LinkedInScanner.close.
  pose proof (stopScrolling_interval s) as Hint.
  pose proof (stopScrolling_timers s) as Htim.
  split; [|split; [|split; [|split; [|split]]]].
  - destruct (mutationObserver (state (LinkedInScanner.stopScrolling s)));
      simpl; exact Hint.
  - destruct (mutationObserver (state (LinkedInScanner.stopScrolling s)));
      exact Htim.
  - destruct (mutationObserver (state (LinkedInScanner.stopScrolling s))) eqn:H;
      simpl; [reflexivity|exact H].
  - reflexivity.
  - reflexivity.
  - apply stopScrolling_results.
Qed.

(** C8 as stated fails: a scanner that holds one result holds none after
    [close], although nobody asked for the results to be cleared. *)
Lemma close_keeps_results_counterexample :
  let s := LinkedInScanner.runScan Sample.scenarioA
             (LinkedInScanner.new Sample.scenarioA (Some [])) in
  length (results (state s)) = 1%nat
  /\ results (state (LinkedInScanner.close s)) <> results (state s).
Proof.
  intros s. split.
  - vm_compute. reflexivity.
  - change (results (state (LinkedInScanner.close s))) with (@nil Result).
    intros H. apply (f_equal (@length Result)) in H.
    vm_compute in H. discriminate H.
Qed.

(** ** Extraction *)

Section Extraction.

Import LinkedInScanner.

Lemma addResult_new (r : Result) (st : ScannerState) :
  existsb (fun r' => bool_decide (link r' = link r)) (results st) = false ->
  State.addResult r st = (true, set_results (r :: results st) st).
Proof. intros H. unfold State.addResult. now rewrite H. Qed.

Lemma addResult_known (r : Result) (st : ScannerState) :
  existsb (fun r' => bool_decide (link r' = link r)) (results st) = true ->
  State.addResult r st = (false, st).
Proof. intros H. unfold State.addResult. now rewrite H. Qed.

Lemma known_link (l : jsstring) (rs : list Result) :
  existsb (fun r' => bool_decide (link r' = l)) rs = true
  <-> In l (List.map link rs).
Proof.
  rewrite existsb_exists, in_map_iff. split.
  - intros (r & Hin & Heq). apply bool_decide_eq_true in Heq. eauto.
  - intros (r & Heq & Hin). exists r. split; [exact Hin|].
    now apply bool_decide_eq_true.
Qed.

Lemma scanLoop_cons (post : Post) (posts : list Post) (n : Z) (st : ScannerState) :
  scanLoop (post :: posts) n st =
  match getPostDataId post with
  | Some id =>
      if isValidPost (Some id) st then
        let st1 := set_seenPostIds ({[ id ]} ∪ seenPostIds st) st in
        if getCommentCount post >=? commentThreshold st then
          if existsb (fun r' => bool_decide (link r' = CONFIG.UPDATE_URL ++ id))
               (results st)
          then scanLoop posts n st1
          else scanLoop posts (n + 1)
                 (set_results (scanned post id :: results st) st1)
        else scanLoop posts n st1
      else scanLoop posts n st
  | None => scanLoop posts n st
  end.
Proof.
  cbn [scanLoop]. destruct (getPostDataId post) as [id|]; [|reflexivity].
  destruct (isValidPost (Some id) st); cbn [negb]; [|reflexivity].
  cbv zeta. cbn [commentThreshold set_seenPostIds].
  destruct (getCommentCount post >=? commentThreshold st); [|reflexivity].
  unfold State.addResult. cbn [results link set_seenPostIds].
  destruct (existsb _ (results st)); reflexivity.
Qed.

Lemma isValidPost_seen (dataId : option jsstring) (st st' : ScannerState) :
  seenPostIds st ⊆ seenPostIds st' ->
  isValidPost dataId st = false -> isValidPost dataId st' = false.
Proof.
  intros Hsub. unfold isValidPost.
  destruct dataId as [[|c id]|]; try reflexivity.
  rewrite !andb_false_iff, !negb_false_iff, !bool_decide_eq_true.
  intros [H|H]; [left; set_solver|right; exact H].
Qed.

Lemma isValidPost_after_add (id : jsstring) (st : ScannerState) :
  isValidPost (Some id) (set_seenPostIds ({[ id ]} ∪ seenPostIds st) st) = false.
Proof.
  unfold isValidPost. destruct id as [|c id]; [reflexivity|].
  simpl. rewrite bool_decide_eq_true_2 by set_solver. reflexivity.
Qed.

(** The loop only adds to the set of seen identifiers. *)
Lemma scanLoop_seen_mono (posts : list Post) (n : Z) (st : ScannerState) :
  seenPostIds st ⊆ seenPostIds (snd (scanLoop posts n st)).
Proof.
  revert n st. induction posts as [|post posts IH]; intros n st.
  - reflexivity.
  - rewrite scanLoop_cons.
    destruct (getPostDataId post) as [id|]; [|apply IH].
    destruct (isValidPost (Some id) st); [|apply IH].
    cbv zeta.
    destruct (getCommentCount post >=? commentThreshold st);
      [destruct (existsb _ (results st))|];
      (etransitivity; [|apply IH]); simpl; set_solver.
Qed.


(** After the loop no item of the list is valid any more. *)
Lemma scanLoop_invalidates (posts : list Post) (n : Z) (st : ScannerState) :
  Forall (fun post =>
            isValidPost (getPostDataId post) (snd (scanLoop posts n st)) = false)
         posts.
Proof.
  revert n st. induction posts as [|post posts IH]; intros n st;
    constructor; [|].
  - rewrite scanLoop_cons.
    destruct (getPostDataId post) as [id|] eqn:Hid; [|reflexivity].
    destruct (isValidPost (Some id) st) eqn:Hvalid.
    + cbv zeta.
      destruct (getCommentCount post >=? commentThreshold st);
        [destruct (existsb _ (results st))|];
        (eapply isValidPost_seen; [apply scanLoop_seen_mono|]);
        apply isValidPost_after_add.
    + eapply isValidPost_seen; [apply scanLoop_seen_mono|exact Hvalid].
  - rewrite scanLoop_cons.
    destruct (getPostDataId post) as [id|]; [|apply IH].
    destruct (isValidPost (Some id) st); [|apply IH].
    cbv zeta.
    destruct (getCommentCount post >=? commentThreshold st);
      [destruct (existsb _ (results st))|]; apply IH.
Qed.

(** With no valid item the loop changes nothing. *)
Lemma scanLoop_no_valid (posts : list Post) (n : Z) (st : ScannerState) :
  Forall (fun post => isValidPost (getPostDataId post) st = false) posts ->
  scanLoop posts n st = (n, st).
Proof.
  induction 1 as [|post posts Hpost _ IH]; [reflexivity|].
  rewrite scanLoop_cons.
  destruct (getPostDataId post) as [id|]; [|exact IH].
  rewrite Hpost. exact IH.
Qed.

End Extraction.

(** C3: a second [scanPosts] over an unchanged document finds nothing new
    and leaves the state as the first call left it, since every valid
    identifier of the document is among the seen ones by then. *)
Theorem scanPosts_idempotent (doc : Doc) (st : ScannerState) :
  let st1 := snd (LinkedInScanner.scanPosts doc st) in
  LinkedInScanner.scanPosts doc st1 = (0, st1)
  /\ Forall (fun post =>
               LinkedInScanner.isValidPost
                 (LinkedInScanner.getPostDataId post) st1 = false)
            (posts doc).
Proof.
  intros st1. unfold st1, LinkedInScanner.scanPosts.
  pose proof (scanLoop_invalidates (posts doc) 0 st) as Hinv.
  split; [|exact Hinv]. now apply scanLoop_no_valid.
Qed.

Section Threshold_gate.

Import LinkedInScanner.

(** The loop puts its new results in front of the old ones, counts them,
    and every one of them comes from a post whose count reaches the
    threshold. *)
Lemma scanLoop_results (posts : list Post) (n : Z) (st : ScannerState) :
  exists new,
    results (snd (scanLoop posts n st)) = new ++ results st
    /\ fst (scanLoop posts n st) = n + Z.of_nat (length new)
    /\ Forall (fun r => exists post id,
                 In post posts /\ getPostDataId post = Some id
                 /\ r = scanned post id
                 /\ commentThreshold st <= getCommentCount post) new.
Proof.
  revert n st. induction posts as [|post posts IH]; intros n st.
  - exists []. simpl. split; [reflexivity|]. split; [lia|constructor].
  - assert (Hweaken : forall (st' : ScannerState) new,
              commentThreshold st' = commentThreshold st ->
              Forall (fun r => exists post0 id,
                        In post0 posts /\ getPostDataId post0 = Some id
                        /\ r = scanned post0 id
                        /\ commentThreshold st' <= getCommentCount post0) new ->
              Forall (fun r => exists post0 id,
                        In post0 (post :: posts) /\ getPostDataId post0 = Some id
                        /\ r = scanned post0 id
                        /\ commentThreshold st <= getCommentCount post0) new).
    { intros st' new Hth Hall. eapply List.Forall_impl; [|exact Hall].
      intros r (post0 & id & Hin & Hid & Hr & Hge).
      exists post0, id. rewrite <- Hth. auto using in_cons. }
    rewrite scanLoop_cons.
    destruct (getPostDataId post) as [id|] eqn:Hid.
    2:{ destruct (IH n st) as (new & Hres & Hcount & Hall).
        exists new. eauto. }
    destruct (isValidPost (Some id) st).
    2:{ destruct (IH n st) as (new & Hres & Hcount & Hall).
        exists new. eauto. }
    cbv zeta.
    destruct (getCommentCount post >=? commentThreshold st) eqn:Hge.
    2:{ destruct (IH n (set_seenPostIds ({[id]} ∪ seenPostIds st) st))
          as (new & Hres & Hcount & Hall).
        exists new. eauto. }
    destruct (existsb _ (results st)).
    { destruct (IH n (set_seenPostIds ({[id]} ∪ seenPostIds st) st))
        as (new & Hres & Hcount & Hall).
      exists new. eauto. }
    destruct (IH (n + 1)
                (set_results (scanned post id :: results st)
                   (set_seenPostIds ({[id]} ∪ seenPostIds st) st)))
      as (new & Hres & Hcount & Hall).
    exists (new ++ [scanned post id]).
    split; [rewrite Hres; simpl; now rewrite <- app_assoc|].
    split; [rewrite Hcount, length_app; simpl; lia|].
    apply Forall_app. split; [eapply Hweaken; [|exact Hall]; reflexivity|].
    constructor; [|constructor].
    exists post, id. split; [now left|]. split; [exact Hid|].
    split; [reflexivity|]. apply Z.geb_le in Hge. exact Hge.
Qed.

End Threshold_gate.

(** C4: the results that [scanPosts] adds are put in front of the earlier
    ones, their number is what it returns, and each of them has a comment
    count of at least the current threshold.  On scenario A (counts 250, 50
    and 10, threshold 100) it returns 1, the one result has 250 comments,
    and an immediate second call returns 0 and adds nothing. *)
Theorem scanPosts_threshold (doc : Doc) (st : ScannerState) :
  (exists new,
     results (snd (LinkedInScanner.scanPosts doc st)) = new ++ results st
     /\ fst (LinkedInScanner.scanPosts doc st) = Z.of_nat (length new)
     /\ Forall (fun r => comments r >= commentThreshold st
                         /\ In (postNode r) (posts doc)
                         /\ comments r = LinkedInScanner.getCommentCount (postNode r))
               new)
  /\ (let first := LinkedInScanner.scanPosts Sample.scenarioA Sample.fresh in
      let second := LinkedInScanner.scanPosts Sample.scenarioA (snd first) in
      commentThreshold Sample.fresh = 100
      /\ List.map LinkedInScanner.getCommentCount (posts Sample.scenarioA)
         = [250; 50; 10]
      /\ fst first = 1
      /\ List.map comments (results (snd first)) = [250]
      /\ fst second = 0
      /\ results (snd second) = results (snd first)).
Proof.
  split.
  - unfold LinkedInScanner.scanPosts.
    destruct (scanLoop_results (posts doc) 0 st) as (new & Hres & Hcount & Hall).
    exists new. split; [exact Hres|]. split; [rewrite Hcount; lia|].
    eapply List.Forall_impl; [|exact Hall].
    intros r (post & id & Hin & Hid & -> & Hge). simpl. auto with zarith.
  - vm_compute. repeat split; reflexivity.
Qed.

(** ** Uniqueness of the stored results *)

Section Uniqueness.

Import LinkedInScanner.

Lemma stripPrefix_app (prefix s : jsstring) :
  stripPrefix prefix (prefix ++ s) = Some s.
Proof.
  induction prefix as [|a prefix IH]; [reflexivity|].
  cbn [stripPrefix app]. now rewrite N.eqb_refl.
Qed.

Lemma stripPrefix_Some (prefix s id : jsstring) :
  stripPrefix prefix s = Some id -> s = prefix ++ id.
Proof.
  revert s. induction prefix as [|a prefix IH]; intros s; cbn [stripPrefix app].
  - now intros [= ->].
  - destruct s as [|b s]; [discriminate|].
    destruct (N.eqb_spec a b) as [->|]; [|discriminate].
    intros H. now rewrite (IH _ H).
Qed.

(** The identifier of a result is what follows the prefix in its link. *)
Lemma rawId_link (r : Result) (id : jsstring) :
  rawId r = Some id <-> link r = CONFIG.UPDATE_URL ++ id.
Proof.
  unfold rawId. split.
  - apply stripPrefix_Some.
  - intros ->. apply stripPrefix_app.
Qed.

Lemma rawId_known (r : Result) (id : jsstring) (rs : list Result) :
  rawId r = Some id ->
  In (Some id) (List.map rawId rs) <-> In (link r) (List.map link rs).
Proof.
  intros Hr. apply rawId_link in Hr. rewrite !in_map_iff. split.
  - intros (r' & Hid & Hin). apply rawId_link in Hid.
    exists r'. split; [congruence|exact Hin].
  - intros (r' & Hlink & Hin). exists r'. split; [|exact Hin].
    apply rawId_link. congruence.
Qed.

Lemma uniqueLinks_rawId (st : ScannerState) :
  uniqueLinks st ->
  List.NoDup (List.map rawId (results st))
  /\ Forall (fun r => exists id, rawId r = Some id) (results st).
Proof.
  intros [Hnodup Hall]. induction (results st) as [|r rs IH]; cbn [List.map] in *.
  - split; constructor.
  - apply List.NoDup_cons_iff in Hnodup as [Hnotin Hnodup].
    inversion Hall as [|r' rs' [id Hr] Hall']; subst.
    destruct (IH Hnodup Hall') as [IH1 IH2].
    apply rawId_link in Hr. split.
    + apply List.NoDup_cons_iff. split; [|exact IH1].
      rewrite Hr. rewrite (rawId_known r id rs Hr).
      exact Hnotin.
    + constructor; [eauto|exact IH2].
Qed.

Lemma uniqueLinks_results (st st' : ScannerState) :
  results st' = results st -> uniqueLinks st -> uniqueLinks st'.
Proof. unfold uniqueLinks. now intros ->. Qed.

Lemma scanLoop_uniqueLinks (posts : list Post) (n : Z) (st : ScannerState) :
  uniqueLinks st -> uniqueLinks (snd (scanLoop posts n st)).
Proof.
  revert n st. induction posts as [|post posts IH]; intros n st Hst.
  - exact Hst.
  - rewrite scanLoop_cons.
    destruct (getPostDataId post) as [id|]; [|now apply IH].
    destruct (isValidPost (Some id) st); [|now apply IH].
    cbv zeta.
    destruct (getCommentCount post >=? commentThreshold st);
      [|apply IH; exact Hst].
    destruct (existsb _ (results st)) eqn:Hknown; [apply IH; exact Hst|].
    apply IH. destruct Hst as [Hnodup Hall].
    split; cbn [results set_results set_seenPostIds List.map].
    + apply List.NoDup_cons_iff. split; [|exact Hnodup].
      intros Hin. apply known_link in Hin. cbn [link scanned] in Hin.
      congruence.
    + constructor; [eauto|exact Hall].
Qed.

Lemma clickLoadMoreButton_state (doc : Doc) (s : Scanner) :
  state (snd (clickLoadMoreButton doc s)) = state s.
Proof.
  unfold clickLoadMoreButton.
  destruct (findLoadMore (loadMoreButtons doc)); reflexivity.
Qed.

Lemma handleMaxScrollsReached_results (s : Scanner) :
  results (state (handleMaxScrollsReached s)) = results (state s).
Proof.
  unfold handleMaxScrollsReached. cbn [state emit].
  now rewrite (proj1 (stopScrolling_results _)).
Qed.

Lemma handleScrollFailure_results (reason : FailureReason) (s : Scanner) :
  results (state (handleScrollFailure reason s)) = results (state s).
Proof.
  unfold handleScrollFailure. cbn [state emit].
  now rewrite (proj1 (stopScrolling_results _)).
Qed.

Lemma scrollAndScan_results (doc : Doc) (s : Scanner) :
  results (state (scrollAndScan doc s)) = results (state s).
Proof.
  unfold scrollAndScan.
  destruct (paused (state s) || scrollFailureDetected (state s)); [reflexivity|].
  pose proof (clickLoadMoreButton_state doc s) as Hclick.
  destruct (clickLoadMoreButton doc s) as [clicked s1]. simpl in Hclick.
  destruct clicked; [simpl; now rewrite Hclick|].
  cbv zeta.
  match goal with |- context [if ?b then _ else _] => destruct b end.
  - rewrite handleMaxScrollsReached_results. simpl. now rewrite Hclick.
  - simpl. now rewrite Hclick.
Qed.

Lemma runScan_uniqueLinks (doc : Doc) (s : Scanner) :
  uniqueLinks (state s) -> uniqueLinks (state (runScan doc s)).
Proof. intros H. unfold runScan, scanPosts. simpl. now apply scanLoop_uniqueLinks. Qed.

Lemma validateScroll_uniqueLinks (doc : Doc) (prevScroll prevHeight : Z)
    (s : Scanner) :
  uniqueLinks (state s) ->
  uniqueLinks (state (validateScroll doc prevScroll prevHeight s)).
Proof.
  intros H. unfold validateScroll. cbv zeta.
  match goal with |- context [if ?b then _ else _] => destruct b end.
  { apply runScan_uniqueLinks. exact H. }
  destruct (nearBottom _).
  - pose proof (clickLoadMoreButton_state doc s) as Hclick.
    destruct (clickLoadMoreButton doc s) as [clicked s1]. simpl in Hclick.
    destruct clicked.
    + eapply uniqueLinks_results; [|exact H]. simpl. now rewrite Hclick.
    + match goal with |- context [if ?b then _ else _] => destruct b end;
        (eapply uniqueLinks_results; [|exact H]).
      * rewrite handleScrollFailure_results. simpl. now rewrite Hclick.
      * simpl. now rewrite Hclick.
  - match goal with |- context [if ?b then _ else _] => destruct b end.
    + eapply uniqueLinks_results; [|exact H].
      now rewrite handleScrollFailure_results.
    + apply runScan_uniqueLinks. exact H.
Qed.

Lemma startScanning_results (doc : Doc) (s : Scanner) :
  results (state (startScanning doc s)) = results (state s).
Proof.
  unfold startScanning. destruct (scrollInterval (state s)); [reflexivity|].
  cbv zeta. unfold Browser.setInterval, Browser.addTimer. simpl.
  now rewrite scrollAndScan_results.
Qed.

Lemma togglePause_results (doc : Doc) (s : Scanner) :
  results (state (togglePause doc s)) = results (state s).
Proof.
  unfold togglePause. destruct (paused (state s)).
  - now rewrite startScanning_results.
  - now rewrite (proj1 (stopScrolling_results _)).
Qed.

Lemma setThreshold_results (value : JS.value) (s : Scanner) :
  results (state (State.setThreshold value s)) = results (state s).
Proof.
  unfold State.setThreshold. destruct value as [n| |]; try reflexivity.
  destruct (negb _); [|reflexivity].
  destruct (localStorage _); reflexivity.
Qed.

Lemma step_uniqueLinks (doc : Doc) (e : Run.Event) (s : Scanner) :
  uniqueLinks (state s) -> uniqueLinks (state (Run.step doc e s)).
Proof.
  intros H. destruct e as [id|mutations| |value|]; cbn [Run.step].
  - unfold Run.fire. destruct (List.find _ (timers s)) as [t|]; [|exact H].
    cbv zeta. destruct (callback t) as [|prevScroll prevHeight|];
      cbn [Run.runCallback].
    + apply runScan_uniqueLinks. exact H.
    + apply validateScroll_uniqueLinks. exact H.
    + eapply uniqueLinks_results; [|exact H].
      now rewrite scrollAndScan_results.
  - destruct (mutationObserver (state s)); [|exact H].
    eapply uniqueLinks_results; [|exact H]. unfold observerCallback. simpl.
    destruct (existsb addsPost mutations); reflexivity.
  - eapply uniqueLinks_results; [|exact H]. apply togglePause_results.
  - eapply uniqueLinks_results; [|exact H]. apply setThreshold_results.
  - split; [constructor|constructor].
Qed.

Lemma run_uniqueLinks (events : list (Doc * Run.Event)) (s : Scanner) :
  uniqueLinks (state s) -> uniqueLinks (state (Run.run events s)).
Proof.
  revert s. induction events as [|[doc e] events IH]; intros s H; [exact H|].
  cbn [Run.run]. apply IH. now apply step_uniqueLinks.
Qed.

Lemma new_uniqueLinks (doc : Doc) (storage : Storage) :
  uniqueLinks (state (LinkedInScanner.new doc storage)).
Proof.
  unfold LinkedInScanner.new, init.
  destruct (negb (validateEnvironment doc)); [split; constructor|].
  eapply uniqueLinks_results; [apply startScanning_results|].
  unfold setupMutationObserver.
  destruct (hasMutationObserver doc); split; constructor.
Qed.

Lemma addResult_uniqueLinks (r : Result) (id : jsstring) (st : ScannerState) :
  rawId r = Some id -> uniqueLinks st -> uniqueLinks (snd (State.addResult r st)).
Proof.
  intros Hr [Hnodup Hall]. apply rawId_link in Hr. unfold State.addResult.
  destruct (existsb _ (results st)) eqn:Hknown; cbn [negb snd]; [now split|].
  split; cbn [results set_results List.map].
  - apply List.NoDup_cons_iff. split; [|exact Hnodup].
    intros Hin. apply known_link in Hin. congruence.
  - constructor; [eauto|exact Hall].
Qed.

Lemma addResults_uniqueLinks (rs : list Result) (st : ScannerState) :
  Forall (fun r => exists id, rawId r = Some id) rs ->
  uniqueLinks st -> uniqueLinks (addResults rs st).
Proof.
  intros Hrs. revert st. induction Hrs as [|r rs [id Hr] _ IH]; intros st Hst.
  - exact Hst.
  - cbn [addResults]. apply IH. now apply (addResult_uniqueLinks r id).
Qed.

End Uniqueness.

(** C2: [addResult] rejects a result whose identifier is that of a stored
    result and leaves the store as it is, and otherwise puts the result at
    the head of the list; no sequence of insertions into a store of
    distinct results leaves two with the same identifier; and in every run of the
    scanner, whatever the documents, timers and user actions, every stored
    result has an identifier and no two stored results have the same
    one. *)
Theorem results_unique_ids (doc : Doc) (storage : Storage)
    (events : list (Doc * Run.Event)) (r : Result) (id : jsstring)
    (rs : list Result) (st : ScannerState) :
  (rawId r = Some id ->
     (In (Some id) (List.map rawId (results st)) ->
        State.addResult r st = (false, st))
     /\ (~ In (Some id) (List.map rawId (results st)) ->
           State.addResult r st = (true, set_results (r :: results st) st)))
  /\ (uniqueLinks st ->
      Forall (fun r => exists id, rawId r = Some id) rs ->
      List.NoDup (List.map rawId (results (addResults rs st))))
  /\ (let s := Run.run events (LinkedInScanner.new doc storage) in
      List.NoDup (List.map rawId (results (state s)))
      /\ Forall (fun r => exists id, rawId r = Some id) (results (state s))).
Proof.
  split; [|split].
  - intros Hr. rewrite (rawId_known r id (results st) Hr). split; intros Hin.
    + apply addResult_known. now apply known_link.
    + apply addResult_new. apply not_true_is_false.
      intros H. apply Hin. now apply known_link.
  - intros Hst Hrs. now apply uniqueLinks_rawId, addResults_uniqueLinks.
  - apply uniqueLinks_rawId, run_uniqueLinks, new_uniqueLinks.
Qed.

Lemma results_unique_ids_witness :
  let id := lit "urn:li:activity:7001" in
  let r := scanned (Sample.post "urn:li:activity:7001" "250") id in
  let st := snd (LinkedInScanner.scanPosts Sample.scenarioA Sample.fresh) in
  State.addResult r st = (false, st)
  /\ State.addResult r Sample.fresh = (true, set_results [r] Sample.fresh)
  /\ List.NoDup (List.map rawId (results (addResults [r; r] Sample.fresh))).
Proof.
  intros id r st.
  assert (Hr : rawId r = Some id) by (vm_compute; reflexivity).
  split; [|split].
  - apply (proj1 (proj1 (results_unique_ids Sample.scenarioA None [] r id [] st) Hr)).
    vm_compute. left. reflexivity.
  - apply (proj2 (proj1 (results_unique_ids Sample.scenarioA None [] r id []
                           Sample.fresh) Hr)).
    vm_compute. intros H. exact H.
  - apply (proj1 (proj2 (results_unique_ids Sample.scenarioA None [] r id [r; r]
                           Sample.fresh))).
    + split; constructor.
    + repeat constructor; exists id; exact Hr.
Defined.

(** ** Links and identifiers *)

Section Links.

Lemma toResult_link_id (a b : IdStore.Record_) :
  link (IdStore.toResult a) = link (IdStore.toResult b)
  <-> IdStore.id a = IdStore.id b.
Proof.
  unfold IdStore.toResult; cbn [link]. split.
  - apply app_inv_head.
  - now intros ->.
Qed.

Lemma known_link_known_id (record : IdStore.Record_) (store : list IdStore.Record_) :
  existsb (fun r => bool_decide (link r = link (IdStore.toResult record)))
    (List.map IdStore.toResult store)
  = existsb (fun r => bool_decide (IdStore.id r = IdStore.id record)) store.
Proof.
  induction store as [|r store IH]; [reflexivity|].
  cbn [List.map existsb]. rewrite IH. f_equal.
  apply bool_decide_ext, toResult_link_id.
Qed.

Lemma addResult_addIfNew (record : IdStore.Record_) (store : list IdStore.Record_)
    (st : ScannerState) :
  results st = List.map IdStore.toResult store ->
  fst (State.addResult (IdStore.toResult record) st)
  = fst (IdStore.addIfNew record store)
  /\ results (snd (State.addResult (IdStore.toResult record) st))
     = List.map IdStore.toResult (snd (IdStore.addIfNew record store)).
Proof.
  intros Hst. unfold State.addResult, IdStore.addIfNew.
  rewrite Hst, known_link_known_id.
  destruct (existsb _ store); cbn [negb fst snd results set_results List.map].
  - split; [reflexivity|exact Hst].
  - split; reflexivity.
Qed.

End Links.

(** C10: two results built from records have the same link exactly when
    the records have the same identifier, each [addResult] accepts or
    rejects as the identifier-keyed [addIfNew] does, and after any sequence
    of insertions the list kept by link is the image of the list kept by
    identifier. *)
Theorem link_dedup_is_id_dedup (records : list IdStore.Record_)
    (store : list IdStore.Record_) (st : ScannerState) :
  results st = List.map IdStore.toResult store ->
  (forall a b : IdStore.Record_,
     link (IdStore.toResult a) = link (IdStore.toResult b)
     <-> IdStore.id a = IdStore.id b)
  /\ (forall record,
        fst (State.addResult (IdStore.toResult record) st)
        = fst (IdStore.addIfNew record store))
  /\ results (addResults (List.map IdStore.toResult records) st)
     = List.map IdStore.toResult (IdStore.addAll records store).
Proof.
  intros Hst. split; [exact toResult_link_id|]. split.
  - intros record. exact (proj1 (addResult_addIfNew record store st Hst)).
  - revert store st Hst. induction records as [|record records IH];
      intros store st Hst; [exact Hst|].
    cbn [List.map addResults IdStore.addAll]. apply IH.
    exact (proj2 (addResult_addIfNew record store st Hst)).
Qed.

Lemma link_dedup_is_id_dedup_witness :
  let p := Sample.post "urn:li:activity:7001" "250" in
  let a := {| IdStore.id := lit "urn:li:activity:7001";
              IdStore.metricValue := 250; IdStore.sourceRef := p |} in
  let b := {| IdStore.id := lit "urn:li:activity:7002";
              IdStore.metricValue := 300; IdStore.sourceRef := p |} in
  results (addResults (List.map IdStore.toResult [a; b; a]) Sample.fresh)
  = List.map IdStore.toResult (IdStore.addAll [a; b; a] []).
Proof.
  intros p a b.
  exact (proj2 (proj2 (link_dedup_is_id_dedup [a; b; a] [] Sample.fresh eq_refl))).
Defined.

(** ** The tabular export *)

Section Tabular.

Import LinkedInScanner.









End Tabular.



(** ** Reading the comment count *)

Section Metric.

Import LinkedInScanner.

Lemma cleaned_filter (text : jsstring) :
  Utils.cleaned text = List.filter kept text.
Proof.
  unfold Utils.cleaned, JS.removeAll, kept.
  induction text as [|c text IH]; [reflexivity|].
  cbn [List.filter]. destruct (Utils.isDot c); cbn [negb orb]; [exact IH|].
  cbn [List.filter]. destruct (Utils.isComma c); cbn [negb orb]; [exact IH|].
  cbn [List.filter]. destruct (JS.isWhiteSpace c); cbn [negb]; [exact IH|].
  now rewrite IH.
Qed.





End Metric.



(** ** The retry counter *)

Section Retry.

Import LinkedInScanner.

(** The loop of [scanPosts] writes the results and the seen identifiers
    and nothing else. *)
Lemma scanLoop_frame (posts : list Post) (n : Z) (st : ScannerState) :
  exists rs seen,
    snd (scanLoop posts n st) = set_results rs (set_seenPostIds seen st).
Proof.
  revert n st. induction posts as [|post posts IH]; intros n st.
  - exists (results st), (seenPostIds st). destruct st; reflexivity.
  - rewrite scanLoop_cons.
    destruct (getPostDataId post) as [id|]; [|apply IH].
    destruct (isValidPost (Some id) st); [|apply IH].
    cbv zeta.
    destruct (getCommentCount post >=? commentThreshold st);
      [destruct (existsb _ (results st))|];
      match goal with
      | |- context [scanLoop posts ?m ?st'] =>
          destruct (IH m st') as (rs & seen & ->)
      end; exists rs, seen; reflexivity.
Qed.

Lemma runScan_retry (doc : Doc) (s : Scanner) :
  scrollRetryCount (state (runScan doc s)) = scrollRetryCount (state s)
  /\ scrollFailureDetected (state (runScan doc s))
     = scrollFailureDetected (state s).
Proof.
  unfold runScan, scanPosts. cbn [state withState].
  destruct (scanLoop_frame (posts doc) 0 (state s)) as (rs & seen & ->).
  split; reflexivity.
Qed.

Lemma stopScrolling_retry (s : Scanner) :
  scrollRetryCount (state (stopScrolling s)) = scrollRetryCount (state s)
  /\ scrollFailureDetected (state (stopScrolling s))
     = scrollFailureDetected (state s).
Proof.
  unfold stopScrolling. destruct (scrollInterval (state s)); split; reflexivity.
Qed.

Lemma scrollAndScan_retry (doc : Doc) (s : Scanner) :
  scrollRetryCount (state (scrollAndScan doc s)) = scrollRetryCount (state s)
  /\ scrollFailureDetected (state (scrollAndScan doc s))
     = scrollFailureDetected (state s).
Proof.
  unfold scrollAndScan.
  destruct (paused (state s) || scrollFailureDetected (state s));
    [split; reflexivity|].
  pose proof (clickLoadMoreButton_state doc s) as Hclick.
  destruct (clickLoadMoreButton doc s) as [clicked s1]. simpl in Hclick.
  destruct clicked; [simpl; rewrite Hclick; split; reflexivity|].
  cbv zeta.
  match goal with |- context [if ?b then _ else _] => destruct b end.
  - unfold handleMaxScrollsReached. cbn [state emit].
    destruct (stopScrolling_retry
                (withState (set_paused true)
                   (withState (set_contentLoaded false)
                      (withState (fun st => set_scrollCount (scrollCount st + 1) st)
                         s1)))) as [-> ->].
    simpl. rewrite Hclick. split; reflexivity.
  - simpl. rewrite Hclick. split; reflexivity.
Qed.

Lemma handleScrollFailure_retry (reason : FailureReason) (s : Scanner) :
  scrollRetryCount (state (handleScrollFailure reason s))
  = scrollRetryCount (state s)
  /\ scrollFailureDetected (state (handleScrollFailure reason s)) = true.
Proof.
  unfold handleScrollFailure. cbn [state emit].
  destruct (stopScrolling_retry
              (withState (set_scrollFailureDetected true)
                 (withState (set_paused true) s))) as [-> ->].
  split; reflexivity.
Qed.

Lemma stall_no_load_more (doc : Doc) (prevScroll prevHeight : Z) (s : Scanner) :
  Driver.stall doc prevScroll prevHeight s = true ->
  nearBottom (Utils.getScrollInfo (window doc)) = true ->
  clickLoadMoreButton doc s = (false, s).
Proof.
  unfold Driver.stall, Driver.loadMoreAtBottom, clickLoadMoreButton.
  intros H Hnear. rewrite Hnear in H.
  destruct (findLoadMore (loadMoreButtons doc)); [|reflexivity].
  rewrite andb_false_r in H. discriminate H.
Qed.

(** A stall adds one to the counter and raises the failure flag when the
    counter reaches [MAX_SCROLL_RETRIES]. *)
Lemma validateScroll_stall (doc : Doc) (prevScroll prevHeight : Z) (s : Scanner) :
  Driver.stall doc prevScroll prevHeight s = true ->
  let s' := validateScroll doc prevScroll prevHeight s in
  scrollRetryCount (state s') = scrollRetryCount (state s) + 1
  /\ scrollFailureDetected (state s')
     = (scrollFailureDetected (state s)
        || (CONFIG.MAX_SCROLL_RETRIES <=? scrollRetryCount (state s) + 1)).
Proof.
  intros Hstall. pose proof Hstall as Hnp.
  unfold Driver.stall in Hnp. apply andb_prop in Hnp as [Hnp _].
  unfold Driver.noProgress in Hnp. apply negb_true_iff in Hnp.
  cbv zeta. unfold validateScroll. cbv zeta. rewrite Hnp.
  destruct (nearBottom (Utils.getScrollInfo (window doc))) eqn:Hnear.
  - rewrite (stall_no_load_more _ _ _ _ Hstall Hnear).
    cbn [state withState scrollRetryCount set_scrollRetryCount].
    rewrite Z.geb_leb.
    destruct (CONFIG.MAX_SCROLL_RETRIES <=? scrollRetryCount (state s) + 1).
    + destruct (handleScrollFailure_retry EndOfFeed
                  (withState
                     (fun st => set_scrollRetryCount (scrollRetryCount st + 1) st) s))
        as [-> ->]. rewrite orb_true_r. split; reflexivity.
    + rewrite orb_false_r. split; reflexivity.
  - cbn [state withState scrollRetryCount set_scrollRetryCount].
    rewrite Z.geb_leb.
    destruct (CONFIG.MAX_SCROLL_RETRIES <=? scrollRetryCount (state s) + 1).
    + destruct (handleScrollFailure_retry ScrollBlocked
                  (withState
                     (fun st => set_scrollRetryCount (scrollRetryCount st + 1) st) s))
        as [-> ->]. rewrite orb_true_r. split; reflexivity.
    + destruct (runScan_retry doc
                  (withState
                     (fun st => set_scrollRetryCount (scrollRetryCount st + 1) st) s))
        as [-> ->]. rewrite orb_false_r. split; reflexivity.
Qed.

(** A validation that finds no progress near the bottom, with a
    load-more button that takes the click, clears the counter. *)
Lemma validateScroll_load_more (doc : Doc) (prevScroll prevHeight : Z)
    (s : Scanner) :
  Driver.noProgress doc prevScroll prevHeight s = true ->
  Driver.loadMoreAtBottom doc = true ->
  let s' := validateScroll doc prevScroll prevHeight s in
  scrollRetryCount (state s') = 0
  /\ scrollFailureDetected (state s') = scrollFailureDetected (state s).
Proof.
  intros Hnp Hlm. unfold Driver.noProgress in Hnp. apply negb_true_iff in Hnp.
  unfold Driver.loadMoreAtBottom in Hlm. apply andb_prop in Hlm as [Hnear Hlm].
  cbv zeta. unfold validateScroll. cbv zeta. rewrite Hnp, Hnear.
  unfold clickLoadMoreButton.
  destruct (findLoadMore (loadMoreButtons doc)); [|discriminate Hlm].
  split; reflexivity.
Qed.

Lemma close_retry (s : Scanner) :
  scrollRetryCount (state (close s)) = scrollRetryCount (state s)
  /\ scrollFailureDetected (state (close s)) = scrollFailureDetected (state s).
Proof.
  unfold close. cbv zeta. destruct (stopScrolling_retry s) as [Hr Hf].
  destruct (mutationObserver (state (stopScrolling s)));
    cbn [state withState]; simpl; rewrite ?Hr, ?Hf; split; reflexivity.
Qed.

Lemma setThreshold_retry (value : JS.value) (s : Scanner) :
  scrollRetryCount (state (State.setThreshold value s))
  = scrollRetryCount (state s)
  /\ scrollFailureDetected (state (State.setThreshold value s))
     = scrollFailureDetected (state s).
Proof.
  unfold State.setThreshold. destruct value as [n| |]; try (split; reflexivity).
  destruct (negb _); [|split; reflexivity].
  destruct (localStorage _); split; reflexivity.
Qed.

(** One event of a streak: a validation counts one, anything else leaves
    the counter and the flag alone. *)
Lemma step_streak (doc : Doc) (e : Run.Event) (s : Scanner) :
  Driver.keepsStreak doc e s = true ->
  let k := match Driver.firedCallback e s with
           | Some (CbValidateScroll _ _) => 1
           | _ => 0
           end in
  scrollRetryCount (state (Run.step doc e s)) = scrollRetryCount (state s) + k
  /\ scrollFailureDetected (state (Run.step doc e s))
     = (scrollFailureDetected (state s)
        || ((0 <? k) && (CONFIG.MAX_SCROLL_RETRIES <=? scrollRetryCount (state s) + k))).
Proof.
  intros Hkeep. cbv zeta.
  destruct e as [id|mutations| |value|];
    cbn [Run.step Driver.firedCallback Driver.keepsStreak] in *.
  - unfold Run.fire.
    destruct (List.find (fun t => timerId t =? id) (timers s)) as [t|].
    2:{ rewrite Z.add_0_r, orb_false_r. split; reflexivity. }
    cbv zeta. destruct (callback t) as [|prevScroll prevHeight|];
      cbn [Run.runCallback].
    + match goal with |- context [runScan doc ?s'] =>
        destruct (runScan_retry doc s') as [-> ->] end.
      cbn [state withClock withTimers].
      rewrite Z.add_0_r, orb_false_r. split; reflexivity.
    + match goal with |- context [validateScroll doc _ _ ?s'] =>
        destruct (validateScroll_stall doc prevScroll prevHeight s') as [-> ->];
          [exact Hkeep|] end.
      cbn [state withClock withTimers]. split; reflexivity.
    + match goal with |- context [scrollAndScan doc ?s'] =>
        destruct (scrollAndScan_retry doc s') as [-> ->] end.
      cbn [state withClock withTimers].
      rewrite Z.add_0_r, orb_false_r. split; reflexivity.
  - rewrite Z.add_0_r, orb_false_r.
    destruct (mutationObserver (state s)); [|split; reflexivity].
    unfold observerCallback. cbn [state withState].
    destruct (existsb addsPost mutations); split; reflexivity.
  - discriminate Hkeep.
  - rewrite Z.add_0_r, orb_false_r. apply setThreshold_retry.
  - rewrite Z.add_0_r, orb_false_r. apply close_retry.
Qed.

Lemma validations_nonneg (events : list (Doc * Run.Event)) (s : Scanner) :
  0 <= Driver.validations events s.
Proof.
  revert s. induction events as [|[doc e] events IH]; intros s;
    cbn [Driver.validations]; [lia|].
  specialize (IH (Run.step doc e s)).
  destruct (Driver.firedCallback e s) as [[| |]|]; lia.
Qed.

(** Along a streak of stalls the counter counts the validations, and the
    flag is up exactly when the counter has reached the bound. *)
Lemma run_streak (events : list (Doc * Run.Event)) (s : Scanner) :
  scrollFailureDetected (state s)
  = (CONFIG.MAX_SCROLL_RETRIES <=? scrollRetryCount (state s)) ->
  Driver.stallsOnly events s = true ->
  scrollRetryCount (state (Run.run events s))
  = scrollRetryCount (state s) + Driver.validations events s
  /\ scrollFailureDetected (state (Run.run events s))
     = (CONFIG.MAX_SCROLL_RETRIES <=? scrollRetryCount (state (Run.run events s))).
Proof.
  revert s. induction events as [|[doc e] events IH]; intros s Hinv Hstalls.
  - cbn [Run.run Driver.validations]. split; [lia|exact Hinv].
  - cbn [Driver.stallsOnly] in Hstalls. apply andb_prop in Hstalls as [Hkeep Hrest].
    destruct (step_streak doc e s Hkeep) as [Hcount Hflag].
    cbn [Run.run Driver.validations].
    destruct (IH (Run.step doc e s)) as [IHcount IHflag]; [|exact Hrest|].
    + rewrite Hflag, Hcount, Hinv.
      destruct (Driver.firedCallback e s) as [[| |]|];
        unfold CONFIG.MAX_SCROLL_RETRIES;
        repeat match goal with
               | |- context [(?a <=? ?b)] => destruct (Z.leb_spec a b)
               | |- context [(?a <? ?b)] => destruct (Z.ltb_spec a b)
               end; simpl; try reflexivity; lia.
    + split; [rewrite IHcount, Hcount; lia|exact IHflag].
Qed.

Lemma validateAll_streak (vs : list Driver.Validation) (s : Scanner) :
  scrollFailureDetected (state s)
  = (CONFIG.MAX_SCROLL_RETRIES <=? scrollRetryCount (state s)) ->
  Driver.allStall vs s = true ->
  scrollRetryCount (state (Driver.validateAll vs s))
  = scrollRetryCount (state s) + Z.of_nat (length vs)
  /\ scrollFailureDetected (state (Driver.validateAll vs s))
     = (CONFIG.MAX_SCROLL_RETRIES
        <=? scrollRetryCount (state (Driver.validateAll vs s))).
Proof.
  revert s. induction vs as [|v vs IH]; intros s Hinv Hstalls.
  - cbn [Driver.validateAll length]. split; [lia|exact Hinv].
  - cbn [Driver.allStall] in Hstalls. apply andb_prop in Hstalls as [Hstall Hrest].
    destruct (validateScroll_stall _ _ _ s Hstall) as [Hcount Hflag].
    cbn [Driver.validateAll]. fold (Driver.validate v s) in Hcount, Hflag.
    destruct (IH (Driver.validate v s)) as [IHcount IHflag]; [|exact Hrest|].
    + rewrite Hflag, Hcount, Hinv. unfold CONFIG.MAX_SCROLL_RETRIES.
      repeat match goal with
             | |- context [(?a <=? ?b)] => destruct (Z.leb_spec a b)
             end; simpl; try reflexivity; lia.
    + split; [rewrite IHcount, Hcount, length_cons; lia|exact IHflag].
Qed.

End Retry.

(** C1, as the code has it: from a counter at 0 with the failure flag
    down, as after construction, progress, a load-more click or a resume,
    the scanner fails at the third consecutive stall and not before, a
    stall being a validation that finds no progress and activates no
    load-more button.  This holds for the validations taken alone and for
    every run in which timers, ticks, mutations, threshold changes and a
    close come in between, as long as the user does not pause or resume. *)
Theorem retry_bound (events : list (Doc * Run.Event))
    (vs : list Driver.Validation) (s : Scanner) :
  scrollRetryCount (state s) = 0 ->
  scrollFailureDetected (state s) = false ->
  (Driver.allStall vs s = true ->
   scrollFailureDetected (state (Driver.validateAll vs s))
   = (CONFIG.MAX_SCROLL_RETRIES <=? Z.of_nat (length vs)))
  /\ (Driver.stallsOnly events s = true ->
      scrollFailureDetected (state (Run.run events s))
      = (CONFIG.MAX_SCROLL_RETRIES <=? Driver.validations events s)).
Proof.
  intros Hcount Hflag.
  assert (Hinv : scrollFailureDetected (state s)
                 = (CONFIG.MAX_SCROLL_RETRIES <=? scrollRetryCount (state s))).
  { rewrite Hcount, Hflag. reflexivity. }
  split; intros Hstalls.
  - destruct (validateAll_streak vs s Hinv Hstalls) as [-> ->].
    rewrite Hcount. reflexivity.
  - destruct (run_streak events s Hinv Hstalls) as [-> ->].
    rewrite Hcount. reflexivity.
Qed.

Lemma retry_bound_witness :
  let s := LinkedInScanner.new Sample.bottom None in
  let v := {| Driver.v_doc := Sample.bottom;
              Driver.v_prevScroll := 4200; Driver.v_prevHeight := 5000 |} in
  let events := List.map (fun id => (Sample.bottom, Run.Fire id)) [1; 2; 4; 3; 2; 6] in
  scrollFailureDetected (state (Driver.validateAll [v; v] s)) = false
  /\ scrollFailureDetected (state (Driver.validateAll [v; v; v] s)) = true
  /\ scrollFailureDetected (state (Run.run (firstn 5 events) s)) = false
  /\ scrollFailureDetected (state (Run.run events s)) = true.
Proof.
  intros s v events.
  assert (Hcount : scrollRetryCount (state s) = 0) by (vm_compute; reflexivity).
  assert (Hflag : scrollFailureDetected (state s) = false) by (vm_compute; reflexivity).
  split; [|split; [|split]].
  - apply (proj1 (retry_bound [] [v; v] s Hcount Hflag)). vm_compute. reflexivity.
  - apply (proj1 (retry_bound [] [v; v; v] s Hcount Hflag)). vm_compute. reflexivity.
  - assert (Hv : Driver.validations (firstn 5 events) s = 2) by (vm_compute; reflexivity).
    rewrite (proj2 (retry_bound (firstn 5 events) [] s Hcount Hflag)).
    + rewrite Hv. reflexivity.
    + vm_compute. reflexivity.
  - assert (Hv : Driver.validations events s = 3) by (vm_compute; reflexivity).
    rewrite (proj2 (retry_bound events [] s Hcount Hflag)).
    + rewrite Hv. reflexivity.
    + vm_compute. reflexivity.
Defined.

(** C1 as stated fails: of three consecutive validations that find no
    progress, the third meets a load-more button at the bottom of the page;
    the counter is cleared and the scanner has not failed after them. *)
Lemma retry_bound_counterexample :
  ~ (forall (vs : list Driver.Validation) (s : Scanner),
       scrollRetryCount (state s) = 0 ->
       scrollFailureDetected (state s) = false ->
       Driver.allNoProgress vs s = true ->
       scrollFailureDetected (state (Driver.validateAll vs s))
       = (CONFIG.MAX_SCROLL_RETRIES <=? Z.of_nat (length vs))).
Proof.
  intros H.
  pose (v := {| Driver.v_doc := Sample.bottom;
                Driver.v_prevScroll := 4200; Driver.v_prevHeight := 5000 |}).
  pose (w := {| Driver.v_doc := Sample.bottomWithButton;
                Driver.v_prevScroll := 4200; Driver.v_prevHeight := 5000 |}).
  specialize (H [v; v; w] (LinkedInScanner.new Sample.bottom None)).
  vm_compute in H. specialize (H eq_refl eq_refl eq_refl). discriminate H.
Qed.

(** ** The guard of the tick handler *)

Section Guard.

Import LinkedInScanner.

Lemma stopScrolling_paused (s : Scanner) :
  paused (state (stopScrolling s)) = paused (state s).
Proof. unfold stopScrolling. destruct (scrollInterval (state s)); reflexivity. Qed.

Lemma pendingValidations_setTimeout (cb : Callback) (delay : Z) (s : Scanner) :
  Run.pendingValidations (Browser.setTimeout cb delay s)
  = (Run.pendingValidations s
     + match cb with
       | CbValidateScroll _ _ => 1
       | _ => 0
       end)%nat.
Proof.
  unfold Run.pendingValidations, Browser.setTimeout, Browser.addTimer.
  cbn [snd timers]. rewrite List.filter_app, List.length_app. f_equal.
  destruct cb; reflexivity.
Qed.

End Guard.

(** C6, as the code has it: [scrollAndScan] is a no-op when the scanner is
    paused or has failed, and only then; it does not look for a cycle in
    flight.  With neither flag set, no load-more button and the scroll
    ceiling not reached, it issues a scroll command and leaves one more
    validation pending, however many are pending already. *)
Theorem tick_guard (doc : Doc) (s : Scanner) :
  (paused (state s) || scrollFailureDetected (state s) = true ->
   LinkedInScanner.scrollAndScan doc s = s)
  /\ (paused (state s) || scrollFailureDetected (state s) = false ->
      LinkedInScanner.scrollAndScan doc s <> s)
  /\ (paused (state s) || scrollFailureDetected (state s) = false ->
      LinkedInScanner.findLoadMore (loadMoreButtons doc) = None ->
      scrollCount (state s) + 1 < CONFIG.MAX_SCROLLS ->
      effects (LinkedInScanner.scrollAndScan doc s)
      = ScrollTo (maxScroll (Utils.getScrollInfo (window doc))) :: effects s
      /\ Run.pendingValidations (LinkedInScanner.scrollAndScan doc s)
         = S (Run.pendingValidations s)).
Proof.
  split; [|split].
  - intros Hguard. unfold LinkedInScanner.scrollAndScan. now rewrite Hguard.
  - intros Hguard Heq. unfold LinkedInScanner.scrollAndScan in Heq.
    rewrite Hguard in Heq. unfold LinkedInScanner.clickLoadMoreButton in Heq.
    destruct (LinkedInScanner.findLoadMore (loadMoreButtons doc)) as [b|].
    + apply (f_equal nextTimerId) in Heq. cbn in Heq. lia.
    + cbv zeta in Heq.
      match type of Heq with context [if ?b then _ else _] => destruct b end.
      * apply (f_equal (fun x => paused (state x))) in Heq.
        unfold LinkedInScanner.handleMaxScrollsReached in Heq.
        cbn [state emit] in Heq. rewrite stopScrolling_paused in Heq.
        cbn in Heq. apply orb_false_elim in Hguard as [Hp _]. congruence.
      * apply (f_equal nextTimerId) in Heq. cbn in Heq. lia.
  - intros Hguard Hnone Hbelow. unfold LinkedInScanner.scrollAndScan.
    rewrite Hguard. unfold LinkedInScanner.clickLoadMoreButton. rewrite Hnone.
    cbv zeta. cbn [state withState scrollCount set_scrollCount set_contentLoaded].
    destruct (Z.geb_spec (scrollCount (state s) + 1) CONFIG.MAX_SCROLLS) as [Hge|_];
      [lia|].
    split; [reflexivity|].
    rewrite pendingValidations_setTimeout. unfold Run.pendingValidations.
    cbn [timers emit withState]. lia.
Qed.

Lemma tick_guard_witness :
  let s := LinkedInScanner.new Sample.bottom None in
  let failed := Run.runPunctual (repeat Sample.bottom 6) s in
  LinkedInScanner.scrollAndScan Sample.bottom failed = failed
  /\ LinkedInScanner.scrollAndScan Sample.bottom s <> s
  /\ Run.pendingValidations (LinkedInScanner.scrollAndScan Sample.bottom s) = 2%nat.
Proof.
  intros s failed. split; [|split].
  - apply (proj1 (tick_guard Sample.bottom failed)). vm_compute. reflexivity.
  - apply (proj1 (proj2 (tick_guard Sample.bottom s))). vm_compute. reflexivity.
  - apply (proj2 (proj2 (tick_guard Sample.bottom s))).
    + vm_compute. reflexivity.
    + vm_compute. reflexivity.
    + vm_compute. reflexivity.
Defined.

(** C6 as stated fails, with every timer firing on time: after the fourth
    timer of a scanner at the end of a feed, at 7500 ms, the validation of
    the retry cycle is pending; the next timer is the periodic tick at
    8000 ms, the scanner is neither paused nor failed, and the tick issues
    a further scroll command and leaves two validations pending. *)
Lemma tick_guard_counterexample :
  let s := Run.runPunctual (repeat Sample.bottom 4)
             (LinkedInScanner.new Sample.bottom None) in
  let tick := {| timerId := 2; due := 8000; period := Some 4000;
                 callback := CbScrollAndScan |} in
  clock s = 7500
  /\ Run.cycleInFlight s = true
  /\ Run.nextDue (timers s) = Some tick
  /\ paused (state s) = false
  /\ LinkedInScanner.scrollAndScan Sample.bottom s <> s
  /\ effects (LinkedInScanner.scrollAndScan Sample.bottom s)
     = ScrollTo 5000 :: effects s
  /\ Run.pendingValidations (LinkedInScanner.scrollAndScan Sample.bottom s) = 2%nat
  /\ Run.pendingValidations (Run.fire Sample.bottom 2 s) = 2%nat.
Proof.
  intros s tick.
  split; [vm_compute; reflexivity|].
  split; [vm_compute; reflexivity|].
  split; [vm_compute; reflexivity|].
  split; [vm_compute; reflexivity|].
  split.
  - intros Heq. apply (f_equal nextTimerId) in Heq. vm_compute in Heq.
    discriminate Heq.
  - split; [vm_compute; reflexivity|].
    split; vm_compute; reflexivity.
Qed.

(** * Further properties *)

(** ** What the driver leaves of the store *)

Section Store.

Import LinkedInScanner.

Lemma stopScrolling_store (s : Scanner) :
  storeOf (state (stopScrolling s)) = storeOf (state s).
Proof. unfold stopScrolling. destruct (scrollInterval (state s)); reflexivity. Qed.

Lemma handleMaxScrollsReached_store (s : Scanner) :
  storeOf (state (handleMaxScrollsReached s)) = storeOf (state s).
Proof.
  unfold handleMaxScrollsReached. cbn [state emit].
  now rewrite stopScrolling_store.
Qed.

Lemma handleScrollFailure_store (reason : FailureReason) (s : Scanner) :
  storeOf (state (handleScrollFailure reason s)) = storeOf (state s).
Proof.
  unfold handleScrollFailure. cbn [state emit].
  now rewrite stopScrolling_store.
Qed.

Lemma scrollAndScan_store (doc : Doc) (s : Scanner) :
  storeOf (state (scrollAndScan doc s)) = storeOf (state s).
Proof.
  unfold scrollAndScan.
  destruct (paused (state s) || scrollFailureDetected (state s)); [reflexivity|].
  pose proof (clickLoadMoreButton_state doc s) as Hclick.
  destruct (clickLoadMoreButton doc s) as [clicked s1]. cbn [snd] in Hclick.
  destruct clicked; [cbn; now rewrite Hclick|].
  cbv zeta.
  match goal with |- context [if ?b then _ else _] => destruct b end.
  - rewrite handleMaxScrollsReached_store. cbn. now rewrite Hclick.
  - cbn. now rewrite Hclick.
Qed.

Lemma startScanning_store (doc : Doc) (s : Scanner) :
  storeOf (state (startScanning doc s)) = storeOf (state s).
Proof.
  unfold startScanning. destruct (scrollInterval (state s)); [reflexivity|].
  cbv zeta. unfold Browser.setInterval, Browser.addTimer.
  cbn [state withState fst snd].
  change (storeOf (set_scrollInterval ?v ?st)) with (storeOf st).
  now rewrite scrollAndScan_store.
Qed.

Lemma togglePause_store (doc : Doc) (s : Scanner) :
  storeOf (state (togglePause doc s)) = storeOf (state s).
Proof.
  unfold togglePause. destruct (paused (state s)).
  - now rewrite startScanning_store.
  - now rewrite stopScrolling_store.
Qed.

End Store.

(** A property of the store that scanning, a change of threshold and the
    clearing of [close] keep is kept by every event of a run. *)
Section StoreInvariant.

Import LinkedInScanner.

Variable P : ScannerState -> Prop.

Hypothesis P_store :
  forall st st', storeOf st' = storeOf st -> P st -> P st'.
Hypothesis P_scan :
  forall posts n st, P st -> P (snd (scanLoop posts n st)).
Hypothesis P_threshold :
  forall n st, In n CONFIG.COMMENT_THRESHOLDS -> P st -> P (set_commentThreshold n st).
Hypothesis P_clear :
  forall st, P st -> P (set_results [] (set_seenPostIds ∅ st)).

Lemma runScan_keeps (doc : Doc) (s : Scanner) :
  P (state s) -> P (state (runScan doc s)).
Proof. intros H. unfold runScan, scanPosts. cbn [state withState]. now apply P_scan. Qed.

Lemma validateScroll_keeps (doc : Doc) (prevScroll prevHeight : Z) (s : Scanner) :
  P (state s) -> P (state (validateScroll doc prevScroll prevHeight s)).
Proof.
  intros H. unfold validateScroll. cbv zeta.
  match goal with |- context [if ?b then _ else _] => destruct b end.
  { apply runScan_keeps. eapply P_store; [|exact H]. reflexivity. }
  destruct (nearBottom _).
  - pose proof (clickLoadMoreButton_state doc s) as Hclick.
    destruct (clickLoadMoreButton doc s) as [clicked s1]. cbn [snd] in Hclick.
    destruct clicked.
    + eapply P_store; [|exact H]. cbn. now rewrite Hclick.
    + match goal with |- context [if ?b then _ else _] => destruct b end;
        (eapply P_store; [|exact H]).
      * rewrite handleScrollFailure_store. cbn. now rewrite Hclick.
      * cbn. now rewrite Hclick.
  - match goal with |- context [if ?b then _ else _] => destruct b end.
    + eapply P_store; [|exact H]. now rewrite handleScrollFailure_store.
    + apply runScan_keeps. eapply P_store; [|exact H]. reflexivity.
Qed.

Lemma step_keeps (doc : Doc) (e : Run.Event) (s : Scanner) :
  P (state s) -> P (state (Run.step doc e s)).
Proof.
  intros H. destruct e as [id|mutations| |value|]; cbn [Run.step].
  - unfold Run.fire. destruct (List.find _ (timers s)) as [t|]; [|exact H].
    cbv zeta. destruct (callback t) as [|prevScroll prevHeight|];
      cbn [Run.runCallback].
    + apply runScan_keeps. exact H.
    + apply validateScroll_keeps. exact H.
    + eapply P_store; [|exact H]. now rewrite scrollAndScan_store.
  - destruct (mutationObserver (state s)); [|exact H].
    eapply P_store; [|exact H]. unfold observerCallback. cbn [state withState].
    destruct (existsb addsPost mutations); reflexivity.
  - eapply P_store; [|exact H]. apply togglePause_store.
  - unfold setThreshold, State.setThreshold.
    destruct value as [n| |]; try exact H.
    destruct (negb (State.indexOf n CONFIG.COMMENT_THRESHOLDS =? -1)) eqn:Hidx;
      [|exact H].
    apply indexOf_found in Hidx.
    destruct (localStorage (withState (set_commentThreshold n) s));
      cbn [state withState withStorage]; now apply P_threshold.
  - unfold close. cbv zeta. cbn [state withState].
    eapply P_store; [|apply P_clear; exact H].
    unfold storeOf. cbn.
    destruct (mutationObserver (state (stopScrolling s))); cbn;
      pose proof (stopScrolling_store s) as Hs; unfold storeOf in Hs;
      congruence.
Qed.

Lemma run_keeps (events : list (Doc * Run.Event)) (s : Scanner) :
  P (state s) -> P (state (Run.run events s)).
Proof.
  revert s. induction events as [|[doc e] events IH]; intros s H; [exact H|].
  cbn [Run.run]. apply IH. now apply step_keeps.
Qed.

Lemma new_keeps (doc : Doc) (storage : Storage) :
  P (State.new storage) -> P (state (LinkedInScanner.new doc storage)).
Proof.
  intros H. unfold LinkedInScanner.new, init.
  destruct (negb (validateEnvironment doc)); [exact H|].
  eapply P_store; [apply startScanning_store|].
  unfold setupMutationObserver.
  destruct (hasMutationObserver doc); [|exact H].
  eapply P_store; [|exact H]. reflexivity.
Qed.

End StoreInvariant.

(** ** The threshold and its stored preference *)

Section Preference.

Lemma getItem_setItem (key v : jsstring) (kv : list (jsstring * jsstring)) :
  Browser.getItem key (Browser.setItem key v kv) = Some v.
Proof.
  induction kv as [|[k v'] kv IH]; cbn [Browser.setItem Browser.getItem].
  - now rewrite bool_decide_eq_true_2.
  - destruct (bool_decide (k = key)) eqn:Hk; cbn [Browser.getItem].
    + now rewrite bool_decide_eq_true_2.
    + rewrite Hk. exact IH.
Qed.

Lemma getSavedThreshold_allowed (storage : Storage) :
  In (State.getSavedThreshold storage) CONFIG.COMMENT_THRESHOLDS.
Proof.
  assert (Hdefault : In CONFIG.DEFAULT_THRESHOLD CONFIG.COMMENT_THRESHOLDS)
    by (cbn; tauto).
  unfold State.getSavedThreshold. destruct storage as [kv|]; [|exact Hdefault].
  destruct (Browser.getItem CONFIG.THRESHOLD_KEY kv) as [text|]; [|exact Hdefault].
  destruct (JS.parseInt10 text) as [n|]; [|exact Hdefault].
  destruct (negb (State.indexOf n CONFIG.COMMENT_THRESHOLDS =? -1)) eqn:Hidx;
    [|exact Hdefault].
  now apply indexOf_found.
Qed.

(** The thresholds of the table are safe integers. *)
Lemma threshold_safe (n : Z) :
  In n CONFIG.COMMENT_THRESHOLDS -> JS.isSafeInteger n = true.
Proof.
  unfold CONFIG.COMMENT_THRESHOLDS. cbn [In].
  intros [<-|[<-|[<-|[<-|[<-|[]]]]]]; reflexivity.
Qed.

End Preference.

(** X1: a threshold that [setThreshold] accepts survives the session: with
    a working storage, a scanner state constructed later on the storage that
    the call leaves reads the same threshold back.  Without storage the
    call still sets the threshold of the session, and a later session
    starts from the default. *)
Theorem threshold_persisted (n : Z) (s : Scanner) :
  In n CONFIG.COMMENT_THRESHOLDS ->
  let s' := State.setThreshold (JS.VNumber n) s in
  commentThreshold (state s') = n
  /\ (localStorage s <> None ->
      commentThreshold (State.new (localStorage s')) = n)
  /\ (localStorage s = None ->
      commentThreshold (State.new (localStorage s')) = CONFIG.DEFAULT_THRESHOLD).
Proof.
  intros Hin. cbv zeta. unfold State.setThreshold.
  pose proof Hin as Hidx. apply indexOf_found in Hidx. rewrite Hidx.
  cbn [localStorage withState].
  destruct (localStorage s) as [kv|] eqn:Hstorage.
  - split; [reflexivity|]. split; [|discriminate]. intros _.
    cbn [localStorage withStorage State.new commentThreshold].
    unfold State.getSavedThreshold.
    rewrite getItem_setItem, parseInt10_numberToString, Hidx;
      [reflexivity|exact (threshold_safe n Hin)].
  - split; [reflexivity|]. split; [congruence|]. intros _.
    cbn [localStorage withState]. rewrite Hstorage. reflexivity.
Qed.

Lemma threshold_persisted_witness :
  let s := LinkedInScanner.new Sample.bottom
             (Some [(CONFIG.THRESHOLD_KEY, lit "50")]) in
  commentThreshold (state s) = 50
  /\ commentThreshold
       (State.new (localStorage (State.setThreshold (JS.VNumber 500) s))) = 500.
Proof.
  intros s. split; [vm_compute; reflexivity|].
  apply (proj1 (proj2 (threshold_persisted 500 s ltac:(cbn; tauto)))).
  vm_compute. discriminate.
Defined.

(** X2: whatever the storage holds, garbage, a number outside the table or
    nothing at all, and whatever happens during a run, the threshold of the
    scanner is one of [CONFIG.COMMENT_THRESHOLDS]. *)
Theorem threshold_always_allowed (doc : Doc) (storage : Storage)
    (events : list (Doc * Run.Event)) :
  In (commentThreshold (state (Run.run events (LinkedInScanner.new doc storage))))
     CONFIG.COMMENT_THRESHOLDS.
Proof.
  apply (run_keeps (fun st => In (commentThreshold st) CONFIG.COMMENT_THRESHOLDS)).
  - intros st st' Hstore H. unfold storeOf in Hstore. congruence.
  - intros posts n st H.
    destruct (scanLoop_frame posts n st) as (rs & seen & ->). exact H.
  - intros n st Hn _. exact Hn.
  - intros st H. exact H.
  - apply (new_keeps (fun st => In (commentThreshold st) CONFIG.COMMENT_THRESHOLDS)).
    + intros st st' Hstore H. unfold storeOf in Hstore. congruence.
    + apply getSavedThreshold_allowed.
Qed.

(** ** Stored results and seen identifiers *)

Section Seen.

Import LinkedInScanner.

Lemma storedSeen_mono (st st' : ScannerState) :
  results st' = results st -> seenPostIds st ⊆ seenPostIds st' ->
  storedSeen st -> storedSeen st'.
Proof.
  unfold storedSeen. intros -> Hsub H.
  eapply List.Forall_impl; [|exact H].
  intros r (id & Hlink & Hseen). exists id. split; [exact Hlink|set_solver].
Qed.

Lemma scanLoop_storedSeen (posts : list Post) (n : Z) (st : ScannerState) :
  storedSeen st -> storedSeen (snd (scanLoop posts n st)).
Proof.
  revert n st. induction posts as [|post posts IH]; intros n st Hst.
  - exact Hst.
  - assert (Hseen : forall id,
              storedSeen (set_seenPostIds ({[id]} ∪ seenPostIds st) st)).
    { intros id. eapply storedSeen_mono; [| |exact Hst];
        [reflexivity|cbn; set_solver]. }
    rewrite scanLoop_cons.
    destruct (getPostDataId post) as [id|]; [|now apply IH].
    destruct (isValidPost (Some id) st); [|now apply IH].
    cbv zeta.
    destruct (getCommentCount post >=? commentThreshold st); [|apply IH, Hseen].
    destruct (existsb _ (results st)); [apply IH, Hseen|].
    apply IH. unfold storedSeen. cbn [results set_results set_seenPostIds seenPostIds].
    constructor; [|exact (Hseen id)].
    exists id. split; [reflexivity|set_solver].
Qed.

(** A valid identifier is not that of a stored result. *)
Lemma valid_not_stored (post : Post) (id : jsstring) (st : ScannerState) :
  storedSeen st -> isValidPost (Some id) st = true ->
  existsb (fun r' => bool_decide (link r' = CONFIG.UPDATE_URL ++ id)) (results st)
  = false.
Proof.
  intros Hst Hvalid. apply not_true_is_false. intros Hknown.
  apply existsb_exists in Hknown as (r & Hin & Hlink).
  apply bool_decide_eq_true in Hlink.
  unfold storedSeen in Hst. rewrite List.Forall_forall in Hst.
  destruct (Hst r Hin) as (id' & Hlink' & Hseen).
  rewrite Hlink in Hlink'. apply app_inv_head in Hlink'. subst id'.
  unfold isValidPost in Hvalid. destruct id as [|c id]; [discriminate|].
  apply andb_prop in Hvalid as [Hnew _]. apply negb_true_iff in Hnew.
  apply bool_decide_eq_false in Hnew. contradiction.
Qed.

End Seen.

(** X3: in every run, each stored result belongs to an identifier that is
    recorded as seen; so for a post that [isValidPost] lets through,
    [addResult] never finds its link in the store: inside [scanPosts] the
    duplicate test always accepts. *)
Theorem stored_ids_are_seen (doc : Doc) (storage : Storage)
    (events : list (Doc * Run.Event)) (post : Post) (id : jsstring) :
  let st := state (Run.run events (LinkedInScanner.new doc storage)) in
  storedSeen st
  /\ (LinkedInScanner.isValidPost (Some id) st = true ->
      fst (State.addResult (scanned post id)
             (set_seenPostIds ({[ id ]} ∪ seenPostIds st) st)) = true).
Proof.
  cbv zeta.
  assert (Hst : storedSeen
                  (state (Run.run events (LinkedInScanner.new doc storage)))).
  { apply (run_keeps storedSeen).
    - intros st st' Hstore. unfold storeOf in Hstore.
      apply storedSeen_mono; [congruence|].
      replace (seenPostIds st') with (seenPostIds st) by congruence. reflexivity.
    - apply scanLoop_storedSeen.
    - intros n st _ H. exact H.
    - intros st _. constructor.
    - apply (new_keeps storedSeen).
      + intros st st' Hstore. unfold storeOf in Hstore.
        apply storedSeen_mono; [congruence|].
        replace (seenPostIds st') with (seenPostIds st) by congruence. reflexivity.
      + constructor. }
  split; [exact Hst|]. intros Hvalid.
  unfold State.addResult. cbn [results set_seenPostIds link scanned].
  now rewrite (valid_not_stored post id _ Hst Hvalid).
Qed.

Lemma stored_ids_are_seen_witness :
  let id := lit "urn:li:activity:7005" in
  let st := state (Run.run [(Sample.scenarioA, Run.Fire 1)]
                     (LinkedInScanner.new Sample.scenarioA None)) in
  fst (State.addResult (scanned (Sample.post "urn:li:activity:7005" "300") id)
         (set_seenPostIds ({[ id ]} ∪ seenPostIds st) st)) = true.
Proof.
  intros id st.
  apply (proj2 (stored_ids_are_seen Sample.scenarioA None
                  [(Sample.scenarioA, Run.Fire 1)]
                  (Sample.post "urn:li:activity:7005" "300") id)).
  vm_compute. reflexivity.
Defined.

(** ** Pausing, the scroll ceiling and resuming *)

Section Ceiling.

Import LinkedInScanner.

Lemma stopScrolling_driver (s : Scanner) :
  scrollCount (state (stopScrolling s)) = scrollCount (state s)
  /\ paused (state (stopScrolling s)) = paused (state s)
  /\ effects (stopScrolling s) = effects s.
Proof.
  unfold stopScrolling. destruct (scrollInterval (state s)); repeat split.
Qed.

Lemma runScan_driver (doc : Doc) (s : Scanner) :
  scrollCount (state (runScan doc s)) = scrollCount (state s)
  /\ paused (state (runScan doc s)) = paused (state s)
  /\ effects (runScan doc s) = effects s.
Proof.
  unfold runScan, scanPosts. cbn [state withState effects].
  destruct (scanLoop_frame (posts doc) 0 (state s)) as (rs & seen & ->).
  repeat split.
Qed.

Lemma handleScrollFailure_driver (reason : FailureReason) (s : Scanner) :
  scrollCount (state (handleScrollFailure reason s)) = scrollCount (state s)
  /\ paused (state (handleScrollFailure reason s)) = true
  /\ scrollCommands (handleScrollFailure reason s) = scrollCommands s.
Proof.
  unfold handleScrollFailure, scrollCommands. cbn [state emit effects flat_map app].
  match goal with |- context [stopScrolling ?s'] =>
    destruct (stopScrolling_driver s') as (-> & -> & ->) end.
  repeat split.
Qed.

(** A validation never scrolls, never moves the scroll counter and never
    lifts a pause. *)
Lemma validateScroll_driver (doc : Doc) (prevScroll prevHeight : Z) (s : Scanner) :
  let s' := validateScroll doc prevScroll prevHeight s in
  scrollCount (state s') = scrollCount (state s)
  /\ (paused (state s) = true -> paused (state s') = true)
  /\ scrollCommands s' = scrollCommands s.
Proof.
  cbv zeta. unfold validateScroll. cbv zeta.
  match goal with |- context [if ?b then _ else _] => destruct b end.
  { match goal with |- context [runScan doc ?s'] =>
      destruct (runScan_driver doc s') as (-> & -> & He) end.
    unfold scrollCommands. rewrite He. repeat split. auto. }
  destruct (nearBottom _).
  - unfold clickLoadMoreButton.
    destruct (findLoadMore (loadMoreButtons doc)) as [b|].
    + repeat split. auto.
    + match goal with |- context [if ?b then _ else _] => destruct b end.
      * match goal with |- context [handleScrollFailure ?r ?s'] =>
          destruct (handleScrollFailure_driver r s') as (-> & -> & ->) end.
        repeat split.
      * repeat split. auto.
  - match goal with |- context [if ?b then _ else _] => destruct b end.
    + match goal with |- context [handleScrollFailure ?r ?s'] =>
        destruct (handleScrollFailure_driver r s') as (-> & -> & ->) end.
      repeat split.
    + match goal with |- context [runScan doc ?s'] =>
        destruct (runScan_driver doc s') as (-> & -> & He) end.
      unfold scrollCommands. rewrite He. repeat split. auto.
Qed.

Lemma withinCeiling_same (st st' : ScannerState) :
  scrollCount st' = scrollCount st -> (paused st = true -> paused st' = true) ->
  withinCeiling st -> withinCeiling st'.
Proof.
  unfold withinCeiling. intros -> Hp [Hrange Hmax]. split; [exact Hrange|auto].
Qed.

Lemma scrollAndScan_ceiling (doc : Doc) (s : Scanner) :
  withinCeiling (state s) -> withinCeiling (state (scrollAndScan doc s)).
Proof.
  intros [Hrange Hmax]. unfold scrollAndScan.
  destruct (paused (state s) || scrollFailureDetected (state s)) eqn:Hguard;
    [split; assumption|].
  apply orb_false_elim in Hguard as [Hp _].
  assert (Hbelow : scrollCount (state s) < CONFIG.MAX_SCROLLS).
  { destruct (Z.lt_ge_cases (scrollCount (state s)) CONFIG.MAX_SCROLLS) as [H|H];
      [exact H|]. specialize (Hmax H). congruence. }
  unfold clickLoadMoreButton.
  destruct (findLoadMore (loadMoreButtons doc)) as [b|]; [split; assumption|].
  cbv zeta. cbn [state withState scrollCount set_scrollCount set_contentLoaded].
  destruct (Z.geb_spec (scrollCount (state s) + 1) CONFIG.MAX_SCROLLS) as [Hge|Hlt].
  - unfold handleMaxScrollsReached. cbn [state emit].
    match goal with |- context [stopScrolling ?s'] =>
      destruct (stopScrolling_driver s') as (Hc & Hpa & _) end.
    unfold withinCeiling. rewrite Hc, Hpa. cbn. split; [lia|reflexivity].
  - unfold withinCeiling. cbn. split; [lia|]. intros H. lia.
Qed.

Lemma startScanning_ceiling (doc : Doc) (s : Scanner) :
  withinCeiling (state s) -> withinCeiling (state (startScanning doc s)).
Proof.
  intros H. unfold startScanning.
  destruct (scrollInterval (state s)); [exact H|].
  cbv zeta. unfold Browser.setInterval, Browser.addTimer.
  cbn [state withState fst snd].
  match goal with |- withinCeiling (set_scrollInterval _ ?st) =>
    apply (withinCeiling_same st); [reflexivity|auto|] end.
  apply scrollAndScan_ceiling. exact H.
Qed.

Lemma step_ceiling (doc : Doc) (e : Run.Event) (s : Scanner) :
  withinCeiling (state s) -> withinCeiling (state (Run.step doc e s)).
Proof.
  intros H. destruct e as [id|mutations| |value|]; cbn [Run.step].
  - unfold Run.fire. destruct (List.find _ (timers s)) as [t|]; [|exact H].
    cbv zeta. destruct (callback t) as [|prevScroll prevHeight|];
      cbn [Run.runCallback].
    + match goal with |- context [runScan doc ?s'] =>
        destruct (runScan_driver doc s') as (Hc & Hp & _) end.
      eapply withinCeiling_same; [exact Hc|rewrite Hp; auto|exact H].
    + match goal with |- context [validateScroll doc ?a ?b ?s'] =>
        destruct (validateScroll_driver doc a b s') as (Hc & Hp & _) end.
      eapply withinCeiling_same; [exact Hc|exact Hp|exact H].
    + apply scrollAndScan_ceiling. exact H.
  - destruct (mutationObserver (state s)); [|exact H].
    unfold observerCallback. cbn [state withState].
    destruct (existsb addsPost mutations); exact H.
  - unfold togglePause. destruct (paused (state s)).
    + apply startScanning_ceiling. unfold withinCeiling, State.reset. cbn.
      unfold CONFIG.MAX_SCROLLS. split; [lia|]. intros Hmax. lia.
    + destruct (stopScrolling_driver (withState (set_paused true) s))
        as (Hc & Hp & _).
      unfold withinCeiling. rewrite Hc, Hp. cbn. destruct H as [Hrange _].
      split; [exact Hrange|reflexivity].
  - unfold setThreshold, State.setThreshold.
    destruct value as [n| |]; try exact H.
    destruct (negb _); [|exact H].
    destruct (localStorage _); exact H.
  - unfold close. cbv zeta. destruct (stopScrolling_driver s) as (Hc & Hp & _).
    destruct (mutationObserver (state (stopScrolling s)));
      (eapply withinCeiling_same; [| |exact H]); cbn; rewrite ?Hc, ?Hp; auto.
Qed.

Lemma new_ceiling (doc : Doc) (storage : Storage) :
  withinCeiling (state (LinkedInScanner.new doc storage)).
Proof.
  assert (H0 : withinCeiling (State.new storage)).
  { unfold withinCeiling. cbn. unfold CONFIG.MAX_SCROLLS.
    split; [lia|]. intros H. lia. }
  unfold LinkedInScanner.new, init.
  destruct (negb (validateEnvironment doc)); [exact H0|].
  apply startScanning_ceiling. unfold setupMutationObserver.
  destruct (hasMutationObserver doc); exact H0.
Qed.

Lemma step_paused (doc : Doc) (e : Run.Event) (s : Scanner) :
  paused (state s) = true -> e <> Run.TogglePause ->
  paused (state (Run.step doc e s)) = true
  /\ scrollCommands (Run.step doc e s) = scrollCommands s.
Proof.
  intros Hp He. destruct e as [id|mutations| |value|]; cbn [Run.step];
    [| |congruence| |].
  - unfold Run.fire. destruct (List.find _ (timers s)) as [t|]; [|now split].
    cbv zeta. destruct (callback t) as [|prevScroll prevHeight|];
      cbn [Run.runCallback].
    + match goal with |- context [runScan doc ?s'] =>
        destruct (runScan_driver doc s') as (_ & Hpa & Hef) end.
      unfold scrollCommands. rewrite Hpa, Hef. now split.
    + match goal with |- context [validateScroll doc ?a ?b ?s'] =>
        destruct (validateScroll_driver doc a b s') as (_ & Hpa & Hef) end.
      rewrite Hef. split; [now apply Hpa|reflexivity].
    + unfold scrollAndScan. cbn [state withClock withTimers]. rewrite Hp.
      cbn [orb]. now split.
  - destruct (mutationObserver (state s)); [|now split].
    unfold observerCallback. cbn [state withState].
    destruct (existsb addsPost mutations); now split.
  - unfold setThreshold, State.setThreshold.
    destruct value as [n| |]; try now split.
    destruct (negb _); [|now split].
    destruct (localStorage _); now split.
  - unfold close. cbv zeta. destruct (stopScrolling_driver s) as (_ & Hpa & Hef).
    unfold scrollCommands.
    destruct (mutationObserver (state (stopScrolling s)));
      cbn [state withState effects paused set_results set_seenPostIds
           set_mutationObserver]; rewrite Hpa, Hef; now split.
Qed.

End Ceiling.

(** X4: in every run the scroll counter stays between 0 and [MAX_SCROLLS]
    (200), and the scanner is paused whenever the counter has reached it.
    The tick that takes the counter to the ceiling pauses the scanner,
    cancels the periodic timer and raises the alert without issuing a
    scroll command. *)
Theorem scroll_ceiling (doc : Doc) (storage : Storage)
    (events : list (Doc * Run.Event)) (tick : Doc) (s : Scanner) :
  withinCeiling (state (Run.run events (LinkedInScanner.new doc storage)))
  /\ (paused (state s) || scrollFailureDetected (state s) = false ->
      LinkedInScanner.findLoadMore (loadMoreButtons tick) = None ->
      scrollCount (state s) + 1 = CONFIG.MAX_SCROLLS ->
      let s' := LinkedInScanner.scrollAndScan tick s in
      paused (state s') = true
      /\ scrollInterval (state s') = None
      /\ scrollCount (state s') = CONFIG.MAX_SCROLLS
      /\ effects s' = AlertMaxScrolls (length (results (state s))) :: effects s).
Proof.
  split.
  - generalize (LinkedInScanner.new doc storage), (new_ceiling doc storage).
    induction events as [|[d e] events IH]; intros s0 H0; [exact H0|].
    cbn [Run.run]. apply IH. now apply step_ceiling.
  - intros Hguard Hnone Hmax. cbv zeta. unfold LinkedInScanner.scrollAndScan.
    rewrite Hguard. unfold LinkedInScanner.clickLoadMoreButton. rewrite Hnone.
    cbv zeta. cbn [state withState scrollCount set_scrollCount set_contentLoaded].
    rewrite Hmax, Z.geb_leb, Z.leb_refl.
    unfold LinkedInScanner.handleMaxScrollsReached. cbn [state emit effects].
    match goal with |- context [LinkedInScanner.stopScrolling ?s'] =>
      destruct (stopScrolling_driver s') as (Hc & Hp & He);
      pose proof (stopScrolling_interval s') as Hi;
      pose proof (proj1 (stopScrolling_results s')) as Hr end.
    rewrite Hc, Hp, He, Hi, Hr. cbn. rewrite Hmax. repeat split.
Qed.

Lemma scroll_ceiling_witness :
  let s := withState (set_scrollCount 199)
             (LinkedInScanner.new Sample.bottom None) in
  paused (state (LinkedInScanner.scrollAndScan Sample.bottom s)) = true
  /\ scrollInterval (state (LinkedInScanner.scrollAndScan Sample.bottom s)) = None.
Proof.
  intros s.
  destruct (proj2 (scroll_ceiling Sample.bottom None [] Sample.bottom s))
    as (Hp & Hi & _); [vm_compute; reflexivity..|].
  split; assumption.
Defined.

(** X5: a paused scanner does not scroll: as long as the user does not
    press the pause button again, no event, neither a tick nor a pending
    validation or retry, issues a scroll command or lifts the pause. *)
Theorem paused_never_scrolls (events : list (Doc * Run.Event)) (s : Scanner) :
  paused (state s) = true -> noToggle events = true ->
  paused (state (Run.run events s)) = true
  /\ scrollCommands (Run.run events s) = scrollCommands s.
Proof.
  revert s. induction events as [|[doc e] events IH]; intros s Hp Hno.
  - now split.
  - cbn [noToggle forallb snd] in Hno. apply andb_prop in Hno as [He Hno].
    assert (Hne : e <> Run.TogglePause) by (intros ->; discriminate He).
    destruct (step_paused doc e s Hp Hne) as [Hp' Hs'].
    cbn [Run.run]. destruct (IH (Run.step doc e s) Hp' Hno) as [IHp IHs].
    split; [exact IHp|congruence].
Qed.

Lemma paused_never_scrolls_witness :
  let s := Run.step Sample.bottom Run.TogglePause
             (LinkedInScanner.new Sample.bottom None) in
  let events := List.map (fun id => (Sample.bottom, Run.Fire id)) [1; 3; 4] in
  paused (state (Run.run events s)) = true
  /\ scrollCommands (Run.run events s) = scrollCommands s.
Proof.
  intros s events. apply (paused_never_scrolls events s); vm_compute; reflexivity.
Defined.

(** ** The periodic timer *)

Section Timers.

Import LinkedInScanner.

Lemma timersOk_same (s s' : Scanner) :
  timers s' = timers s -> nextTimerId s' = nextTimerId s ->
  scrollInterval (state s') = scrollInterval (state s) ->
  timersOk s -> timersOk s'.
Proof. unfold timersOk. now intros -> -> ->. Qed.

Lemma fresh_handle (ts : list Timer) (next : Z) :
  List.NoDup (List.map timerId ts) -> Forall (fun t => timerId t < next) ts ->
  List.NoDup (List.map timerId ts ++ [next]).
Proof.
  intros Hnodup Hbelow. apply List.NoDup_app; [exact Hnodup| |].
  - constructor; [intros []|constructor].
  - intros id Hin [Heq|[]]. subst id.
    apply in_map_iff in Hin as (t & Hid & Hin).
    rewrite List.Forall_forall in Hbelow. specialize (Hbelow t Hin). lia.
Qed.

Lemma setTimeout_ok (cb : Callback) (delay : Z) (s : Scanner) :
  timersOk s -> timersOk (Browser.setTimeout cb delay s).
Proof.
  intros (Hnodup & Hbelow & Hperiodic).
  unfold timersOk, Browser.setTimeout, Browser.addTimer.
  cbn [snd timers nextTimerId state]. split; [|split].
  - rewrite List.map_app. cbn [List.map timerId].
    now apply fresh_handle.
  - apply Forall_app. split.
    + eapply List.Forall_impl; [|exact Hbelow]. cbn. intros t Ht. lia.
    + constructor; [cbn; lia|constructor].
  - apply Forall_app. split; [exact Hperiodic|].
    constructor; [discriminate|constructor].
Qed.

Lemma NoDup_map_filter {A B : Type} (f : A -> B) (p : A -> bool) (l : list A) :
  List.NoDup (List.map f l) -> List.NoDup (List.map f (List.filter p l)).
Proof.
  induction l as [|x l IH]; cbn [List.map List.filter]; [auto|].
  intros H. apply List.NoDup_cons_iff in H as [Hnotin Hnodup].
  destruct (p x); cbn [List.map]; [|auto].
  apply List.NoDup_cons_iff. split; [|auto].
  intros Hin. apply Hnotin. apply in_map_iff in Hin as (y & Hy & Hin).
  apply filter_In in Hin as [Hin _]. apply in_map_iff. eauto.
Qed.

Lemma Forall_filter_keep {A : Type} (Q : A -> Prop) (p : A -> bool) (l : list A) :
  Forall Q l -> Forall Q (List.filter p l).
Proof.
  intros H. apply List.Forall_forall. intros x Hin.
  apply filter_In in Hin as [Hin _].
  rewrite List.Forall_forall in H. auto.
Qed.

Lemma no_periodic_without_handle (s : Scanner) :
  timersOk s -> scrollInterval (state s) = None ->
  Forall (fun t => isPeriodic t = false) (timers s).
Proof.
  intros (_ & _ & Hperiodic) Hiv. eapply List.Forall_impl; [|exact Hperiodic].
  cbn. intros t Ht. destruct (isPeriodic t); [|reflexivity].
  specialize (Ht eq_refl). congruence.
Qed.

Lemma filter_none (ts : list Timer) :
  Forall (fun t => isPeriodic t = false) ts -> List.filter isPeriodic ts = [].
Proof.
  induction 1 as [|t ts Ht _ IH]; [reflexivity|].
  cbn [List.filter]. now rewrite Ht.
Qed.

(** Stopping cancels the periodic timer, if there is one, and leaves no
    periodic timer behind. *)
Lemma stopScrolling_ok (s : Scanner) :
  timersOk s ->
  timersOk (stopScrolling s)
  /\ List.filter isPeriodic (timers (stopScrolling s)) = [].
Proof.
  intros (Hnodup & Hbelow & Hperiodic). unfold stopScrolling.
  destruct (scrollInterval (state s)) as [id|] eqn:Hiv.
  - assert (Hnone : Forall (fun t => isPeriodic t = false)
                      (List.filter (fun t => negb (timerId t =? id)) (timers s))).
    { apply List.Forall_forall. intros t Hin.
      apply filter_In in Hin as [Hin Hid].
      rewrite List.Forall_forall in Hperiodic. specialize (Hperiodic t Hin).
      destruct (isPeriodic t); [|reflexivity].
      specialize (Hperiodic eq_refl). injection Hperiodic as ->.
      rewrite Z.eqb_refl in Hid. discriminate Hid. }
    split.
    + unfold timersOk, Browser.clearInterval.
      cbn [timers withState withTimers nextTimerId state scrollInterval
           set_scrollInterval].
      split; [now apply NoDup_map_filter|].
      split; [now apply Forall_filter_keep|].
      eapply List.Forall_impl; [|exact Hnone]. cbn. intros t -> H. discriminate H.
    + unfold Browser.clearInterval. cbn [timers withState withTimers].
      now apply filter_none.
  - split; [unfold timersOk; now rewrite Hiv|].
    apply filter_none, no_periodic_without_handle; [|exact Hiv].
    unfold timersOk. rewrite Hiv. auto.
Qed.

Lemma runScan_ok (doc : Doc) (s : Scanner) : timersOk s -> timersOk (runScan doc s).
Proof.
  apply timersOk_same; try reflexivity.
  unfold runScan, scanPosts. cbn [state withState].
  destruct (scanLoop_frame (posts doc) 0 (state s)) as (rs & seen & ->).
  reflexivity.
Qed.

Lemma handleScrollFailure_ok (reason : FailureReason) (s : Scanner) :
  timersOk s -> timersOk (handleScrollFailure reason s).
Proof.
  intros H. unfold handleScrollFailure.
  match goal with |- timersOk (emit ?e (stopScrolling ?s')) =>
    apply (timersOk_same (stopScrolling s')); try reflexivity;
    apply stopScrolling_ok; apply (timersOk_same s); try reflexivity end.
  exact H.
Qed.

Lemma handleMaxScrollsReached_ok (s : Scanner) :
  timersOk s -> timersOk (handleMaxScrollsReached s).
Proof.
  intros H. unfold handleMaxScrollsReached.
  match goal with |- timersOk (emit ?e (stopScrolling ?s')) =>
    apply (timersOk_same (stopScrolling s')); try reflexivity;
    apply stopScrolling_ok; apply (timersOk_same s); try reflexivity end.
  exact H.
Qed.

Lemma stopScrolling_interval_paused (s : Scanner) :
  paused (state (stopScrolling s)) = paused (state s)
  /\ scrollInterval (state (stopScrolling s)) = None.
Proof.
  split; [apply stopScrolling_paused|apply stopScrolling_interval].
Qed.

(** A tick keeps the timers in order; it either leaves the pause flag and
    the handle of the periodic timer alone or ends with the timer
    cancelled. *)
Lemma scrollAndScan_ok (doc : Doc) (s : Scanner) :
  timersOk s ->
  timersOk (scrollAndScan doc s)
  /\ ((paused (state (scrollAndScan doc s)) = paused (state s)
       /\ scrollInterval (state (scrollAndScan doc s)) = scrollInterval (state s))
      \/ (scrollInterval (state (scrollAndScan doc s)) = None
          /\ CONFIG.MAX_SCROLLS <= scrollCount (state s) + 1)).
Proof.
  intros H. unfold scrollAndScan.
  destruct (paused (state s) || scrollFailureDetected (state s)); [auto|].
  unfold clickLoadMoreButton.
  destruct (findLoadMore (loadMoreButtons doc)) as [b|].
  - split; [|left; split; reflexivity].
    apply setTimeout_ok. apply (timersOk_same s); try reflexivity. exact H.
  - cbv zeta. cbn [state withState scrollCount set_scrollCount set_contentLoaded].
    destruct (Z.geb_spec (scrollCount (state s) + 1) CONFIG.MAX_SCROLLS) as [Hge|Hlt].
    + split.
      * apply handleMaxScrollsReached_ok.
        apply (timersOk_same s); try reflexivity. exact H.
      * right. split; [|lia]. unfold handleMaxScrollsReached. cbn [state emit].
        apply stopScrolling_interval.
    + split; [|left; split; reflexivity].
      apply setTimeout_ok. apply (timersOk_same s); try reflexivity. exact H.
Qed.

Lemma validateScroll_ok (doc : Doc) (prevScroll prevHeight : Z) (s : Scanner) :
  timersOk s ->
  let s' := validateScroll doc prevScroll prevHeight s in
  timersOk s'
  /\ ((paused (state s') = paused (state s)
       /\ scrollInterval (state s') = scrollInterval (state s))
      \/ scrollInterval (state s') = None).
Proof.
  intros H. cbv zeta. unfold validateScroll. cbv zeta.
  assert (Hscan : forall s0, timers s0 = timers s -> nextTimerId s0 = nextTimerId s ->
             scrollInterval (state s0) = scrollInterval (state s) ->
             paused (state s0) = paused (state s) ->
             timersOk (runScan doc s0)
             /\ ((paused (state (runScan doc s0)) = paused (state s)
                  /\ scrollInterval (state (runScan doc s0)) = scrollInterval (state s))
                 \/ scrollInterval (state (runScan doc s0)) = None)).
  { intros s0 Ht Hn Hi Hp. split.
    - apply runScan_ok. now apply (timersOk_same s).
    - left. unfold runScan, scanPosts. cbn [state withState].
      destruct (scanLoop_frame (posts doc) 0 (state s0)) as (rs & seen & ->).
      cbn. now split. }
  assert (Hfail : forall reason s0, timers s0 = timers s ->
             nextTimerId s0 = nextTimerId s ->
             scrollInterval (state s0) = scrollInterval (state s) ->
             timersOk (handleScrollFailure reason s0)
             /\ ((paused (state (handleScrollFailure reason s0)) = paused (state s)
                  /\ scrollInterval (state (handleScrollFailure reason s0))
                     = scrollInterval (state s))
                 \/ scrollInterval (state (handleScrollFailure reason s0)) = None)).
  { intros reason s0 Ht Hn Hi. split.
    - apply handleScrollFailure_ok. now apply (timersOk_same s).
    - right. unfold handleScrollFailure. cbn [state emit].
      apply stopScrolling_interval. }
  match goal with |- context [if ?b then _ else _] => destruct b end.
  { apply Hscan; reflexivity. }
  destruct (nearBottom _).
  - unfold clickLoadMoreButton.
    destruct (findLoadMore (loadMoreButtons doc)) as [b|].
    + split; [|left; split; reflexivity].
      apply setTimeout_ok. apply (timersOk_same s); try reflexivity. exact H.
    + match goal with |- context [if ?b then _ else _] => destruct b end.
      * apply Hfail; reflexivity.
      * split; [|left; split; reflexivity].
        apply setTimeout_ok. apply (timersOk_same s); try reflexivity. exact H.
  - match goal with |- context [if ?b then _ else _] => destruct b end.
    + apply Hfail; reflexivity.
    + apply Hscan; reflexivity.
Qed.

Lemma startScanning_ok (doc : Doc) (s : Scanner) :
  timersOk s -> timersOk (startScanning doc s).
Proof.
  intros H. unfold startScanning.
  destruct (scrollInterval (state s)) as [id|] eqn:Hiv; [exact H|].
  cbv zeta.
  set (s1 := withState
               (set_lastScrollHeight (maxScroll (Utils.getScrollInfo (window doc)))) s).
  assert (H1 : timersOk s1) by (apply (timersOk_same s); try reflexivity; exact H).
  destruct (scrollAndScan_ok doc s1 H1) as [H2 Hcases].
  assert (Hiv2 : scrollInterval (state (scrollAndScan doc s1)) = None).
  { destruct Hcases as [[_ ->]|[-> _]]; [exact Hiv|reflexivity]. }
  pose proof (no_periodic_without_handle _ H2 Hiv2) as Hnone.
  destruct H2 as (Hnodup & Hbelow & _).
  unfold timersOk, Browser.setInterval, Browser.addTimer.
  cbn [fst snd timers nextTimerId state withState scrollInterval set_scrollInterval].
  split; [|split].
  - rewrite List.map_app. cbn [List.map timerId].
    now apply fresh_handle.
  - apply Forall_app. split.
    + eapply List.Forall_impl; [|exact Hbelow]. cbn. intros t Ht. lia.
    + constructor; [cbn; lia|constructor].
  - apply Forall_app. split.
    + eapply List.Forall_impl; [|exact Hnone]. cbn. intros t -> Ht. discriminate Ht.
    + constructor; [reflexivity|constructor].
Qed.

Lemma afterFiring_ok (t : Timer) (s : Scanner) (now : Z) :
  timersOk s ->
  timersOk (withTimers (Run.afterFiring t (timers s)) (withClock now s)).
Proof.
  intros (Hnodup & Hbelow & Hperiodic). unfold timersOk, Run.afterFiring.
  cbn [timers withTimers withClock nextTimerId state].
  destruct (period t) as [every|].
  - set (g := fun t' : Timer =>
                if timerId t' =? timerId t
                then {| timerId := timerId t'; due := due t' + every;
                        period := period t'; callback := callback t' |}
                else t').
    assert (Hid : forall t', timerId (g t') = timerId t')
      by (intros t'; unfold g; destruct (timerId t' =? timerId t); reflexivity).
    assert (Hper : forall t', isPeriodic (g t') = isPeriodic t')
      by (intros t'; unfold g; destruct (timerId t' =? timerId t); reflexivity).
    split; [|split].
    + rewrite List.map_map. erewrite List.map_ext; [exact Hnodup|exact Hid].
    + apply List.Forall_map. eapply List.Forall_impl; [|exact Hbelow].
      cbn. intros t' Ht'. now rewrite Hid.
    + apply List.Forall_map. eapply List.Forall_impl; [|exact Hperiodic].
      cbn. intros t' Ht'. now rewrite Hid, Hper.
  - split; [now apply NoDup_map_filter|].
    split; now apply Forall_filter_keep.
Qed.

(** The two facts that every event keeps: the timers are in order, and a
    paused scanner holds no periodic timer. *)
Lemma step_ok (doc : Doc) (e : Run.Event) (s : Scanner) :
  timersOk s /\ withinCeiling (state s)
  /\ (paused (state s) = true -> scrollInterval (state s) = None) ->
  timersOk (Run.step doc e s)
  /\ (paused (state (Run.step doc e s)) = true ->
      scrollInterval (state (Run.step doc e s)) = None).
Proof.
  intros (H & Hceil & Hq). destruct e as [id|mutations| |value|]; cbn [Run.step].
  - unfold Run.fire. destruct (List.find _ (timers s)) as [t|]; [|auto].
    cbv zeta.
    set (s0 := withTimers (Run.afterFiring t (timers (withClock (Z.max (clock s) (due t)) s)))
                 (withClock (Z.max (clock s) (due t)) s)).
    assert (H0 : timersOk s0)
      by exact (afterFiring_ok t s (Z.max (clock s) (due t)) H).
    destruct (callback t) as [|prevScroll prevHeight|]; cbn [Run.runCallback].
    + split; [now apply runScan_ok|].
      unfold runScan, scanPosts. cbn [state withState].
      destruct (scanLoop_frame (posts doc) 0 (state s0)) as (rs & seen & ->).
      exact Hq.
    + destruct (validateScroll_ok doc prevScroll prevHeight s0 H0) as [H1 Hcases].
      split; [exact H1|]. destruct Hcases as [[-> ->] | ->]; [exact Hq|reflexivity].
    + destruct (scrollAndScan_ok doc s0 H0) as [H1 Hcases].
      split; [exact H1|]. destruct Hcases as [[-> ->]|[-> _]]; [exact Hq|reflexivity].
  - destruct (mutationObserver (state s)); [|auto].
    split.
    + apply (timersOk_same s); try reflexivity; [|exact H].
      unfold observerCallback. cbn [state withState].
      destruct (existsb addsPost mutations); reflexivity.
    + unfold observerCallback. cbn [state withState].
      destruct (existsb addsPost mutations); exact Hq.
  - unfold togglePause. destruct (paused (state s)) eqn:Hp.
    + split.
      * apply startScanning_ok. apply (timersOk_same s); try reflexivity. exact H.
      * unfold startScanning. cbn [state withState State.reset scrollInterval
          set_paused set_scrollRetryCount set_scrollFailureDetected set_scrollCount].
        rewrite (Hq eq_refl). cbv zeta.
        unfold Browser.setInterval, Browser.addTimer.
        cbn [fst snd state withState paused set_scrollInterval].
        match goal with |- paused (state (scrollAndScan doc ?s1)) = true -> _ =>
          assert (H1 : timersOk s1)
            by (apply (timersOk_same s); try reflexivity; exact H);
          destruct (scrollAndScan_ok doc s1 H1) as [_ [[-> _]|[_ Hmax]]] end.
        -- cbn. discriminate.
        -- cbn in Hmax. unfold CONFIG.MAX_SCROLLS in Hmax. lia.
    + destruct (stopScrolling_ok (withState (set_paused true) s)) as [H1 _].
      { apply (timersOk_same s); try reflexivity. exact H. }
      split; [exact H1|]. intros _. apply stopScrolling_interval.
  - unfold setThreshold, State.setThreshold.
    destruct value as [n| |]; try (split; assumption).
    destruct (negb _); [|split; assumption].
    destruct (localStorage _); split;
      try (apply (timersOk_same s); try reflexivity; exact H); exact Hq.
  - unfold close. cbv zeta.
    destruct (stopScrolling_ok s H) as [H1 _].
    pose proof (stopScrolling_interval s) as Hiv.
    destruct (mutationObserver (state (stopScrolling s))); split;
      try (apply (timersOk_same (stopScrolling s)); try reflexivity; exact H1);
      intros _; cbn; exact Hiv.
Qed.

Lemma new_ok (doc : Doc) (storage : Storage) :
  timersOk (LinkedInScanner.new doc storage)
  /\ (paused (state (LinkedInScanner.new doc storage)) = true ->
      scrollInterval (state (LinkedInScanner.new doc storage)) = None).
Proof.
  assert (H0 : forall st e, scrollInterval st = None ->
             timersOk {| state := st; clock := 0; timers := [];
                         nextTimerId := 1; localStorage := storage;
                         effects := e |}).
  { intros st e Hiv. unfold timersOk. cbn. repeat split; constructor. }
  unfold LinkedInScanner.new, init.
  destruct (negb (validateEnvironment doc)).
  - split; [apply (H0 _ [AlertWrongPage]); reflexivity|]. cbn. discriminate.
  - split.
    + apply startScanning_ok. unfold setupMutationObserver.
      destruct (hasMutationObserver doc); apply H0; reflexivity.
    + unfold startScanning, setupMutationObserver.
      destruct (hasMutationObserver doc);
        cbn [state withState scrollInterval set_mutationObserver State.new];
        cbv zeta; unfold Browser.setInterval, Browser.addTimer;
        cbn [fst snd state withState paused set_scrollInterval];
        match goal with |- paused (state (scrollAndScan doc ?s1)) = true -> _ =>
          assert (H1 : timersOk s1) by (apply H0; reflexivity);
          destruct (scrollAndScan_ok doc s1 H1) as [_ [[-> _]|[_ Hmax]]] end;
        try (cbn; discriminate);
        cbn in Hmax; unfold CONFIG.MAX_SCROLLS in Hmax; lia.
Qed.

Lemma run_ok (events : list (Doc * Run.Event)) (s : Scanner) :
  timersOk s /\ withinCeiling (state s)
  /\ (paused (state s) = true -> scrollInterval (state s) = None) ->
  timersOk (Run.run events s)
  /\ (paused (state (Run.run events s)) = true ->
      scrollInterval (state (Run.run events s)) = None).
Proof.
  revert s. induction events as [|[doc e] events IH]; intros s H.
  - destruct H as (H & _ & Hq). now split.
  - cbn [Run.run]. apply IH. destruct (step_ok doc e s H) as [H1 Hq1].
    split; [exact H1|]. split; [|exact Hq1].
    apply step_ceiling. apply H.
Qed.

Lemma one_periodic (ts : list Timer) (id : Z) :
  List.NoDup (List.map timerId ts) ->
  Forall (fun t => isPeriodic t = true -> timerId t = id) ts ->
  (length (List.filter isPeriodic ts) <= 1)%nat.
Proof.
  intros Hnodup Hall.
  assert (Hids : forall t, In t (List.filter isPeriodic ts) -> timerId t = id).
  { intros t Hin. apply filter_In in Hin as [Hin Hp].
    rewrite List.Forall_forall in Hall. auto. }
  pose proof (NoDup_map_filter timerId isPeriodic ts Hnodup) as Hnd.
  destruct (List.filter isPeriodic ts) as [|a [|b rest]]; cbn [length]; try lia.
  exfalso. cbn [List.map] in Hnd.
  apply List.NoDup_cons_iff in Hnd as [Hnotin _]. apply Hnotin. left.
  rewrite (Hids a), (Hids b); cbn; auto.
Qed.

End Timers.

(** X6: in every run there is at most one periodic timer pending, it is
    the one whose handle [scrollInterval] holds, the handles of all pending
    timers are distinct, and a paused scanner has no periodic timer at
    all: pausing, failing, the scroll ceiling and [close] all cancel it,
    and [startScanning] never installs a second one. *)
Theorem single_periodic_timer (doc : Doc) (storage : Storage)
    (events : list (Doc * Run.Event)) :
  let s := Run.run events (LinkedInScanner.new doc storage) in
  (length (List.filter isPeriodic (timers s)) <= 1)%nat
  /\ Forall (fun t => isPeriodic t = true ->
                      scrollInterval (state s) = Some (timerId t)) (timers s)
  /\ List.NoDup (List.map timerId (timers s))
  /\ (paused (state s) = true -> List.filter isPeriodic (timers s) = []).
Proof.
  cbv zeta.
  destruct (new_ok doc storage) as [H0 Hq0].
  destruct (run_ok events (LinkedInScanner.new doc storage)) as [H Hq].
  { split; [exact H0|]. split; [apply new_ceiling|exact Hq0]. }
  set (s := Run.run events (LinkedInScanner.new doc storage)) in *.
  pose proof H as (Hnodup & _ & Hperiodic).
  split; [|split; [exact Hperiodic|split; [exact Hnodup|]]].
  - destruct (scrollInterval (state s)) as [id|] eqn:Hiv.
    + apply (one_periodic (timers s) id Hnodup).
      eapply List.Forall_impl; [|exact Hperiodic]. cbn.
      intros t Ht Hp. specialize (Ht Hp). congruence.
    + rewrite (filter_none (timers s)); [cbn; lia|].
      now apply no_periodic_without_handle.
  - intros Hp. apply filter_none, no_periodic_without_handle; auto.
Qed.

Lemma single_periodic_timer_witness :
  let s := Run.run [(Sample.bottom, Run.TogglePause)]
             (LinkedInScanner.new Sample.bottom None) in
  List.filter isPeriodic (timers s) = [].
Proof.
  intros s.
  apply (proj2 (proj2 (proj2 (single_periodic_timer Sample.bottom None
                                [(Sample.bottom, Run.TogglePause)])))).
  vm_compute. reflexivity.
Defined.

(** X7: resuming a paused scanner that holds no periodic timer, which is
    how every run leaves a paused or failed scanner, clears the pause, the
    failure flag and the retry counter, keeps the results, the seen
    identifiers and the threshold, and installs a periodic tick
    [SCROLL_INTERVAL_MS] from now.  Without a load-more button it also
    scrolls at once, as scroll number 1. *)
Theorem resume_recovers (doc : Doc) (s : Scanner) :
  paused (state s) = true -> scrollInterval (state s) = None ->
  let s' := LinkedInScanner.togglePause doc s in
  paused (state s') = false
  /\ scrollFailureDetected (state s') = false
  /\ scrollRetryCount (state s') = 0
  /\ storeOf (state s') = storeOf (state s)
  /\ (exists t, In t (timers s')
                /\ scrollInterval (state s') = Some (timerId t)
                /\ period t = Some CONFIG.SCROLL_INTERVAL_MS
                /\ callback t = CbScrollAndScan
                /\ due t = clock s + CONFIG.SCROLL_INTERVAL_MS)
  /\ (LinkedInScanner.findLoadMore (loadMoreButtons doc) = None ->
      scrollCount (state s') = 1
      /\ effects s'
         = ScrollTo (maxScroll (Utils.getScrollInfo (window doc))) :: effects s).
Proof.
  intros Hp Hiv. cbv zeta.
  split; [|split; [|split; [|split; [apply togglePause_store|]]]];
    destruct s as [st now ts next storage log]; destruct st;
    cbn [state paused scrollInterval] in Hp, Hiv; subst;
    unfold LinkedInScanner.togglePause, LinkedInScanner.startScanning,
      LinkedInScanner.scrollAndScan, LinkedInScanner.clickLoadMoreButton,
      State.reset;
    cbn [state withState paused scrollInterval scrollFailureDetected
         set_paused set_scrollRetryCount set_scrollFailureDetected
         set_scrollCount set_lastScrollHeight orb];
    cbv zeta;
    destruct (LinkedInScanner.findLoadMore (loadMoreButtons doc)) as [b|];
    cbn; try reflexivity.
  - split; [|discriminate].
    eexists. split; [apply in_or_app; right; left; reflexivity|].
    cbn. repeat split.
  - split; [|intros _; split; reflexivity].
    eexists. split; [apply in_or_app; right; left; reflexivity|].
    cbn. repeat split.
Qed.

Lemma resume_recovers_witness :
  let failed := Run.runPunctual (repeat Sample.bottom 6)
                  (LinkedInScanner.new Sample.bottom None) in
  let s' := LinkedInScanner.togglePause Sample.bottom failed in
  scrollFailureDetected (state failed) = true
  /\ paused (state s') = false
  /\ scrollFailureDetected (state s') = false
  /\ scrollRetryCount (state s') = 0.
Proof.
  intros failed s'. split; [vm_compute; reflexivity|].
  destruct (resume_recovers Sample.bottom failed) as (H1 & H2 & H3 & _);
    [vm_compute; reflexivity..|].
  repeat split; assumption.
Defined.

(** ** The load-more button *)

Section LoadMore.

Import LinkedInScanner.

Lemma tryTexts_clickable (b : LoadMoreButton) (texts : list jsstring) :
  tryTexts b texts
  = existsb (fun text => JS.includes text (buttonText b)) texts
    && negb (lm_clickThrows b).
Proof.
  induction texts as [|text texts IH]; [reflexivity|].
  cbn [tryTexts existsb]. destruct (JS.includes text (buttonText b)); [|exact IH].
  destruct (lm_clickThrows b); [|reflexivity].
  rewrite IH. cbn. now rewrite !andb_false_r.
Qed.

End LoadMore.

(** X8: [clickLoadMoreButton] activates the first button in document order
    whose trimmed text contains one of the load-more phrases and whose
    click does not throw; a matching button whose click throws is passed
    over, and with no such button the call returns false and changes
    nothing. *)
Theorem load_more_first_clickable (doc : Doc) (s : Scanner) :
  LinkedInScanner.findLoadMore (loadMoreButtons doc)
  = List.find clickable (loadMoreButtons doc)
  /\ LinkedInScanner.clickLoadMoreButton doc s
     = match List.find clickable (loadMoreButtons doc) with
       | Some b => (true, emit (Click b) s)
       | None => (false, s)
       end.
Proof.
  assert (Hfind : forall bs, LinkedInScanner.findLoadMore bs = List.find clickable bs).
  { induction bs as [|b bs IH]; [reflexivity|].
    cbn [LinkedInScanner.findLoadMore List.find]. unfold clickable at 1.
    rewrite tryTexts_clickable, IH. reflexivity. }
  split; [apply Hfind|].
  unfold LinkedInScanner.clickLoadMoreButton. now rewrite Hfind.
Qed.

(** ** Progress *)



(** ** The wrong page *)

(** X10: started on a page whose address does not contain
    [linkedin.com/feed], the scanner raises its alert and nothing else: no
    scroll, no timer, no observer; and no timer or mutation can change it
    afterwards. *)
Theorem wrong_page_inert (doc : Doc) (storage : Storage)
    (events : list (Doc * Run.Event)) :
  LinkedInScanner.validateEnvironment doc = false ->
  onlyBrowser events = true ->
  LinkedInScanner.new doc storage
  = {| state := State.new storage; clock := 0; timers := [];
       nextTimerId := 1; localStorage := storage;
       effects := [AlertWrongPage] |}
  /\ Run.run events (LinkedInScanner.new doc storage)
     = LinkedInScanner.new doc storage.
Proof.
  intros Hwrong Honly.
  assert (Hnew : LinkedInScanner.new doc storage
                 = {| state := State.new storage; clock := 0; timers := [];
                      nextTimerId := 1; localStorage := storage;
                      effects := [AlertWrongPage] |}).
  { unfold LinkedInScanner.new, LinkedInScanner.init. now rewrite Hwrong. }
  split; [exact Hnew|]. rewrite Hnew.
  induction events as [|[d e] events IH]; [reflexivity|].
  cbn [onlyBrowser forallb snd] in Honly. apply andb_prop in Honly as [He Honly].
  cbn [Run.run]. destruct e as [id|mutations| |value|]; try discriminate He;
    cbn [Run.step]; [unfold Run.fire; cbn|cbn]; exact (IH Honly).
Qed.

Lemma wrong_page_inert_witness :
  let doc := {| posts := posts Sample.scenarioA; loadMoreButtons := [];
                window := Sample.endOfFeed;
                href := lit "https://www.linkedin.com/in/someone/";
                hasMutationObserver := true |} in
  timers (Run.run [(doc, Run.Fire 1); (doc, Run.Fire 2)]
            (LinkedInScanner.new doc None)) = []
  /\ effects (LinkedInScanner.new doc None) = [AlertWrongPage].
Proof.
  intros doc.
  destruct (wrong_page_inert doc None [(doc, Run.Fire 1); (doc, Run.Fire 2)])
    as [Hnew Hrun]; [vm_compute; reflexivity..|].
  rewrite Hrun, Hnew. split; reflexivity.
Defined.

(** ** Numbers with separators and post ids *)

Section Grouping.

Import JS.

Lemma digit_not_separator (c : N) : isDigit c = true -> isSeparator c = false.
Proof.
  intros Hc. unfold isDigit in Hc. apply andb_prop in Hc as [Hlo Hhi].
  apply N.leb_le in Hlo, Hhi.
  unfold isSeparator, Utils.isDot, Utils.isComma, isWhiteSpace.
  repeat match goal with
         | |- context [(?a =? ?b)%N] =>
             replace (a =? b)%N with false by (symmetry; apply N.eqb_neq; lia)
         | |- context [(?a <=? ?b)%N] =>
             first [ replace (a <=? b)%N with false
                       by (symmetry; apply N.leb_gt; lia)
                   | replace (a <=? b)%N with true
                       by (symmetry; apply N.leb_le; lia) ]
         end.
  reflexivity.
Qed.

Lemma spanDigits_run (run rest : jsstring) :
  forallb isDigit run = true ->
  match rest with
  | [] => True
  | c :: _ => isDigit c = false
  end ->
  spanDigits (run ++ rest) = (run, rest).
Proof.
  intros Hrun Hrest. induction run as [|c run IH]; cbn [app].
  - destruct rest as [|c rest]; [reflexivity|]. cbn [spanDigits]. now rewrite Hrest.
  - cbn [forallb] in Hrun. apply andb_prop in Hrun as [Hc Hrun].
    cbn [spanDigits]. rewrite Hc, (IH Hrun). reflexivity.
Qed.

Lemma matchDigits_run (run rest : jsstring) :
  run <> [] -> forallb isDigit run = true ->
  match rest with
  | [] => True
  | c :: _ => isDigit c = false
  end ->
  matchDigits (run ++ rest) = Some run.
Proof.
  intros Hne Hrun Hrest. destruct run as [|c run]; [congruence|].
  pose proof (spanDigits_run (c :: run) rest Hrun Hrest) as Hspan.
  pose proof Hrun as Hc. cbn [forallb] in Hc. apply andb_prop in Hc as [Hc _].
  cbn [app matchDigits]. rewrite Hc.
  cbn [app] in Hspan. now rewrite Hspan.
Qed.

Lemma filter_kept_group (group : jsstring) :
  forallb (fun c => isDigit c || isSeparator c) group = true ->
  List.filter kept group = List.filter isDigit group.
Proof.
  induction group as [|c group IH]; [reflexivity|].
  cbn [forallb List.filter]. intros H. apply andb_prop in H as [Hc Hgroup].
  rewrite (IH Hgroup). change (kept c) with (negb (isSeparator c)).
  destruct (isDigit c) eqn:Hd.
  - now rewrite (digit_not_separator c Hd).
  - cbn [orb] in Hc. now rewrite Hc.
Qed.

End Grouping.

(** X11: [extractNumber] reads a number through its separators: when the
    text starts with a group made of digits, dots, commas and white space
    that holds a digit, and what is left of the rest after cleaning does
    not start with a digit, the result is the number written by the digits
    of the group alone, when that number is a safe integer. *)
Theorem extractNumber_grouped (group rest : jsstring) :
  forallb (fun c => JS.isDigit c || isSeparator c) group = true ->
  existsb JS.isDigit group = true ->
  JS.isSafeInteger (Z.of_N (JS.digitsValue (List.filter JS.isDigit group))) = true ->
  match Utils.cleaned rest with
  | [] => True
  | c :: _ => JS.isDigit c = false
  end ->
  Utils.extractNumber (group ++ rest)
  = Z.of_N (JS.digitsValue (List.filter JS.isDigit group)).
Proof.
  intros Hgroup Hdigit _ Hrest. unfold Utils.extractNumber.
  rewrite cleaned_filter, List.filter_app, (filter_kept_group group Hgroup).
  rewrite <- cleaned_filter. rewrite matchDigits_run; [reflexivity| | |exact Hrest].
  - apply existsb_exists in Hdigit as (c & Hin & Hc).
    intros Hnil. assert (Hin' : In c (List.filter JS.isDigit group))
      by (apply filter_In; auto).
    rewrite Hnil in Hin'. exact Hin'.
  - apply forallb_forall. intros c Hin. apply filter_In in Hin as [_ Hc]. exact Hc.
Qed.

Lemma extractNumber_grouped_witness :
  Utils.extractNumber (lit "12.345 " ++ lit "comments; 7 reposts") = 12345
  /\ Utils.extractNumber ([49; 8239; 50; 51; 52]%N ++ lit " commentaires") = 1234.
Proof.
  split.
  - rewrite extractNumber_grouped; vm_compute; auto.
  - rewrite extractNumber_grouped; vm_compute; auto.
Defined.

Section PostId.

Import LinkedInScanner.

Lemma matchActivity_cons (c : N) (s : jsstring) :
  matchActivity (c :: s)
  = if JS.startsWith (lit "activity:") (c :: s)
    then match fst (JS.spanDigits (skipn 9 (c :: s))) with
         | [] => matchActivity s
         | run => Some run
         end
    else matchActivity s.
Proof. reflexivity. Qed.

Lemma matchActivity_skip (c : N) (s : jsstring) :
  JS.startsWith (lit "activity:") (c :: s) = false ->
  matchActivity (c :: s) = matchActivity s.
Proof. intros H. rewrite matchActivity_cons. now rewrite H. Qed.

Lemma startsWith_app (prefix s : jsstring) :
  JS.startsWith prefix (prefix ++ s) = true.
Proof.
  induction prefix as [|a prefix IH]; [now destruct s|].
  cbn [app]. unfold JS.startsWith. fold JS.startsWith.
  now rewrite N.eqb_refl, IH.
Qed.

Lemma skipn_prefix (prefix s : jsstring) :
  skipn (length prefix) (prefix ++ s) = s.
Proof. induction prefix as [|a prefix IH]; [reflexivity|exact IH]. Qed.

Lemma matchActivity_here (digits rest : jsstring) :
  digits <> [] -> forallb JS.isDigit digits = true ->
  match rest with
  | [] => True
  | c :: _ => JS.isDigit c = false
  end ->
  matchActivity (lit "activity:" ++ digits ++ rest) = Some digits.
Proof.
  intros Hne Hdigits Hrest.
  change (lit "activity:" ++ digits ++ rest)
    with (97%N :: (lit "ctivity:" ++ digits ++ rest)).
  rewrite matchActivity_cons.
  change (97%N :: (lit "ctivity:" ++ digits ++ rest))
    with (lit "activity:" ++ digits ++ rest).
  rewrite startsWith_app.
  replace (skipn 9 (lit "activity:" ++ digits ++ rest)) with (digits ++ rest)
    by (symmetry; apply (skipn_prefix (lit "activity:"))).
  rewrite (spanDigits_run digits rest Hdigits Hrest). cbn [fst].
  destruct digits; [congruence|reflexivity].
Qed.

End PostId.

(** X12: for an identifier of LinkedIn's form, [urn:li:activity:] followed
    by digits and then by nothing or by something that is no digit, the
    post id shown in the exports is exactly the digits. *)
Theorem postId_of_activity (post : Post) (digits rest : jsstring) :
  digits <> [] -> forallb JS.isDigit digits = true ->
  match rest with
  | [] => True
  | c :: _ => JS.isDigit c = false
  end ->
  LinkedInScanner.postIdOf (scanned post (lit "urn:li:activity:" ++ digits ++ rest))
  = digits.
Proof.
  intros Hne Hdigits Hrest. unfold LinkedInScanner.postIdOf, scanned. cbn [link].
  pose proof (matchActivity_here digits rest Hne Hdigits Hrest) as Hhere.
  set (tail := lit "activity:" ++ digits ++ rest) in *.
  let prefix := eval vm_compute in (CONFIG.UPDATE_URL ++ lit "urn:li:") in
  change (CONFIG.UPDATE_URL ++ lit "urn:li:activity:" ++ digits ++ rest)
    with (prefix ++ tail).
  cbn [app]. unfold tail at 1.
  repeat (rewrite matchActivity_skip by reflexivity).
  fold tail. now rewrite Hhere.
Qed.

Lemma postId_of_activity_witness :
  LinkedInScanner.postIdOf
    (scanned (Sample.post "urn:li:activity:7001" "250")
       (lit "urn:li:activity:" ++ lit "7001" ++ lit ",urn:li:group:9"))
  = lit "7001".
Proof.
  apply postId_of_activity; [discriminate|reflexivity|reflexivity].
Defined.

(** X13: posts without a usable identifier are left alone: when no post of
    the document carries, on itself or on its nearest ancestor with a
    [data-id], an identifier that contains [activity:], [scanPosts] finds
    nothing, stores nothing and records nothing as seen. *)
Theorem scanPosts_ignores_foreign (doc : Doc) (st : ScannerState) :
  Forall (fun post =>
            match LinkedInScanner.getPostDataId post with
            | Some id => JS.includes (lit "activity:") id = false
            | None => True
            end) (posts doc) ->
  LinkedInScanner.scanPosts doc st = (0, st).
Proof.
  intros Hforeign. unfold LinkedInScanner.scanPosts. apply scanLoop_no_valid.
  eapply List.Forall_impl; [|exact Hforeign]. cbn. intros post Hpost.
  unfold LinkedInScanner.isValidPost.
  destruct (LinkedInScanner.getPostDataId post) as [[|c id]|]; try reflexivity.
  rewrite Hpost. apply andb_false_r.
Qed.

Lemma scanPosts_ignores_foreign_witness :
  let ad := {| post_dataId := None;
               post_ancestors := [None; Some (lit "urn:li:sponsored:42")];
               post_buttons := [Sample.counts "900"] |} in
  LinkedInScanner.scanPosts (Sample.page [ad] [] Sample.endOfFeed) Sample.fresh
  = (0, Sample.fresh).
Proof.
  intros ad. apply scanPosts_ignores_foreign.
  constructor; [vm_compute; reflexivity|constructor].
Defined.

(** ** Ticks and validations in step *)

Section Cadence.

Import LinkedInScanner.

Lemma filter_length_le {A : Type} (p q : A -> bool) (l : list A) :
  (length (List.filter q (List.filter p l)) <= length (List.filter q l))%nat.
Proof.
  induction l as [|x l IH]; cbn [List.filter length]; [lia|].
  destruct (p x); cbn [List.filter]; destruct (q x); cbn [length]; lia.
Qed.

Lemma cadence_filter (p : Timer -> bool) (ts : list Timer) (now : Z) :
  cadenceOf ts now -> cadenceOf (List.filter p ts) now.
Proof.
  intros (Hkind & Hone & Hbefore & Hdue). split; [|split; [|split]].
  - now apply Forall_filter_keep.
  - etransitivity; [apply filter_length_le|exact Hone].
  - apply Forall_filter_keep. eapply List.Forall_impl; [|exact Hbefore].
    cbn. intros v Hv Hval. apply Forall_filter_keep. auto.
  - now apply Forall_filter_keep.
Qed.

Lemma cadence_clock (ts : list Timer) (now now' : Z) :
  cadenceOf ts now ->
  Forall (fun p => isPeriodic p = true -> now' <= due p) ts ->
  cadenceOf ts now'.
Proof. intros (Hkind & Hone & Hbefore & _) Hdue. repeat split; assumption. Qed.

Lemma cadence_add_scan (ts : list Timer) (now : Z) (t : Timer) :
  cadenceOf ts now -> period t = None -> callback t = CbScanPosts ->
  cadenceOf (ts ++ [t]) now.
Proof.
  intros (Hkind & Hone & Hbefore & Hdue) Hperiod Hcb.
  assert (Hp : isPeriodic t = false) by (unfold isPeriodic; now rewrite Hperiod).
  assert (Hv : isValidation t = false) by (unfold isValidation; now rewrite Hcb).
  split; [|split; [|split]].
  - apply Forall_app. split; [exact Hkind|].
    constructor; [now rewrite Hcb|constructor].
  - rewrite List.filter_app, List.length_app. cbn [List.filter].
    rewrite Hv. cbn [length]. lia.
  - apply Forall_app. split.
    + eapply List.Forall_impl; [|exact Hbefore]. cbn. intros v H Hval.
      apply Forall_app. split; [auto|].
      constructor; [rewrite Hp; discriminate|constructor].
    + constructor; [rewrite Hv; discriminate|constructor].
  - apply Forall_app. split; [exact Hdue|].
    constructor; [rewrite Hp; discriminate|constructor].
Qed.

Lemma cadence_add_validation (ts : list Timer) (now : Z) (t : Timer)
    (prevScroll prevHeight : Z) :
  cadenceOf ts now -> List.filter isValidation ts = [] ->
  period t = None -> callback t = CbValidateScroll prevScroll prevHeight ->
  Forall (fun p => isPeriodic p = true -> due t < due p) ts ->
  cadenceOf (ts ++ [t]) now.
Proof.
  intros (Hkind & Hone & Hbefore & Hdue) Hnone Hperiod Hcb Hlt.
  assert (Hp : isPeriodic t = false) by (unfold isPeriodic; now rewrite Hperiod).
  assert (Hv : isValidation t = true) by (unfold isValidation; now rewrite Hcb).
  split; [|split; [|split]].
  - apply Forall_app. split; [exact Hkind|].
    constructor; [now rewrite Hcb|constructor].
  - rewrite List.filter_app, List.length_app, Hnone. cbn [List.filter].
    rewrite Hv. cbn [length]. lia.
  - apply Forall_app. split.
    + apply List.Forall_forall. intros v Hin Hval. exfalso.
      assert (Hin' : In v (List.filter isValidation ts))
        by (apply filter_In; auto).
      rewrite Hnone in Hin'. exact Hin'.
    + constructor; [|constructor]. intros _.
      apply Forall_app. split; [exact Hlt|].
      constructor; [rewrite Hp; discriminate|constructor].
  - apply Forall_app. split; [exact Hdue|].
    constructor; [rewrite Hp; discriminate|constructor].
Qed.

Lemma nextDue_spec (ts : list Timer) (t : Timer) :
  Run.nextDue ts = Some t ->
  In t ts /\ Forall (fun t' => due t <= due t') ts.
Proof.
  revert t. induction ts as [|a ts IH]; intros t; cbn [Run.nextDue];
    [discriminate|].
  destruct (Run.nextDue ts) as [b|] eqn:Hb.
  - destruct (IH b eq_refl) as [Hin Hmin].
    destruct (Z.ltb_spec (due b) (due a)) as [Hlt|Hge]; intros [= <-].
    + split; [now right|]. constructor; [lia|exact Hmin].
    + split; [now left|]. constructor; [lia|].
      eapply List.Forall_impl; [|exact Hmin]. cbn. intros t' Ht'. lia.
  - intros [= <-]. split; [now left|].
    destruct ts as [|c ts]; [repeat constructor; lia|].
    cbn [Run.nextDue] in Hb. destruct (Run.nextDue ts); [|discriminate Hb].
    destruct (due t <? due c); discriminate Hb.
Qed.

Lemma same_handle_same_timer (ts : list Timer) (x y : Timer) :
  List.NoDup (List.map timerId ts) -> In x ts -> In y ts ->
  timerId x = timerId y -> x = y.
Proof.
  induction ts as [|a ts IH]; cbn [List.map]; intros Hnodup Hx Hy Hid; [destruct Hx|].
  apply List.NoDup_cons_iff in Hnodup as [Hnotin Hnodup].
  destruct Hx as [->|Hx], Hy as [->|Hy]; auto.
  - exfalso. apply Hnotin. rewrite Hid. now apply in_map.
  - exfalso. apply Hnotin. rewrite <- Hid. now apply in_map.
Qed.

Lemma find_handle (ts : list Timer) (t : Timer) :
  List.NoDup (List.map timerId ts) -> In t ts ->
  List.find (fun t' => timerId t' =? timerId t) ts = Some t.
Proof.
  intros Hnodup Hin.
  destruct (List.find (fun t' => timerId t' =? timerId t) ts) as [x|] eqn:Hfind.
  - apply find_some in Hfind as [Hx Hid]. apply Z.eqb_eq in Hid.
    f_equal. now apply (same_handle_same_timer ts).
  - exfalso. pose proof (find_none _ _ Hfind t Hin) as H. cbn in H.
    rewrite Z.eqb_refl in H. discriminate H.
Qed.

(** What a tick does to the timers. *)
Lemma scrollAndScan_timers (doc : Doc) (s : Scanner) :
  clock (scrollAndScan doc s) = clock s
  /\ ((exists p, timers (scrollAndScan doc s) = List.filter p (timers s))
      \/ (exists t, timers (scrollAndScan doc s) = timers s ++ [t]
                    /\ period t = None /\ callback t = CbScanPosts)
      \/ (exists t prevScroll prevHeight,
            timers (scrollAndScan doc s) = timers s ++ [t]
            /\ period t = None
            /\ callback t = CbValidateScroll prevScroll prevHeight
            /\ due t = clock s + CONFIG.SCROLL_DETECTION_DELAY)).
Proof.
  assert (Hsame : forall ts : list Timer, exists p, ts = List.filter p ts)
    by (intros ts; exists (fun _ => true); now rewrite List.filter_true).
  unfold scrollAndScan.
  destruct (paused (state s) || scrollFailureDetected (state s));
    [split; [reflexivity|left; apply Hsame]|].
  unfold clickLoadMoreButton.
  destruct (findLoadMore (loadMoreButtons doc)) as [b|].
  - split; [reflexivity|]. right. left. eexists. split; [reflexivity|]. now split.
  - cbv zeta.
    match goal with |- context [if ?b then _ else _] => destruct b end.
    + unfold handleMaxScrollsReached, stopScrolling.
      cbn [state withState scrollInterval set_paused set_contentLoaded
           set_scrollCount].
      destruct (scrollInterval (state s)) as [id|].
      * split; [reflexivity|]. left. eexists. reflexivity.
      * split; [reflexivity|]. left. apply Hsame.
    + split; [reflexivity|]. right. right. do 3 eexists.
      split; [reflexivity|]. repeat split.
Qed.

(** What a validation does to the timers when it schedules no retry. *)
Lemma validateScroll_timers (doc : Doc) (prevScroll prevHeight : Z) (s : Scanner) :
  Driver.stall doc prevScroll prevHeight s
  && nearBottom (Utils.getScrollInfo (window doc))
  && (scrollRetryCount (state s) + 1 <? CONFIG.MAX_SCROLL_RETRIES) = false ->
  let s' := validateScroll doc prevScroll prevHeight s in
  clock s' = clock s
  /\ ((exists p, timers s' = List.filter p (timers s))
      \/ (exists t, timers s' = timers s ++ [t]
                    /\ period t = None /\ callback t = CbScanPosts)).
Proof.
  assert (Hsame : forall ts : list Timer, exists p, ts = List.filter p ts)
    by (intros ts; exists (fun _ => true); now rewrite List.filter_true).
  assert (Hfail : forall reason s0, timers s0 = timers s -> clock s0 = clock s ->
            scrollInterval (state s0) = scrollInterval (state s) ->
            clock (handleScrollFailure reason s0) = clock s
            /\ ((exists p, timers (handleScrollFailure reason s0)
                           = List.filter p (timers s))
                \/ (exists t, timers (handleScrollFailure reason s0) = timers s ++ [t]
                              /\ period t = None /\ callback t = CbScanPosts))).
  { intros reason s0 Ht Hc Hi. unfold handleScrollFailure, stopScrolling.
    cbn [state withState scrollInterval set_paused set_scrollFailureDetected].
    rewrite Hi. destruct (scrollInterval (state s)) as [id|].
    - split; [exact Hc|]. left. cbn. rewrite Ht. eexists. reflexivity.
    - split; [exact Hc|]. left. cbn. rewrite Ht. apply Hsame. }
  intros Hno. cbv zeta. unfold validateScroll. cbv zeta.
  unfold Driver.stall, Driver.noProgress, Driver.loadMoreAtBottom in Hno.
  unfold clickLoadMoreButton.
  set (progress := (maxScroll (Utils.getScrollInfo (window doc)) >? prevHeight + 100)
                   || (Z.abs (currentScroll (Utils.getScrollInfo (window doc))
                              - prevScroll) >? 50)
                   || contentLoaded (state s)) in *.
  set (near := nearBottom (Utils.getScrollInfo (window doc))) in *.
  set (found := findLoadMore (loadMoreButtons doc)) in *.
  clearbody progress near found.
  destruct progress.
  { split; [reflexivity|]. left. apply Hsame. }
  destruct near.
  - destruct found as [b|].
    + split; [reflexivity|]. right. eexists. split; [reflexivity|]. now split.
    + cbn [state withState scrollRetryCount set_scrollRetryCount].
      destruct (Z.geb_spec (scrollRetryCount (state s) + 1) CONFIG.MAX_SCROLL_RETRIES)
        as [Hge|Hlt].
      * apply Hfail; reflexivity.
      * exfalso. cbn in Hno. apply Z.ltb_lt in Hlt. rewrite Hlt in Hno.
        discriminate Hno.
  - match goal with |- context [if ?b then _ else _] => destruct b end.
    + apply Hfail; reflexivity.
    + split; [reflexivity|]. left. apply Hsame.
Qed.

End Cadence.

Section Punctual.

Import LinkedInScanner.

Lemma filter_nil {A : Type} (p : A -> bool) (l : list A) :
  Forall (fun x => p x = false) l -> List.filter p l = [].
Proof.
  induction 1 as [|x l Hx _ IH]; [reflexivity|].
  cbn [List.filter]. now rewrite Hx.
Qed.

Lemma kind_periodic (t : Timer) :
  match callback t with
  | CbScrollAndScan => period t = Some CONFIG.SCROLL_INTERVAL_MS
  | _ => period t = None
  end ->
  (isPeriodic t = true -> callback t = CbScrollAndScan)
  /\ (isValidation t = true -> isPeriodic t = false).
Proof.
  unfold isPeriodic, isValidation.
  destruct (callback t); intros ->; split; intros H;
    try reflexivity; discriminate H.
Qed.

(** After a timeout has fired and gone, the remaining timers are in step
    at the time it was due. *)
Lemma cadence_after_timeout (ts : list Timer) (now : Z) (t : Timer)
    (p : Timer -> bool) :
  cadenceOf ts now -> Forall (fun t' => due t <= due t') ts ->
  cadenceOf (List.filter p ts) (Z.max now (due t)).
Proof.
  intros Hc Hmin. apply (cadence_clock _ now); [now apply cadence_filter|].
  apply Forall_filter_keep. destruct Hc as (_ & _ & _ & Hdue).
  rewrite List.Forall_forall in *. intros q Hin Hq.
  specialize (Hdue q Hin Hq). specialize (Hmin q Hin). lia.
Qed.

(** After the periodic tick has fired and has been put off by its period,
    no validation is pending, and a validation scheduled now falls before
    the next tick. *)
Lemma cadence_after_tick (s : Scanner) (t : Timer) :
  timersOk s -> cadence s -> In t (timers s) ->
  Forall (fun t' => due t <= due t') (timers s) ->
  callback t = CbScrollAndScan ->
  let ts := Run.afterFiring t (timers s) in
  let now := Z.max (clock s) (due t) in
  cadenceOf ts now
  /\ List.filter isValidation ts = []
  /\ Forall (fun p => isPeriodic p = true ->
                      now + CONFIG.SCROLL_DETECTION_DELAY < due p) ts.
Proof.
  intros (Hnodup & _ & Hhandle) (Hkind & Hone & Hbefore & Hdue) Hin Hmin Hcb.
  cbv zeta.
  pose proof Hkind as Hkt. rewrite List.Forall_forall in Hkt.
  pose proof (Hkt t Hin) as Hperiod. rewrite Hcb in Hperiod.
  assert (Hpt : isPeriodic t = true) by (unfold isPeriodic; now rewrite Hperiod).
  assert (Hnow : clock s <= due t).
  { rewrite List.Forall_forall in Hdue. now apply Hdue. }
  assert (Hnoval : Forall (fun v => isValidation v = false) (timers s)).
  { apply List.Forall_forall. intros v Hv.
    destruct (isValidation v) eqn:Hval; [exfalso|reflexivity].
    rewrite List.Forall_forall in Hbefore, Hmin.
    specialize (Hbefore v Hv Hval). rewrite List.Forall_forall in Hbefore.
    specialize (Hbefore t Hin Hpt). specialize (Hmin v Hv). lia. }
  assert (Hone_tick : forall x, In x (timers s) -> isPeriodic x = true -> x = t).
  { intros x Hx Hpx. apply (same_handle_same_timer (timers s)); auto.
    rewrite List.Forall_forall in Hhandle.
    pose proof (Hhandle x Hx Hpx) as H1. pose proof (Hhandle t Hin Hpt) as H2.
    congruence. }
  unfold Run.afterFiring. rewrite Hperiod.
  set (g := fun t' : Timer =>
              if timerId t' =? timerId t
              then {| timerId := timerId t';
                      due := due t' + CONFIG.SCROLL_INTERVAL_MS;
                      period := period t'; callback := callback t' |}
              else t').
  assert (Hg : forall x, callback (g x) = callback x /\ period (g x) = period x
                         /\ isValidation (g x) = isValidation x
                         /\ isPeriodic (g x) = isPeriodic x).
  { intros x. unfold g. destruct (timerId x =? timerId t); repeat split. }
  assert (Hgt : due (g t) = due t + CONFIG.SCROLL_INTERVAL_MS)
    by (unfold g; now rewrite Z.eqb_refl).
  assert (Hnoval' : List.filter isValidation (List.map g (timers s)) = []).
  { apply filter_nil, List.Forall_map.
    eapply List.Forall_impl; [|exact Hnoval]. cbn. intros x Hx.
    now rewrite (proj1 (proj2 (proj2 (Hg x)))). }
  assert (Hnext : Forall (fun p => isPeriodic p = true ->
                     Z.max (clock s) (due t) + CONFIG.SCROLL_DETECTION_DELAY < due p)
                    (List.map g (timers s))).
  { apply List.Forall_map, List.Forall_forall. intros x Hx Hpx.
    rewrite (proj2 (proj2 (proj2 (Hg x)))) in Hpx.
    rewrite (Hone_tick x Hx Hpx), Hgt.
    unfold CONFIG.SCROLL_DETECTION_DELAY, CONFIG.SCROLL_INTERVAL_MS. lia. }
  split; [|split; [exact Hnoval'|exact Hnext]].
  split; [|split; [|split]].
  - apply List.Forall_map. eapply List.Forall_impl; [|exact Hkind].
    cbn. intros x Hx. destruct (Hg x) as (-> & -> & _). exact Hx.
  - rewrite Hnoval'. cbn. lia.
  - apply List.Forall_forall. intros v Hv Hval. exfalso.
    assert (Hv' : In v (List.filter isValidation (List.map g (timers s))))
      by (apply filter_In; auto).
    rewrite Hnoval' in Hv'. exact Hv'.
  - eapply List.Forall_impl; [|exact Hnext]. cbn. intros p Hp Hpp.
    specialize (Hp Hpp). unfold CONFIG.SCROLL_DETECTION_DELAY in Hp. lia.
Qed.

(** One timer fires on time and schedules no retry: the timers stay in
    step. *)
Lemma punctual_step (doc : Doc) (s : Scanner) (t : Timer) :
  timersOk s -> cadence s -> Run.nextDue (timers s) = Some t ->
  schedulesRetry doc t s = false ->
  cadence (Run.fire doc (timerId t) s).
Proof.
  intros Hok Hc Hnext Hno.
  destruct (nextDue_spec _ _ Hnext) as [Hin Hmin].
  pose proof Hok as (Hnodup & _ & _).
  unfold Run.fire. rewrite (find_handle _ _ Hnodup Hin). cbv zeta.
  pose proof Hc as (Hkind & _). rewrite List.Forall_forall in Hkind.
  pose proof (Hkind t Hin) as Hperiod.
  destruct (callback t) as [|prevScroll prevHeight|] eqn:Hcb;
    cbn [Run.runCallback].
  - unfold cadence, runScan, Run.afterFiring. rewrite Hperiod.
    cbn [timers clock withState withTimers withClock].
    now apply cadence_after_timeout.
  - unfold schedulesRetry in Hno. rewrite Hcb in Hno.
    match goal with |- cadence (validateScroll doc _ _ ?s0) =>
      destruct (validateScroll_timers doc prevScroll prevHeight s0 Hno)
        as [Hclock Htimers]; set (s1 := s0) in * end.
    assert (H0 : cadenceOf (timers s1) (clock s1)).
    { unfold s1, Run.afterFiring. rewrite Hperiod.
      cbn [timers clock withTimers withClock].
      now apply cadence_after_timeout. }
    unfold cadence. rewrite Hclock.
    destruct Htimers as [[p ->]|(t' & -> & Hp' & Hcb')].
    + now apply cadence_filter.
    + now apply cadence_add_scan.
  - destruct (cadence_after_tick s t Hok Hc Hin Hmin Hcb) as (H0 & Hnoval & Hlt).
    match goal with |- cadence (scrollAndScan doc ?s0) =>
      destruct (scrollAndScan_timers doc s0) as [Hclock Htimers];
      set (s1 := s0) in * end.
    change (timers s1) with (Run.afterFiring t (timers s)) in Htimers.
    change (clock s1) with (Z.max (clock s) (due t)) in Hclock, Htimers.
    unfold cadence. rewrite Hclock.
    destruct Htimers as [[p ->]|[(t' & -> & Hp' & Hcb')
                                |(t' & a & b & -> & Hp' & Hcb' & Hdue')]].
    + now apply cadence_filter.
    + now apply cadence_add_scan.
    + apply (cadence_add_validation _ _ t' a b); auto.
      eapply List.Forall_impl; [|exact Hlt]. cbn. intros p Hp Hpp.
      rewrite Hdue'. auto.
Qed.

Lemma cadence_add_tick (ts : list Timer) (now : Z) (tick : Timer) :
  cadenceOf ts now -> Forall (fun t => isPeriodic t = false) ts ->
  Forall (fun v => isValidation v = true -> due v < due tick) ts ->
  period tick = Some CONFIG.SCROLL_INTERVAL_MS -> callback tick = CbScrollAndScan ->
  now <= due tick ->
  cadenceOf (ts ++ [tick]) now.
Proof.
  intros (Hkind & Hone & Hbefore & Hdue) Hnone Hlt Hperiod Hcb Hnow.
  assert (Hv : isValidation tick = false) by (unfold isValidation; now rewrite Hcb).
  split; [|split; [|split]].
  - apply Forall_app. split; [exact Hkind|].
    constructor; [now rewrite Hcb|constructor].
  - rewrite List.filter_app, List.length_app. cbn [List.filter].
    rewrite Hv. cbn [length]. lia.
  - apply Forall_app. split.
    + rewrite List.Forall_forall in *. intros v Hin Hval.
      apply Forall_app. split.
      * apply List.Forall_forall. intros p Hp Hpp.
        rewrite (Hnone p Hp) in Hpp. discriminate Hpp.
      * constructor; [intros _; now apply Hlt|constructor].
    + constructor; [rewrite Hv; discriminate|constructor].
  - apply Forall_app. split; [exact Hdue|].
    constructor; [intros _; exact Hnow|constructor].
Qed.

Lemma new_cadence (doc : Doc) (storage : Storage) :
  cadence (LinkedInScanner.new doc storage).
Proof.
  assert (Hnil : forall now, cadenceOf [] now).
  { intros now. repeat split; try constructor. cbn. lia. }
  unfold LinkedInScanner.new, init.
  destruct (negb (validateEnvironment doc)); [apply Hnil|].
  match goal with |- cadence (startScanning doc ?s) => set (s0 := s) end.
  assert (Ht0 : timers s0 = [] /\ clock s0 = 0
                /\ scrollInterval (state s0) = None).
  { unfold s0, setupMutationObserver.
    destruct (hasMutationObserver doc); repeat split. }
  destruct Ht0 as (Ht0 & Hc0 & Hi0).
  unfold startScanning. rewrite Hi0. cbv zeta.
  match goal with |- context [scrollAndScan doc ?s] => set (s1 := s) end.
  destruct (scrollAndScan_timers doc s1) as [Hclock Htimers].
  change (timers s1) with (timers s0) in Htimers.
  change (clock s1) with (clock s0) in Hclock, Htimers.
  rewrite Ht0, Hc0 in *.
  unfold cadence, Browser.setInterval, Browser.addTimer.
  cbn [fst snd timers clock withState]. rewrite Hclock.
  destruct Htimers as [[p ->]|[(t' & -> & Hp' & Hcb')
                              |(t' & a & b & -> & Hp' & Hcb' & Hdue')]].
  - cbn [List.filter]. apply cadence_add_tick; auto; try constructor.
    cbn. unfold CONFIG.SCROLL_INTERVAL_MS. lia.
  - apply cadence_add_tick; try reflexivity; cbn [app].
    + apply (cadence_add_scan [] 0 t'); auto.
    + constructor; [unfold isPeriodic; now rewrite Hp'|constructor].
    + constructor; [|constructor]. unfold isValidation. rewrite Hcb'. discriminate.
    + cbn. unfold CONFIG.SCROLL_INTERVAL_MS. lia.
  - apply cadence_add_tick; try reflexivity; cbn [app].
    + apply (cadence_add_validation [] 0 t' a b); auto.
    + constructor; [unfold isPeriodic; now rewrite Hp'|constructor].
    + constructor; [|constructor]. intros _. cbn [due]. rewrite Hdue'.
      unfold CONFIG.SCROLL_DETECTION_DELAY, CONFIG.SCROLL_INTERVAL_MS. lia.
    + cbn. unfold CONFIG.SCROLL_INTERVAL_MS. lia.
Qed.

End Punctual.

(** X14: with timers that fire on time and no user action, ticks do not
    overlap as long as no validation schedules a retry, that is stalls
    near the bottom of the page with retries left: at every moment at most
    one validation is pending, and it is due before the next tick. *)
Theorem punctual_ticks_in_step (doc : Doc) (storage : Storage) (docs : list Doc) :
  avoidsRetry docs (LinkedInScanner.new doc storage) = true ->
  let s := Run.runPunctual docs (LinkedInScanner.new doc storage) in
  (Run.pendingValidations s <= 1)%nat /\ cadence s.
Proof.
  intros Havoid. cbv zeta.
  assert (Hinv : forall docs s,
            timersOk s /\ withinCeiling (state s)
            /\ (paused (state s) = true -> scrollInterval (state s) = None) ->
            cadence s -> avoidsRetry docs s = true ->
            cadence (Run.runPunctual docs s)).
  { clear. induction docs as [|d docs IH]; intros s Hs Hc Havoid; [exact Hc|].
    cbn [Run.runPunctual avoidsRetry] in *.
    destruct (Run.nextDue (timers s)) as [t|] eqn:Hnext; [|exact Hc].
    apply andb_prop in Havoid as [Hno Havoid]. apply negb_true_iff in Hno.
    apply IH; [| |exact Havoid].
    - destruct (step_ok d (Run.Fire (timerId t)) s Hs) as [H1 H2].
      split; [exact H1|]. split; [|exact H2].
      apply (step_ceiling d (Run.Fire (timerId t))). apply Hs.
    - apply punctual_step; auto. apply Hs. }
  assert (Hc : cadence (Run.runPunctual docs (LinkedInScanner.new doc storage))).
  { apply Hinv; [|apply new_cadence|exact Havoid].
    destruct (new_ok doc storage) as [H1 H2].
    split; [exact H1|]. split; [apply new_ceiling|exact H2]. }
  split; [|exact Hc]. exact (proj1 (proj2 Hc)).
Qed.

Lemma punctual_ticks_in_step_witness :
  let feed := fun height =>
    Sample.page (posts Sample.scenarioA) []
      {| docScrollHeight := height; bodyScrollHeight := height;
         scrollY := height - 800; pageYOffset := height - 800;
         innerHeight := 800; clientHeight := 800 |} in
  let docs := [feed 6000; feed 6000; feed 7000; feed 7000; feed 8000] in
  let s := Run.runPunctual docs (LinkedInScanner.new (feed 5000) None) in
  clock s = 10500
  /\ scrollCount (state s) = 3
  /\ (Run.pendingValidations s <= 1)%nat.
Proof.
  intros feed docs s.
  split; [vm_compute; reflexivity|]. split; [vm_compute; reflexivity|].
  apply (punctual_ticks_in_step (feed 5000) None docs). vm_compute. reflexivity.
Defined.

(** ** What a scan collects *)

Section Complete.

Import LinkedInScanner.

Lemma isValidPost_other (id id' : jsstring) (st st' : ScannerState) :
  seenPostIds st' = {[ id ]} ∪ seenPostIds st -> id' <> id ->
  isValidPost (Some id') st = true -> isValidPost (Some id') st' = true.
Proof.
  intros Hseen Hne. unfold isValidPost. destruct id' as [|c id']; [auto|].
  rewrite !andb_true_iff, !negb_true_iff, !bool_decide_eq_false, Hseen.
  intros [Hnew Hact]. split; [set_solver|exact Hact].
Qed.

Lemma scanLoop_complete (posts : list Post) (n : Z) (st : ScannerState) :
  storedSeen st ->
  Forall (fun post => isValidPost (getPostDataId post) st = true) posts ->
  List.NoDup (List.map getPostDataId posts) ->
  fst (scanLoop posts n st)
  = n + Z.of_nat (length (flat_map (hitOf (commentThreshold st)) posts))
  /\ results (snd (scanLoop posts n st))
     = rev (flat_map (hitOf (commentThreshold st)) posts) ++ results st
  /\ Forall (fun post => exists id,
               getPostDataId post = Some id
               /\ id ∈ seenPostIds (snd (scanLoop posts n st))) posts.
Proof.
  revert n st. induction posts as [|post posts IH]; intros n st Hst Hvalid Hnodup.
  - cbn. split; [lia|]. split; [reflexivity|constructor].
  - inversion Hvalid as [|? ? Hpost Hposts]; subst.
    cbn [List.map] in Hnodup.
    apply List.NoDup_cons_iff in Hnodup as [Hfresh Hnodup].
    destruct (getPostDataId post) as [id|] eqn:Hid; [|discriminate Hpost].
    assert (Hrest : forall st', seenPostIds st' = {[ id ]} ∪ seenPostIds st ->
              Forall (fun post' => isValidPost (getPostDataId post') st' = true) posts).
    { intros st' Hseen. rewrite List.Forall_forall in *. intros post' Hin.
      specialize (Hposts post' Hin).
      destruct (getPostDataId post') as [id'|] eqn:Hid'; [|discriminate Hposts].
      apply (isValidPost_other id id' st st' Hseen); [|exact Hposts].
      intros ->. apply Hfresh. rewrite <- Hid'. now apply in_map. }
    assert (Hseen1 : storedSeen (set_seenPostIds ({[id]} ∪ seenPostIds st) st)).
    { eapply storedSeen_mono; [| |exact Hst]; [reflexivity|cbn; set_solver]. }
    assert (Hhead : forall st', seenPostIds st' = {[ id ]} ∪ seenPostIds st ->
              forall m, id ∈ seenPostIds (snd (scanLoop posts m st'))).
    { intros st' Hseen m. eapply elem_of_weaken; [|apply scanLoop_seen_mono].
      rewrite Hseen. set_solver. }
    rewrite scanLoop_cons, Hid, Hpost. cbv zeta.
    cbn [flat_map]. unfold hitOf at 1 3. rewrite Hid.
    destruct (getCommentCount post >=? commentThreshold st).
    + rewrite (valid_not_stored post id st Hst Hpost).
      set (st2 := set_results (scanned post id :: results st)
                    (set_seenPostIds ({[id]} ∪ seenPostIds st) st)).
      destruct (IH (n + 1) st2) as (Hcount & Hres & Hall).
      * unfold storedSeen, st2. cbn [results set_results set_seenPostIds seenPostIds].
        constructor; [|exact Hseen1]. exists id. split; [reflexivity|set_solver].
      * apply Hrest. reflexivity.
      * exact Hnodup.
      * change (commentThreshold st2) with (commentThreshold st) in *.
        split; [rewrite Hcount; cbn [app length]; lia|]. split.
        -- rewrite Hres. cbn [app rev results set_results st2].
           now rewrite <- app_assoc.
        -- constructor; [|exact Hall].
           exists id. split; [exact Hid|]. now apply Hhead.
    + set (st1 := set_seenPostIds ({[id]} ∪ seenPostIds st) st).
      destruct (IH n st1) as (Hcount & Hres & Hall);
        [exact Hseen1|now apply Hrest|exact Hnodup|].
      change (commentThreshold st1) with (commentThreshold st) in *.
      split; [exact Hcount|]. split; [exact Hres|].
      constructor; [|exact Hall].
      exists id. split; [exact Hid|]. now apply Hhead.
Qed.

End Complete.

(** X15: a scan misses nothing.  In a state whose stored results all
    belong to seen identifiers, as every run keeps it, and on a document
    whose posts carry distinct identifiers that are all valid, [scanPosts]
    stores exactly the posts whose count reaches the threshold, the later
    post in front of the earlier, returns their number, and records the
    identifier of every post as seen. *)
Theorem scanPosts_complete (doc : Doc) (st : ScannerState) :
  storedSeen st ->
  Forall (fun post =>
            LinkedInScanner.isValidPost (LinkedInScanner.getPostDataId post) st
            = true) (posts doc) ->
  List.NoDup (List.map LinkedInScanner.getPostDataId (posts doc)) ->
  let hits := flat_map (hitOf (commentThreshold st)) (posts doc) in
  fst (LinkedInScanner.scanPosts doc st) = Z.of_nat (length hits)
  /\ results (snd (LinkedInScanner.scanPosts doc st)) = rev hits ++ results st
  /\ Forall (fun post => exists id,
               LinkedInScanner.getPostDataId post = Some id
               /\ id ∈ seenPostIds (snd (LinkedInScanner.scanPosts doc st)))
            (posts doc).
Proof.
  intros Hst Hvalid Hnodup. cbv zeta. unfold LinkedInScanner.scanPosts.
  destruct (scanLoop_complete (posts doc) 0 st Hst Hvalid Hnodup)
    as (Hcount & Hres & Hall).
  split; [rewrite Hcount; lia|]. split; assumption.
Qed.

Lemma scanPosts_complete_witness :
  let doc := Sample.page [ Sample.post "urn:li:activity:7001" "250";
                           Sample.post "urn:li:activity:7002" "50";
                           Sample.post "urn:li:activity:7003" "1.100" ]
               [] Sample.endOfFeed in
  fst (LinkedInScanner.scanPosts doc Sample.fresh) = 2
  /\ List.map comments (results (snd (LinkedInScanner.scanPosts doc Sample.fresh)))
     = [1100; 250].
Proof.
  intros doc.
  destruct (scanPosts_complete doc Sample.fresh) as (Hcount & Hres & _).
  - constructor.
  - repeat constructor.
  - cbn [posts doc Sample.page List.map].
    repeat (apply List.NoDup_cons_iff; split;
            [vm_compute; intuition discriminate|]).
    constructor.
  - rewrite Hcount, Hres. split; vm_compute; reflexivity.
Defined.

(** X16: a change of threshold is not retroactive: after a scan of a
    document, whatever value [setThreshold] is then called with, accepted
    or not, scanning the same document again changes nothing; posts seen
    below the old threshold are not taken up, and stored results are not
    dropped. *)
Theorem threshold_not_retroactive (doc : Doc) (value : JS.value) (s : Scanner) :
  let s1 := LinkedInScanner.runScan doc s in
  let s2 := LinkedInScanner.setThreshold value s1 in
  results (state s2) = results (state s1)
  /\ LinkedInScanner.runScan doc s2 = s2.
Proof.
  cbv zeta. split; [apply setThreshold_results|].
  set (s1 := LinkedInScanner.runScan doc s).
  assert (Hinvalid : Forall (fun post =>
            LinkedInScanner.isValidPost (LinkedInScanner.getPostDataId post)
              (state s1) = false) (posts doc)).
  { unfold s1, LinkedInScanner.runScan, LinkedInScanner.scanPosts.
    cbn [state withState]. apply scanLoop_invalidates. }
  assert (Hscan : forall st, seenPostIds st = seenPostIds (state s1) ->
            snd (LinkedInScanner.scanPosts doc st) = st).
  { intros st Hseen. unfold LinkedInScanner.scanPosts.
    rewrite scanLoop_no_valid; [reflexivity|].
    eapply List.Forall_impl; [|exact Hinvalid]. cbn. intros post H.
    eapply isValidPost_seen; [|exact H]. now rewrite Hseen. }
  assert (Hseen : seenPostIds (state (LinkedInScanner.setThreshold value s1))
                  = seenPostIds (state s1)).
  { unfold LinkedInScanner.setThreshold, State.setThreshold.
    destruct value as [n| |]; try reflexivity.
    destruct (negb _); [|reflexivity].
    destruct (localStorage _); reflexivity. }
  unfold LinkedInScanner.runScan at 1.
  destruct (LinkedInScanner.setThreshold value s1) as [st now ts next storage log].
  unfold withState. cbn [state clock timers nextTimerId localStorage effects] in *.
  now rewrite (Hscan st Hseen).
Qed.
